(** * Paperless-ngx / n8n bridge server: a shallow embedding of
      [src/mcp_server.py] and the properties of its handlers.

    The server is a set of [async] Python functions that call two REST
    services through [requests] and reshape the JSON they get back.  The
    embedding keeps that shape:

    - JSON bodies are values of [Json]; a Python [dict] with string keys is a
      finite map [gmap string Json];
    - a Python exception is a value of [Exception]; code that can raise is a
      computation in [Result] (pure code) or in [M] (code that talks to an
      upstream service);
    - the upstream services are a function [upstream] from the requests sent
      so far and the request being sent to the outcome of that request; the
      state threaded through [M] is the log of requests, oldest first.

    Scope of the model.  JSON numbers are integers (every number the handlers
    look at is an identifier or a count).  A string is a sequence of code
    points below 256, on which [str.lower] works character by character.
    Authentication headers are constants of the configuration and are left
    out of [Request]. *)

From stdpp Require Import gmap strings list fin_maps.
From Stdlib Require Import ZArith Ascii.
From Stdlib Require DecimalString DecimalZ.

Local Open Scope string_scope.
Local Open Scope list_scope.
Local Open Scope Z_scope.

(** ** JSON values *)

#[warning="-register-all"]
Inductive Json : Type :=
| JNull
| JBool (b : bool)
| JInt (z : Z)
| JStr (s : string)
| JList (l : list Json)
| JObj (m : gmap string Json).

Global Instance Json_inhabited : Inhabited Json := populate JNull.

Global Instance Json_eq_dec : EqDecision Json.
Proof.
  refine (fix go (a b : Json) {struct a} : Decision (a = b) :=
    let _ : EqDecision Json := @go in
    match a, b with
    | JNull, JNull => left _
    | JBool x, JBool y => cast_if (decide (x = y))
    | JInt x, JInt y => cast_if (decide (x = y))
    | JStr x, JStr y => cast_if (decide (x = y))
    | JList x, JList y => cast_if (decide (x = y))
    | JObj x, JObj y => cast_if (decide (x = y))
    | _, _ => right _
    end); abstract congruence.
Defined.

(** ** Python exceptions *)

(** [RequestException] stands for the whole [requests.exceptions] hierarchy
    ([ConnectionError], [HTTPError] raised by [raise_for_status],
    [JSONDecodeError] raised by [response.json()]).  [status] is the status
    code of the response when there is one, [message] the text of the
    error. *)
Inductive Exception : Type :=
| RequestException (status : option Z) (message : string)
| HTTPException (status_code : Z) (detail : string)
| KeyError (key : string)
| TypeError
| AttributeError.

Global Instance Exception_eq_dec : EqDecision Exception.
Proof. solve_decision. Defined.

(** Pure code that may raise. *)
Definition Result (A : Type) : Type := Exception + A.

Definition rbind {A B} (r : Result A) (k : A -> Result B) : Result B :=
  match r with
  | inl e => inl e
  | inr a => k a
  end.

Declare Scope result_scope.
Delimit Scope result_scope with result.
Notation "x <-? r ;; k" := (rbind r (fun x => k))
  (at level 100, r at next level, right associativity) : result_scope.

(** ** Python primitives on JSON values *)

Module Py.

(** [bool(j)] *)
Definition truthy (j : Json) : bool :=
  match j with
  | JNull => false
  | JBool b => b
  | JInt z => negb (z =? 0)
  | JStr s => negb (bool_decide (s = ""))
  | JList l => negb (bool_decide (l = []))
  | JObj m => negb (bool_decide (m = ∅))
  end.

(** [==] on JSON values is structural, except that the booleans are the
    integers 0 and 1; [norm] maps a value to the representative of its
    class. *)
Fixpoint norm (j : Json) : Json :=
  match j with
  | JBool b => JInt (if b then 1 else 0)
  | JList l => JList (map norm l)
  | JObj m => JObj (norm <$> m)
  | _ => j
  end.

Definition eq (a b : Json) : bool := bool_decide (norm a = norm b).

(** [d.get(key, default)]: only a dict has [get]. *)
Definition get (d : Json) (key : string) (dflt : Json) : Result Json :=
  match d with
  | JObj m => inr (default dflt (m !! key))
  | _ => inl AttributeError
  end.

(** [d[key]] for a string [key]. *)
Definition getitem (d : Json) (key : string) : Result Json :=
  match d with
  | JObj m =>
      match m !! key with
      | Some v => inr v
      | None => inl (KeyError key)
      end
  | _ => inl TypeError
  end.

(** [c.lower()] on one code point: A-Z and the capital letters of the
    Latin-1 block (0xC0-0xDE without the multiplication sign 0xD7) move
    up by 32. *)
Definition lower_char (c : ascii) : ascii :=
  let n := N_of_ascii c in
  if ((65 <=? n) && (n <=? 90)
      || (192 <=? n) && (n <=? 222) && negb (n =? 215))%N
  then ascii_of_N (n + 32) else c.

Fixpoint lower_string (s : string) : string :=
  match s with
  | EmptyString => EmptyString
  | String c s' => String (lower_char c) (lower_string s')
  end.

(** [j.lower()]: only a [str] has [lower]. *)
Definition lower (j : Json) : Result string :=
  match j with
  | JStr s => inr (lower_string s)
  | _ => inl AttributeError
  end.

(** [a in b] on two [str]: [a] occurs in [b] as a contiguous run. *)
Fixpoint str_in (a b : string) : bool :=
  String.prefix a b ||
  match b with
  | EmptyString => false
  | String _ b' => str_in a b'
  end.

(** [x in l] for a Python list [l]. *)
Definition list_in (x : Json) (l : list Json) : bool := existsb (eq x) l.

Definition hashable (j : Json) : bool :=
  match j with
  | JList _ | JObj _ => false
  | _ => true
  end.

(** [x in c] for a JSON value [c]. *)
Definition contains (x c : Json) : Result bool :=
  match c with
  | JList l => inr (list_in x l)
  | JStr s =>
      match x with
      | JStr a => inr (str_in a s)
      | _ => inl TypeError
      end
  | JObj m =>
      match x with
      | JStr k => inr (bool_decide (is_Some (m !! k)))
      | _ => if hashable x then inr false else inl TypeError
      end
  | _ => inl TypeError
  end.

(** [for x in c]: the elements in iteration order.  The keys of a dict
    come in the order of the finite map, which does not record Python's
    insertion order. *)
Definition iter (c : Json) : Result (list Json) :=
  match c with
  | JList l => inr l
  | JStr s => inr (map (fun ch => JStr (String ch EmptyString)) (String.list_ascii_of_string s))
  | JObj m => inr (map (fun kv => JStr kv.1) (map_to_list m))
  | _ => inl TypeError
  end.

(** [c.append(x)]: only a list has [append]. *)
Definition append (c x : Json) : Result Json :=
  match c with
  | JList l => inr (JList (l ++ [x]))
  | _ => inl AttributeError
  end.

(** [a + l] for a Python list [l]. *)
Definition add_list (a : Json) (l : list Json) : Result (list Json) :=
  match a with
  | JList l0 => inr (l0 ++ l)
  | _ => inl TypeError
  end.

(** The elements of [set(l)], each class of [==] once, in the order of
    first occurrence. *)
Fixpoint dedup (l : list Json) : list Json :=
  match l with
  | [] => []
  | x :: l' => x :: List.filter (fun y => negb (eq x y)) (dedup l')
  end.

(** [l[:n]] *)
Definition slice_to (n : Z) (l : list Json) : list Json :=
  if 0 <=? n then take (Z.to_nat n) l
  else take (Z.to_nat (Z.of_nat (length l) + n)) l.

(** [{**a, **b}] for a dict [b]: [a] has to be a mapping. *)
Definition merge (a : Json) (b : gmap string Json) : Result (gmap string Json) :=
  match a with
  | JObj m => inr (b ∪ m)
  | _ => inl TypeError
  end.

End Py.

(** ** Requests and the upstream services *)

Inductive Endpoint : Type :=
| Documents                          (* {PAPERLESS_API_URL}/documents/ *)
| Document (document_id : Z)         (* {PAPERLESS_API_URL}/documents/{document_id}/ *)
| Tags                               (* {PAPERLESS_API_URL}/tags/ *)
| Correspondents                     (* {PAPERLESS_API_URL}/correspondents/ *)
| DocumentTypes                      (* {PAPERLESS_API_URL}/document_types/ *)
| Workflows                          (* {N8N_API_URL}/workflows *)
| WorkflowTrigger (workflow_id : string). (* {N8N_API_URL}/workflows/{workflow_id}/trigger *)

Inductive Request : Type :=
| GET (url : Endpoint) (params : gmap string Json)
| PUT (url : Endpoint) (json : Json)
| POST (url : Endpoint) (json : Json).

Global Instance Endpoint_eq_dec : EqDecision Endpoint.
Proof. solve_decision. Defined.

Global Instance Request_eq_dec : EqDecision Request.
Proof. solve_decision. Defined.

(** What one [requests] call followed by [raise_for_status()] and [json()]
    comes to: a [RequestException], or the parsed body. *)
Inductive Outcome : Type :=
| Failed (status : option Z) (message : string)
| Body (body : Json).

(** A write is a request that replaces a document. *)
Definition is_write (r : Request) : bool :=
  match r with
  | PUT _ _ => true
  | _ => false
  end.

(** ** Computations that talk to the upstream services *)

Definition M (A : Type) : Type := list Request -> Result A * list Request.

Definition ret {A} (a : A) : M A := fun log => (inr a, log).

Definition raise {A} (e : Exception) : M A := fun log => (inl e, log).

Definition bind {A B} (m : M A) (k : A -> M B) : M B :=
  fun log =>
    match m log with
    | (inl e, log') => (inl e, log')
    | (inr a, log') => k a log'
    end.

Definition lift {A} (r : Result A) : M A := fun log => (r, log).

(** [try: body except RequestException as e: handler] *)
Definition except_RequestException {A} (body : M A) (handler : Exception -> M A) : M A :=
  fun log =>
    match body log with
    | (inl (RequestException s m), log') => handler (RequestException s m) log'
    | r => r
    end.

(** [try: body except Exception as e: handler] *)
Definition except_Exception {A} (body : M A) (handler : Exception -> M A) : M A :=
  fun log =>
    match body log with
    | (inl e, log') => handler e log'
    | r => r
    end.

Declare Scope M_scope.
Delimit Scope M_scope with M.
Notation "x <- m ;; k" := (bind m (fun x => k))
  (at level 100, m at next level, right associativity) : M_scope.

(** A dict display [{k1: v1, ...}] with distinct keys. *)
Definition dict (items : list (string * Json)) : Json :=
  JObj (list_to_map items).

(** [if l:] for an optional list argument. *)
Definition given {A} (l : option (list A)) : bool :=
  match l with
  | Some (_ :: _) => true
  | _ => false
  end.

(** An insertion-ordered dict, as [tag_mapping] is iterated: a key that is
    set again keeps its place and takes the new value. *)
Fixpoint odict_set (k : string) (v : Json) (d : list (string * Json))
  : list (string * Json) :=
  match d with
  | [] => [(k, v)]
  | (k', v') :: d' =>
      if decide (k = k') then (k, v) :: d' else (k', v') :: odict_set k v d'
  end.

(** [[x for x in l if cond(x)]] where [cond] may raise. *)
Fixpoint filter_result (cond : Json -> Result bool) (l : list Json)
  : Result (list Json) :=
  match l with
  | [] => inr []
  | x :: l' =>
      (keep <-? cond x ;;
       rest <-? filter_result cond l' ;;
       inr (if keep then x :: rest else rest))%result
  end.

(** ** The server *)

Section Server.

(** The two upstream services: the outcome of a request, given the
    requests sent before it. *)
Variable upstream : list Request -> Request -> Outcome.

(** [str(e)] *)
Variable str : Exception -> string.

(** The order in which [list(set(l))] enumerates the distinct elements
    of [l]. *)
Variable set_order : list Json -> list Json.

(** [datetime.datetime.now().isoformat()] *)
Variable now : string.

Local Open Scope M_scope.

(** [requests.get/put/post(...)], [response.raise_for_status()] and
    [response.json()] *)
Definition requests (r : Request) : M Json :=
  fun log =>
    (match upstream log r with
     | Failed s m => inl (RequestException s m)
     | Body j => inr j
     end, log ++ [r]).

(** *** Upstream clients *)

(** The query parameters of the document listing: [page_size] always,
    a filter when its argument is truthy. *)
Definition documents_params
    (query tag_id correspondent_id document_type_id created_after
     created_before : Json) (limit : Z) : gmap string Json :=
  let params : gmap string Json := {["page_size" := JInt limit]} in
  let params := if Py.truthy query then <["query" := query]> params else params in
  let params := if Py.truthy tag_id then <["tags__id" := tag_id]> params else params in
  let params :=
    if Py.truthy correspondent_id
    then <["correspondent__id" := correspondent_id]> params else params in
  let params :=
    if Py.truthy document_type_id
    then <["document_type__id" := document_type_id]> params else params in
  let params :=
    if Py.truthy created_after
    then <["created__gte" := created_after]> params else params in
  if Py.truthy created_before
  then <["created__lte" := created_before]> params else params.

Definition fetch_paperless_documents
    (query tag_id correspondent_id document_type_id created_after
     created_before : Json) (limit : Z) : M Json :=
  let params :=
    documents_params query tag_id correspondent_id document_type_id
      created_after created_before limit in
  except_RequestException
    (data <- requests (GET Documents params) ;;
     lift (Py.get data "results" (JList [])))
    (fun e => raise (HTTPException 500 ("Error fetching documents: " +:+ str e))).

Definition fetch_paperless_document (document_id : Z) : M Json :=
  except_RequestException
    (requests (GET (Document document_id) ∅))
    (fun e => raise (HTTPException 500 ("Error fetching document: " +:+ str e))).

Definition fetch_paperless_tags : M Json :=
  except_RequestException
    (data <- requests (GET Tags ∅) ;;
     lift (Py.get data "results" (JList [])))
    (fun e => raise (HTTPException 500 ("Error fetching tags: " +:+ str e))).

Definition fetch_paperless_correspondents : M Json :=
  except_RequestException
    (data <- requests (GET Correspondents ∅) ;;
     lift (Py.get data "results" (JList [])))
    (fun e => raise (HTTPException 500 ("Error fetching correspondents: " +:+ str e))).

Definition fetch_paperless_document_types : M Json :=
  except_RequestException
    (data <- requests (GET DocumentTypes ∅) ;;
     lift (Py.get data "results" (JList [])))
    (fun e => raise (HTTPException 500 ("Error fetching document types: " +:+ str e))).

Definition trigger_n8n_workflow (workflow_id : string) (data : Json) : M Json :=
  except_RequestException
    (requests (POST (WorkflowTrigger workflow_id) data))
    (fun e => raise (HTTPException 500 ("Error triggering workflow: " +:+ str e))).

Definition fetch_n8n_workflows : M Json :=
  except_RequestException
    (requests (GET Workflows ∅))
    (fun e => raise (HTTPException 500 ("Error fetching workflows: " +:+ str e))).

Definition update_paperless_document
    (document_id : Z) (update_data : gmap string Json) : M Json :=
  except_RequestException
    ((* First get the current document to avoid partial updates *)
     current_doc <- fetch_paperless_document document_id ;;
     (* Merge the update data with the current document data *)
     updated_doc <- lift (Py.merge current_doc update_data) ;;
     (* Send the update request *)
     requests (PUT (Document document_id) (JObj updated_doc)))
    (fun e => raise (HTTPException 500 ("Error updating document: " +:+ str e))).

(** *** Resources *)

Definition get_documents
    (query tag_id correspondent_id document_type_id created_after
     created_before : Json) (limit : Z) : M Json :=
  except_Exception
    (documents <- fetch_paperless_documents query tag_id correspondent_id
                    document_type_id created_after created_before limit ;;
     ret (dict [("documents", documents)]))
    (fun e => ret (dict [("error", JStr (str e)); ("documents", JList [])])).

Definition get_document (document_id : Z) : M Json :=
  except_Exception
    (document <- fetch_paperless_document document_id ;;
     ret (dict [("document", document)]))
    (fun e => ret (dict [("error", JStr (str e)); ("document", JNull)])).

Definition get_tags : M Json :=
  except_Exception
    (tags <- fetch_paperless_tags ;;
     ret (dict [("tags", tags)]))
    (fun e => ret (dict [("error", JStr (str e)); ("tags", JList [])])).

Definition get_correspondents : M Json :=
  except_Exception
    (correspondents <- fetch_paperless_correspondents ;;
     ret (dict [("correspondents", correspondents)]))
    (fun e => ret (dict [("error", JStr (str e)); ("correspondents", JList [])])).

Definition get_document_types : M Json :=
  except_Exception
    (document_types <- fetch_paperless_document_types ;;
     ret (dict [("document_types", document_types)]))
    (fun e => ret (dict [("error", JStr (str e)); ("document_types", JList [])])).

Definition get_workflows : M Json :=
  except_Exception
    (workflows <- fetch_n8n_workflows ;;
     ret (dict [("workflows", workflows)]))
    (fun e => ret (dict [("error", JStr (str e)); ("workflows", JList [])])).

(** *** Tools *)

Definition tool_trigger_workflow
    (workflow_id : string) (document_id : Z) (additional_data : Json) : M Json :=
  except_Exception
    ((* Fetch document data *)
     document <- fetch_paperless_document document_id ;;
     (* Prepare payload for the workflow *)
     let payload : gmap string Json :=
       <["timestamp" := JStr now]> {["document" := document]} in
     (* Add any additional data *)
     let payload :=
       if Py.truthy additional_data
       then <["additional_data" := additional_data]> payload else payload in
     (* Trigger the workflow *)
     result <- trigger_n8n_workflow workflow_id (JObj payload) ;;
     ret (dict [("success", JBool true);
                ("workflow_id", JStr workflow_id);
                ("document_id", JInt document_id);
                ("result", result)]))
    (fun e =>
       ret (dict [("success", JBool false);
                  ("error", JStr (str e));
                  ("workflow_id", JStr workflow_id);
                  ("document_id", JInt document_id)])).

(** [for tag_id in add_tags: if tag_id not in current_tags:
    current_tags.append(tag_id)] *)
Fixpoint add_new_tags (add_tags : list Z) (current_tags : Json) : Result Json :=
  match add_tags with
  | [] => inr current_tags
  | tag_id :: rest =>
      (present <-? Py.contains (JInt tag_id) current_tags ;;
       current_tags <-? (if present then inr current_tags
                         else Py.append current_tags (JInt tag_id)) ;;
       add_new_tags rest current_tags)%result
  end.

(** [[tag_id for tag_id in current_tags if tag_id not in remove_tags]] *)
Definition remove_listed_tags (remove_tags : list Z) (current_tags : Json)
  : Result Json :=
  (l <-? Py.iter current_tags ;;
   inr (JList (List.filter
                 (fun tag_id => negb (Py.list_in tag_id (map JInt remove_tags)))
                 l)))%result.

(** The tag list that [tool_update_document_tags] computes between its
    fetch and its update. *)
Definition updated_tag_list
    (add_tags remove_tags : option (list Z)) (current_tags : Json) : Result Json :=
  (current_tags <-? (if given add_tags
                     then add_new_tags (default [] add_tags) current_tags
                     else inr current_tags) ;;
   if given remove_tags
   then remove_listed_tags (default [] remove_tags) current_tags
   else inr current_tags)%result.

Definition tool_update_document_tags
    (document_id : Z) (add_tags remove_tags : option (list Z)) : M Json :=
  except_Exception
    ((* Get current document data *)
     document <- fetch_paperless_document document_id ;;
     current_tags <- lift (Py.get document "tags" (JList [])) ;;
     (* Add new tags, remove tags *)
     current_tags <- lift (updated_tag_list add_tags remove_tags current_tags) ;;
     (* Update the document *)
     let update_data : gmap string Json := {["tags" := current_tags]} in
     updated_doc <- update_paperless_document document_id update_data ;;
     updated_tags <- lift (Py.get updated_doc "tags" (JList [])) ;;
     ret (dict [("success", JBool true);
                ("document_id", JInt document_id);
                ("updated_tags", updated_tags);
                ("message", JStr "Tags updated successfully")]))
    (fun e =>
       ret (dict [("success", JBool false);
                  ("error", JStr (str e));
                  ("document_id", JInt document_id)])).

(** [{tag["name"].lower(): tag["id"] for tag in all_tags}], entered into
    [acc] from left to right. *)
Fixpoint tag_mapping_from (all_tags : list Json) (acc : list (string * Json))
  : Result (list (string * Json)) :=
  match all_tags with
  | [] => inr acc
  | tag :: rest =>
      (name <-? Py.getitem tag "name" ;;
       key <-? Py.lower name ;;
       tag_id <-? Py.getitem tag "id" ;;
       tag_mapping_from rest (odict_set key tag_id acc))%result
  end.

(** [tag_name in document_title.lower() or
    tag_name in document_content.lower()] *)
Definition keyword_match (tag_name : string) (document_title document_content : Json)
  : Result bool :=
  (title <-? Py.lower document_title ;;
   if Py.str_in tag_name title then inr true
   else (content <-? Py.lower document_content ;;
         inr (Py.str_in tag_name content)))%result.

(** [for tag_name, tag_id in tag_mapping.items(): if ...:
    suggested_tag_ids.append(tag_id)] *)
Fixpoint suggest_tags
    (items : list (string * Json)) (document_title document_content : Json)
    (suggested_tag_ids : list Json) : Result (list Json) :=
  match items with
  | [] => inr suggested_tag_ids
  | (tag_name, tag_id) :: rest =>
      (hit <-? keyword_match tag_name document_title document_content ;;
       suggest_tags rest document_title document_content
         (if hit then suggested_tag_ids ++ [tag_id] else suggested_tag_ids))%result
  end.

(** [[tag["name"] for tag in all_tags if tag["id"] in suggested_tag_ids]] *)
Fixpoint suggested_names (all_tags : list Json) (suggested_tag_ids : list Json)
  : Result (list Json) :=
  match all_tags with
  | [] => inr []
  | tag :: rest =>
      (tag_id <-? Py.getitem tag "id" ;;
       names <-? (if Py.list_in tag_id suggested_tag_ids
                  then (name <-? Py.getitem tag "name" ;; inr [name])
                  else inr []) ;;
       more <-? suggested_names rest suggested_tag_ids ;;
       inr (names ++ more))%result
  end.

(** [list(set(l))]: the elements have to be hashable. *)
Definition list_set (l : list Json) : Result (list Json) :=
  if forallb Py.hashable l then inr (set_order (Py.dedup l)) else inl TypeError.

(** The tag identifiers that [tool_analyze_document] suggests for a
    document, given the body of the tag listing. *)
Definition suggested_tag_ids_of (document all_tags : Json) : Result (list Json) :=
  (document_title <-? Py.get document "title" (JStr "") ;;
   document_content <-? Py.get document "content" (JStr "") ;;
   tags <-? Py.iter all_tags ;;
   tag_mapping <-? tag_mapping_from tags [] ;;
   suggest_tags tag_mapping document_title document_content [])%result.

Definition tool_analyze_document
    (document_id : Z) (update_automatically : bool) : M Json :=
  except_Exception
    ((* Fetch document data *)
     document <- fetch_paperless_document document_id ;;
     document_title <- lift (Py.get document "title" (JStr "")) ;;
     document_content <- lift (Py.get document "content" (JStr "")) ;;
     (* Fetch all available tags for matching *)
     all_tags <- fetch_paperless_tags ;;
     tags <- lift (Py.iter all_tags) ;;
     tag_mapping <- lift (tag_mapping_from tags []) ;;
     (* Simple keyword matching for tag suggestions *)
     suggested_tag_ids <-
       lift (suggest_tags tag_mapping document_title document_content []) ;;
     (* If update_automatically is True, update the document with
        suggested tags *)
     _ <- (if update_automatically && negb (bool_decide (suggested_tag_ids = []))
           then
             current_tags <- lift (Py.get document "tags" (JList [])) ;;
             both <- lift (Py.add_list current_tags suggested_tag_ids) ;;
             new_tags <- lift (list_set both) ;;
             let update_data : gmap string Json := {["tags" := JList new_tags]} in
             _ <- update_paperless_document document_id update_data ;;
             ret tt
           else ret tt) ;;
     (* Get tag names for the response *)
     suggested_tag_names <- lift (suggested_names tags suggested_tag_ids) ;;
     ret (dict [("success", JBool true);
                ("document_id", JInt document_id);
                ("document_title", document_title);
                ("suggested_tags", JList suggested_tag_names);
                ("suggested_tag_ids", JList suggested_tag_ids);
                ("tags_updated", JBool update_automatically);
                ("message", JStr "Document analyzed successfully")]))
    (fun e =>
       ret (dict [("success", JBool false);
                  ("error", JStr (str e));
                  ("document_id", JInt document_id)])).

(** [[doc for doc in similar_docs if doc["id"] != document_id][:max_results]] *)
Definition without_reference (document_id max_results : Z) (similar_docs : Json)
  : Result (list Json) :=
  (docs <-? Py.iter similar_docs ;;
   kept <-? filter_result
              (fun doc => doc_id <-? Py.getitem doc "id" ;;
                          inr (negb (Py.eq doc_id (JInt document_id))))
              docs ;;
   inr (Py.slice_to max_results kept))%result.

Definition tool_search_similar_documents (document_id max_results : Z) : M Json :=
  except_Exception
    ((* Fetch the reference document *)
     reference_doc <- fetch_paperless_document document_id ;;
     (* Extract key information *)
     correspondent_id <- lift (Py.get reference_doc "correspondent" JNull) ;;
     document_type <- lift (Py.get reference_doc "document_type" JNull) ;;
     tags <- lift (Py.get reference_doc "tags" (JList [])) ;;
     (* Fetch similar documents based on shared metadata *)
     similar_docs <-
       fetch_paperless_documents JNull JNull correspondent_id document_type
         JNull JNull (max_results + 1) ;;
     (* Remove the reference document from results and limit results *)
     similar_docs <- lift (without_reference document_id max_results similar_docs) ;;
     ret (dict [("success", JBool true);
                ("reference_document_id", JInt document_id);
                ("similar_documents", JList similar_docs);
                ("similarity_criteria",
                  dict [("correspondent_id", correspondent_id);
                        ("document_type", document_type);
                        ("tags", tags)])]))
    (fun e =>
       ret (dict [("success", JBool false);
                  ("error", JStr (str e));
                  ("reference_document_id", JInt document_id)])).

(** *** The client calls and the invocations, as data *)

(** One upstream client call with its arguments. *)
Inductive Client : Type :=
| FetchDocuments (query tag_id correspondent_id document_type_id
                  created_after created_before : Json) (limit : Z)
| FetchDocument (document_id : Z)
| FetchTags
| FetchCorrespondents
| FetchDocumentTypes
| TriggerWorkflow (workflow_id : string) (data : Json)
| FetchWorkflows.

Definition call (c : Client) : M Json :=
  match c with
  | FetchDocuments q t c d a b limit => fetch_paperless_documents q t c d a b limit
  | FetchDocument document_id => fetch_paperless_document document_id
  | FetchTags => fetch_paperless_tags
  | FetchCorrespondents => fetch_paperless_correspondents
  | FetchDocumentTypes => fetch_paperless_document_types
  | TriggerWorkflow workflow_id data => trigger_n8n_workflow workflow_id data
  | FetchWorkflows => fetch_n8n_workflows
  end.

(** The request a client call sends. *)
Definition request_of (c : Client) : Request :=
  match c with
  | FetchDocuments q t c d a b limit =>
      GET Documents (documents_params q t c d a b limit)
  | FetchDocument document_id => GET (Document document_id) ∅
  | FetchTags => GET Tags ∅
  | FetchCorrespondents => GET Correspondents ∅
  | FetchDocumentTypes => GET DocumentTypes ∅
  | TriggerWorkflow workflow_id data => POST (WorkflowTrigger workflow_id) data
  | FetchWorkflows => GET Workflows ∅
  end.

(** The text a client call puts in front of the upstream error. *)
Definition error_prefix (c : Client) : string :=
  match c with
  | FetchDocuments _ _ _ _ _ _ _ => "Error fetching documents: "
  | FetchDocument _ => "Error fetching document: "
  | FetchTags => "Error fetching tags: "
  | FetchCorrespondents => "Error fetching correspondents: "
  | FetchDocumentTypes => "Error fetching document types: "
  | TriggerWorkflow _ _ => "Error triggering workflow: "
  | FetchWorkflows => "Error fetching workflows: "
  end.

(** One invocation of a resource or of a tool with its arguments. *)
Inductive Invocation : Type :=
| GetDocuments (query tag_id correspondent_id document_type_id
                created_after created_before : Json) (limit : Z)
| GetDocument (document_id : Z)
| GetTags
| GetCorrespondents
| GetDocumentTypes
| GetWorkflows
| ToolTriggerWorkflow (workflow_id : string) (document_id : Z) (additional_data : Json)
| ToolUpdateDocumentTags (document_id : Z) (add_tags remove_tags : option (list Z))
| ToolAnalyzeDocument (document_id : Z) (update_automatically : bool)
| ToolSearchSimilarDocuments (document_id max_results : Z).

Definition invoke (i : Invocation) : M Json :=
  match i with
  | GetDocuments q t c d a b limit => get_documents q t c d a b limit
  | GetDocument document_id => get_document document_id
  | GetTags => get_tags
  | GetCorrespondents => get_correspondents
  | GetDocumentTypes => get_document_types
  | GetWorkflows => get_workflows
  | ToolTriggerWorkflow workflow_id document_id additional_data =>
      tool_trigger_workflow workflow_id document_id additional_data
  | ToolUpdateDocumentTags document_id add_tags remove_tags =>
      tool_update_document_tags document_id add_tags remove_tags
  | ToolAnalyzeDocument document_id update_automatically =>
      tool_analyze_document document_id update_automatically
  | ToolSearchSimilarDocuments document_id max_results =>
      tool_search_similar_documents document_id max_results
  end.

End Server.

(** ** Closed forms and predicates for the statements *)

(** [doc["id"] == document_id] for a document that has an [id]. *)
Definition has_id (document_id : Z) (doc : Json) : bool :=
  match Py.getitem doc "id" with
  | inr doc_id => Py.eq doc_id (JInt document_id)
  | inl _ => false
  end.

(** The additions of [add_new_tags] on a list, as a fold. *)
Definition added_tags (add_tags : list Z) (current_tags : list Json) : list Json :=
  fold_left
    (fun l tag_id => if Py.list_in (JInt tag_id) l then l else l ++ [JInt tag_id])
    add_tags current_tags.

(** The list that the tool writes: additions first, then the removal
    filter; an absent or empty argument is the empty list. *)
Definition new_tag_list (add_tags remove_tags : option (list Z))
    (current_tags : list Json) : list Json :=
  List.filter
    (fun tag_id => negb (Py.list_in tag_id (map JInt (default [] remove_tags))))
    (added_tags (default [] add_tags) current_tags).

(** [tag["name"]], [JNull] where the tag has none. *)
Definition name_of (tag : Json) : Json :=
  match Py.getitem tag "name" with
  | inr name => name
  | inl _ => JNull
  end.

(** [tag["id"]], [JNull] where the tag has none. *)
Definition id_of (tag : Json) : Json :=
  match Py.getitem tag "id" with
  | inr tag_id => tag_id
  | inl _ => JNull
  end.

(** [tag["name"].lower()] *)
Definition lower_name_of (tag : Json) : string :=
  match Py.lower (name_of tag) with
  | inr s => s
  | inl _ => ""
  end.

(** A tag as the tag listing returns it: an object with a string under
    [name] and something under [id]. *)
Definition is_tag (tag : Json) : Prop :=
  exists (name : string) (tag_id : Json),
    Py.getitem tag "name" = inr (JStr name) /\ Py.getitem tag "id" = inr tag_id.

(** [tag_name in title.lower() or tag_name in content.lower()] on two
    strings. *)
Definition keyword_in (title content tag_name : string) : bool :=
  Py.str_in tag_name (Py.lower_string title)
  || Py.str_in tag_name (Py.lower_string content).

(** The tags of a listing whose lowered name occurs in the title or in the
    content. *)
Definition matching_tags (title content : string) (tags : list Json) : list Json :=
  List.filter (fun tag => keyword_in title content (lower_name_of tag)) tags.

(** A failure result: an error text under [error]. *)
Definition reports_error (result : gmap string Json) : Prop :=
  exists message, result !! "error" = Some (JStr message).

(** A tool's success result. *)
Definition says_success (j : Json) : Prop :=
  exists result, j = JObj result /\ result !! "success" = Some (JBool true).

(** The field under which a resource returns its data. *)
Definition data_field (i : Invocation) : string :=
  match i with
  | GetDocuments _ _ _ _ _ _ _ => "documents"
  | GetDocument _ => "document"
  | GetTags => "tags"
  | GetCorrespondents => "correspondents"
  | GetDocumentTypes => "document_types"
  | GetWorkflows => "workflows"
  | _ => "result"
  end.

(** The invocations of tools, as opposed to resources. *)
Definition is_tool (i : Invocation) : bool :=
  match i with
  | ToolTriggerWorkflow _ _ _ | ToolUpdateDocumentTags _ _ _
  | ToolAnalyzeDocument _ _ | ToolSearchSimilarDocuments _ _ => true
  | _ => false
  end.

(** A success result: a tool says [success: True]; a resource has its data
    field and no error marker. *)
Definition carries_data (i : Invocation) (result : gmap string Json) : Prop :=
  if is_tool i then result !! "success" = Some (JBool true)
  else is_Some (result !! data_field i) /\ result !! "error" = None.

(** The listing resources, with the client call they make. *)
Definition listing_of (i : Invocation) : option Client :=
  match i with
  | GetDocuments q t c d a b limit => Some (FetchDocuments q t c d a b limit)
  | GetTags => Some FetchTags
  | GetCorrespondents => Some FetchCorrespondents
  | GetDocumentTypes => Some FetchDocumentTypes
  | GetWorkflows => Some FetchWorkflows
  | _ => None
  end.

(** [m] returns, when it returns, a value that satisfies [P]. *)
Definition returns_only {A} (P : A -> Prop) (m : M A) : Prop :=
  forall log a log', m log = (inr a, log') -> P a.

Section Results.

Variable upstream : list Request -> Request -> Outcome.
Variable str : Exception -> string.
Variable set_order : list Json -> list Json.

(** What a client makes of the outcome of its request. *)
Definition surfaced (c : Client) (o : Outcome) : Result Json :=
  match o with
  | Failed s m =>
      inl (HTTPException 500 (error_prefix c +:+ str (RequestException s m)))
  | Body j =>
      match c with
      | FetchDocument _ | TriggerWorkflow _ _ | FetchWorkflows => inr j
      | _ => Py.get j "results" (JList [])
      end
  end.

(** The failure result of [tool_update_document_tags]. *)
Definition update_tags_failure (document_id : Z) (e : Exception) : Json :=
  dict [("success", JBool false);
        ("error", JStr (str e));
        ("document_id", JInt document_id)].

(** The success result of [tool_update_document_tags]. *)
Definition update_tags_success (document_id : Z) (updated_tags : Json) : Json :=
  dict [("success", JBool true);
        ("document_id", JInt document_id);
        ("updated_tags", updated_tags);
        ("message", JStr "Tags updated successfully")].

(** The failure result of [tool_analyze_document]. *)
Definition analysis_failure (document_id : Z) (e : Exception) : Json :=
  dict [("success", JBool false);
        ("error", JStr (str e));
        ("document_id", JInt document_id)].

(** The success result of [tool_analyze_document]. *)
Definition analysis_success (document_id : Z) (document_title : Json)
    (suggested_tag_names suggested_tag_ids : list Json)
    (update_automatically : bool) : Json :=
  dict [("success", JBool true);
        ("document_id", JInt document_id);
        ("document_title", document_title);
        ("suggested_tags", JList suggested_tag_names);
        ("suggested_tag_ids", JList suggested_tag_ids);
        ("tags_updated", JBool update_automatically);
        ("message", JStr "Document analyzed successfully")].

(** The tag list that the analysis hands to the update. *)
Definition union_tags (document : Json) (suggested_tag_ids : list Json)
  : Result (list Json) :=
  (current_tags <-? Py.get document "tags" (JList []) ;;
   both <-? Py.add_list current_tags suggested_tag_ids ;;
   list_set set_order both)%result.

(** The analysis from the decision on whether to update. *)
Definition analysis_tail (document_id : Z) (update_automatically : bool)
    (document document_title : Json) (tags suggested_tag_ids : list Json)
    (log : list Request) : Result Json * list Request :=
  let finish log' :=
    match suggested_names tags suggested_tag_ids with
    | inl e => (inr (analysis_failure document_id e), log')
    | inr names =>
        (inr (analysis_success document_id document_title names
                suggested_tag_ids update_automatically), log')
    end in
  if update_automatically && negb (bool_decide (suggested_tag_ids = []))
  then
    match union_tags document suggested_tag_ids with
    | inl e => (inr (analysis_failure document_id e), log)
    | inr new_tags =>
        match update_paperless_document upstream str document_id
                {["tags" := JList new_tags]} log with
        | (inl e, log') => (inr (analysis_failure document_id e), log')
        | (inr _, log') => finish log'
        end
    end
  else finish log.

End Results.

(** ** The registry *)

(** The handlers are registered with [mcp_api_adapter.Adapter], a package
    that the repository imports and does not contain.  What the decorators
    say (names, descriptions, parameters) is in the source; what the
    adapter does with a name and its parameters is taken from the
    specification. *)

(** [Parameter(name=..., description=..., required=...)], under another
    name: [Parameter] is a reserved word here. *)
Record ParameterSpec : Type := {
  name : string;
  description : string;
  required : bool;
}.

(** Modelled from the spec: the descriptor of a resource or of a tool, which
    [mcp_api_adapter] declares as [ResourceSpec] and [ToolSpec]: a name, a
    description and an ordered parameter list. *)
Record Descriptor : Type := {
  descriptor_name : string;
  descriptor_description : string;
  parameters : list ParameterSpec;
}.

(** The resources, as the [@adapter.resource] decorators register them; the
    parameters are those of the decorated function, required when the
    function gives no default. *)
Definition resources : list Descriptor := [
  {| descriptor_name := "documents";
     descriptor_description := "List and search for documents in Paperless-ngx";
     parameters := [
       {| name := "query"; description := ""; required := false |};
       {| name := "tag_id"; description := ""; required := false |};
       {| name := "correspondent_id"; description := ""; required := false |};
       {| name := "document_type_id"; description := ""; required := false |};
       {| name := "created_after"; description := ""; required := false |};
       {| name := "created_before"; description := ""; required := false |};
       {| name := "limit"; description := ""; required := false |}] |};
  {| descriptor_name := "document";
     descriptor_description := "Get a specific document by ID from Paperless-ngx";
     parameters := [{| name := "document_id"; description := ""; required := true |}] |};
  {| descriptor_name := "tags";
     descriptor_description := "Get all tags from Paperless-ngx";
     parameters := [] |};
  {| descriptor_name := "correspondents";
     descriptor_description := "Get all correspondents from Paperless-ngx";
     parameters := [] |};
  {| descriptor_name := "document_types";
     descriptor_description := "Get all document types from Paperless-ngx";
     parameters := [] |};
  {| descriptor_name := "workflows";
     descriptor_description := "Get all workflows from n8n";
     parameters := [] |}
].

(** The tools, as the [@adapter.tool] decorators register them. *)
Definition tools : list Descriptor := [
  {| descriptor_name := "trigger_workflow";
     descriptor_description := "Trigger an n8n workflow with document data";
     parameters := [
       {| name := "workflow_id"; description := "ID of the workflow to trigger";
          required := true |};
       {| name := "document_id"; description := "ID of the document to process";
          required := true |};
       {| name := "additional_data";
          description := "Additional data to pass to the workflow (optional)";
          required := false |}] |};
  {| descriptor_name := "update_document_tags";
     descriptor_description := "Update tags for a document in Paperless-ngx";
     parameters := [
       {| name := "document_id"; description := "ID of the document to update";
          required := true |};
       {| name := "add_tags";
          description := "List of tag IDs to add to the document (optional)";
          required := false |};
       {| name := "remove_tags";
          description := "List of tag IDs to remove from the document (optional)";
          required := false |}] |};
  {| descriptor_name := "analyze_document";
     descriptor_description := "Analyze a document and suggest tags and metadata";
     parameters := [
       {| name := "document_id"; description := "ID of the document to analyze";
          required := true |};
       {| name := "update_automatically";
          description := "Whether to apply suggested tags automatically";
          required := false |}] |};
  {| descriptor_name := "search_similar_documents";
     descriptor_description := "Find documents similar to a specific document";
     parameters := [
       {| name := "document_id"; description := "ID of the reference document";
          required := true |};
       {| name := "max_results";
          description := "Maximum number of similar documents to return";
          required := false |}] |}
].

(** Modelled from the spec: the reading of a parameter value at the type
    the handler declares for it.  The specification leaves the coercion of
    values to the handlers, and the handlers of the source coerce nothing:
    each runs on the values it is handed.  The embedding of the handlers
    covers the values of the declared types; a value of another type is
    not rejected, it is outside the embedding ([None]). *)
Definition as_int (j : Json) : option Z :=
  match j with
  | JInt z => Some z
  | _ => None
  end.

Definition as_str (j : Json) : option string :=
  match j with
  | JStr s => Some s
  | _ => None
  end.

Definition as_bool (j : Json) : option bool :=
  match j with
  | JBool b => Some b
  | _ => None
  end.

Definition as_int_list (j : Json) : option (list Z) :=
  match j with
  | JList l => mapM as_int l
  | _ => None
  end.

(** [Optional[...]]: [None] or a value of the type. *)
Definition as_optional {A} (decode : Json -> option A) (j : Json)
  : option (option A) :=
  match j with
  | JNull => Some None
  | _ => Some <$> decode j
  end.

(** Modelled from the spec: an optional parameter as the handler receives
    it: its default when the parameter is absent, the value when it is
    present. *)
Definition optional {A} (decode : Json -> option A) (dflt : A)
    (params : gmap string Json) (key : string) : option A :=
  match params !! key with
  | None => Some dflt
  | Some j => decode j
  end.

(** Modelled from the spec: a required parameter as the handler receives
    it. *)
Definition mandatory {A} (decode : Json -> option A)
    (params : gmap string Json) (key : string) : option A :=
  params !! key ≫= decode.

(** Modelled from the spec: the adapter's validation of the parameters of
    an invocation, which the specification limits to presence: every
    parameter that the descriptor marks as required is there. *)
Definition validated (d : Descriptor) (params : gmap string Json) : bool :=
  forallb
    (fun p => implb (required p)
                (match params !! name p with Some _ => true | None => false end))
    (parameters d).

(** Modelled from the spec: the call of the handler registered under a
    resource name with the parameters of the invocation, where the
    embedding of the handlers covers them. *)
Definition bind_resource (resource : string) (params : gmap string Json)
  : option Invocation :=
  if decide (resource = "documents") then
    limit ← optional as_int 100 params "limit";
    Some (GetDocuments
            (default JNull (params !! "query"))
            (default JNull (params !! "tag_id"))
            (default JNull (params !! "correspondent_id"))
            (default JNull (params !! "document_type_id"))
            (default JNull (params !! "created_after"))
            (default JNull (params !! "created_before"))
            limit)
  else if decide (resource = "document") then
    document_id ← mandatory as_int params "document_id";
    Some (GetDocument document_id)
  else if decide (resource = "tags") then Some GetTags
  else if decide (resource = "correspondents") then Some GetCorrespondents
  else if decide (resource = "document_types") then Some GetDocumentTypes
  else if decide (resource = "workflows") then Some GetWorkflows
  else None.

(** Modelled from the spec: the call of the handler registered under a
    tool name with the parameters of the invocation, where the embedding
    of the handlers covers them. *)
Definition bind_tool (tool : string) (params : gmap string Json)
  : option Invocation :=
  if decide (tool = "trigger_workflow") then
    workflow_id ← mandatory as_str params "workflow_id";
    document_id ← mandatory as_int params "document_id";
    Some (ToolTriggerWorkflow workflow_id document_id
            (default JNull (params !! "additional_data")))
  else if decide (tool = "update_document_tags") then
    document_id ← mandatory as_int params "document_id";
    add_tags ← optional (as_optional as_int_list) None params "add_tags";
    remove_tags ← optional (as_optional as_int_list) None params "remove_tags";
    Some (ToolUpdateDocumentTags document_id add_tags remove_tags)
  else if decide (tool = "analyze_document") then
    document_id ← mandatory as_int params "document_id";
    update_automatically ← optional as_bool false params "update_automatically";
    Some (ToolAnalyzeDocument document_id update_automatically)
  else if decide (tool = "search_similar_documents") then
    document_id ← mandatory as_int params "document_id";
    max_results ← optional as_int 5 params "max_results";
    Some (ToolSearchSimilarDocuments document_id max_results)
  else None.

(** Modelled from the spec: the outcome of an invocation through the
    adapter: [NotFoundError] for an unknown name, the handler's result for
    a known one; [InvalidParameters] stands for what the adapter does when
    a required parameter is absent, on which the specification is
    silent. *)
Inductive Invoked : Type :=
| NotFoundError (name : string)
| InvalidParameters (name : string)
| Completed (result : Json).

(** Modelled from the spec: the adapter's lookup of a name among the
    registered descriptors. *)
Definition registered_as (registered : list Descriptor) (name : string)
  : option Descriptor :=
  List.find (fun d => bool_decide (descriptor_name d = name)) registered.

Section Registry.

Variable upstream : list Request -> Request -> Outcome.
Variable str : Exception -> string.
Variable set_order : list Json -> list Json.
Variable now : string.

Local Open Scope M_scope.

(** Modelled from the spec: the adapter's [listResources], the descriptors
    of the registered resources. *)
Definition listResources : list Descriptor := resources.

(** Modelled from the spec: the adapter's [listTools]. *)
Definition listTools : list Descriptor := tools.

(** Modelled from the spec: the adapter's invocation.  It looks the name
    up and fails with [NotFoundError] on an unknown name; under a known
    name it checks that the required parameters are present and runs the
    registered handler on the parameters.  The computation is given where
    the embedding of the handlers covers the parameter values. *)
Definition dispatch (registered : list Descriptor)
    (binding : string -> gmap string Json -> option Invocation)
    (name : string) (params : gmap string Json) : option (M Invoked) :=
  match registered_as registered name with
  | None => Some (ret (NotFoundError name))
  | Some d =>
      if validated d params then
        match binding name params with
        | Some invocation =>
            Some (result <- invoke upstream str set_order now invocation ;;
                  ret (Completed result))
        | None => None
        end
      else Some (ret (InvalidParameters name))
  end.

(** Modelled from the spec: the adapter's [invokeResource(name, params)]. *)
Definition invokeResource (name : string) (params : gmap string Json)
  : option (M Invoked) :=
  dispatch resources bind_resource name params.

(** Modelled from the spec: the adapter's [invokeTool(name, params)]. *)
Definition invokeTool (name : string) (params : gmap string Json)
  : option (M Invoked) :=
  dispatch tools bind_tool name params.

End Registry.

(** ** A concrete setting *)

Module Example.

(** [str(e)] as the text the exception was built with. *)
Definition str (e : Exception) : string :=
  match e with
  | RequestException _ message => message
  | HTTPException _ detail => detail
  | KeyError key => key
  | TypeError => "TypeError"
  | AttributeError => "AttributeError"
  end.

(** A set that enumerates its elements in the order of insertion. *)
Definition set_order (l : list Json) : list Json := l.

Definition now : string := "2024-05-01T12:00:00".

Definition tag (tag_id : Z) (name : string) : Json :=
  dict [("id", JInt tag_id); ("name", JStr name)].

Definition document_fields (document_id : Z) (title content : string)
    (tags : list Z) (correspondent document_type : Z) : gmap string Json :=
  list_to_map [("id", JInt document_id);
               ("title", JStr title);
               ("content", JStr content);
               ("tags", JList (map JInt tags));
               ("correspondent", JInt correspondent);
               ("document_type", JInt document_type)].

Definition document (document_id : Z) (title content : string)
    (tags : list Z) (correspondent document_type : Z) : Json :=
  JObj (document_fields document_id title content tags correspondent
          document_type).

(** A document API that holds [documents] and [tags], answers a write
    with the document it was sent, and knows no workflow. *)
Definition paperless (documents tags : list Json)
  : list Request -> Request -> Outcome :=
  fun _ r =>
    match r with
    | GET (Document document_id) _ =>
        match List.find (has_id document_id) documents with
        | Some d => Body d
        | None => Failed (Some 404) "404 Client Error: Not Found"
        end
    | GET Documents _ => Body (dict [("results", JList documents)])
    | GET Tags _ => Body (dict [("results", JList tags)])
    | PUT (Document _) body => Body body
    | _ => Failed None "Connection refused"
    end.

(** A document API that answers every fetch of document [document_id]
    with [fields] and a write with the document it was sent. *)
Definition holding (document_id : Z) (fields : gmap string Json)
  : list Request -> Request -> Outcome :=
  fun _ r =>
    match r with
    | GET (Document i) _ =>
        if decide (i = document_id) then Body (JObj fields)
        else Failed (Some 404) "404 Client Error: Not Found"
    | PUT (Document _) body => Body body
    | _ => Failed None "Connection refused"
    end.

(** The document and the payload of the specification's update example. *)
Definition titled_A : gmap string Json :=
  list_to_map [("title", JStr "A");
               ("tags", JList [JInt 1; JInt 2]);
               ("correspondent", JInt 5)].

Definition three_tags : gmap string Json :=
  {["tags" := JList [JInt 1; JInt 2; JInt 3]]}.

(** Both services down. *)
Definition unreachable : list Request -> Request -> Outcome :=
  fun _ _ => Failed None "Connection refused".

End Example.

(** ** Further closed forms *)

(** The filters of the document listing: the upstream key and the function
    argument of each, in the order of the source. *)
Definition documents_filters
    (query tag_id correspondent_id document_type_id created_after
     created_before : Json) : list (string * Json) :=
  [("query", query);
   ("tags__id", tag_id);
   ("correspondent__id", correspondent_id);
   ("document_type__id", document_type_id);
   ("created__gte", created_after);
   ("created__lte", created_before)].

(** The clients that return [data.get("results", [])] and not the body. *)
Definition extracts_results (c : Client) : bool :=
  match c with
  | FetchDocuments _ _ _ _ _ _ _ | FetchTags | FetchCorrespondents
  | FetchDocumentTypes => true
  | _ => false
  end.

Definition is_object (j : Json) : bool :=
  match j with
  | JObj _ => true
  | _ => false
  end.

(** The payload that [tool_trigger_workflow] posts. *)
Definition trigger_payload (now : string) (document additional_data : Json)
  : gmap string Json :=
  let payload : gmap string Json :=
    <["timestamp" := JStr now]> {["document" := document]} in
  if Py.truthy additional_data
  then <["additional_data" := additional_data]> payload else payload.

(** The invocations that may send a write. *)
Definition may_write (i : Invocation) : bool :=
  match i with
  | ToolUpdateDocumentTags _ _ _ => true
  | ToolAnalyzeDocument _ update_automatically => update_automatically
  | _ => false
  end.

(** The most requests that an invocation sends. *)
Definition max_requests (i : Invocation) : nat :=
  match i with
  | ToolTriggerWorkflow _ _ _ => 2
  | ToolUpdateDocumentTags _ _ _ => 3
  | ToolAnalyzeDocument _ update_automatically =>
      if update_automatically then 4 else 2
  | ToolSearchSimilarDocuments _ _ => 2
  | _ => 1
  end.

(** The document that an invocation is about, for those that name one. *)
Definition document_of (i : Invocation) : option Z :=
  match i with
  | GetDocument document_id
  | ToolTriggerWorkflow _ document_id _
  | ToolUpdateDocumentTags document_id _ _
  | ToolAnalyzeDocument document_id _
  | ToolSearchSimilarDocuments document_id _ => Some document_id
  | _ => None
  end.

Section FurtherResults.

Variable str : Exception -> string.

(** The failure result of [tool_trigger_workflow]. *)
Definition trigger_failure (workflow_id : string) (document_id : Z)
    (e : Exception) : Json :=
  dict [("success", JBool false);
        ("error", JStr (str e));
        ("workflow_id", JStr workflow_id);
        ("document_id", JInt document_id)].

(** The failure result of [tool_search_similar_documents]. *)
Definition similar_failure (document_id : Z) (e : Exception) : Json :=
  dict [("success", JBool false);
        ("error", JStr (str e));
        ("reference_document_id", JInt document_id)].

End FurtherResults.

(** The success result of [tool_trigger_workflow]. *)
Definition trigger_success (workflow_id : string) (document_id : Z)
    (result : Json) : Json :=
  dict [("success", JBool true);
        ("workflow_id", JStr workflow_id);
        ("document_id", JInt document_id);
        ("result", result)].

(** The success result of [tool_search_similar_documents]. *)
Definition similar_success (document_id : Z) (similar_docs : list Json)
    (correspondent_id document_type tags : Json) : Json :=
  dict [("success", JBool true);
        ("reference_document_id", JInt document_id);
        ("similar_documents", JList similar_docs);
        ("similarity_criteria",
          dict [("correspondent_id", correspondent_id);
                ("document_type", document_type);
                ("tags", tags)])].

(** The request sequences of an invocation: what it can have sent when it
    returns. *)
Definition request_sequence (i : Invocation) (issued : list Request) : Prop :=
  match i with
  | ToolTriggerWorkflow workflow_id document_id _ =>
      let fetch := GET (Document document_id) ∅ in
      issued = [fetch]
      \/ exists payload,
          issued = [fetch; POST (WorkflowTrigger workflow_id) (JObj payload)]
  | ToolUpdateDocumentTags document_id _ _ =>
      let fetch := GET (Document document_id) ∅ in
      issued = [fetch]
      \/ issued = [fetch; fetch]
      \/ exists body tags,
          body !! "tags" = Some tags
          /\ issued = [fetch; fetch; PUT (Document document_id) (JObj body)]
  | ToolAnalyzeDocument document_id update_automatically =>
      let fetch := GET (Document document_id) ∅ in
      issued = [fetch]
      \/ issued = [fetch; GET Tags ∅]
      \/ update_automatically = true
         /\ (issued = [fetch; GET Tags ∅; fetch]
             \/ exists body tags,
                 body !! "tags" = Some tags
                 /\ issued = [fetch; GET Tags ∅; fetch;
                              PUT (Document document_id) (JObj body)])
  | ToolSearchSimilarDocuments document_id _ =>
      let fetch := GET (Document document_id) ∅ in
      issued = [fetch]
      \/ exists params, issued = [fetch; GET Documents params]
  | GetDocument document_id => issued = [GET (Document document_id) ∅]
  | _ =>
      match listing_of i with
      | Some c => issued = [request_of c]
      | None => False
      end
  end.

(** How often a value occurs in a list, up to [==]. *)
Definition occurrences (x : Json) (l : list Json) : nat :=
  length (List.filter (Py.eq x) l).

(** ** The URLs of the requests *)

(** [s.rstrip('/')]. *)
Fixpoint rstrip_slash (s : string) : string :=
  match s with
  | EmptyString => EmptyString
  | String c rest =>
      match rstrip_slash rest with
      | EmptyString =>
          if Ascii.eqb c "/" then EmptyString else String c EmptyString
      | stripped => String c stripped
      end
  end.

(** [f"{n}"] for an [int]: the decimal digits, with [-] before a negative
    number. *)
Definition format_int (n : Z) : string :=
  DecimalString.NilZero.string_of_int (Z.to_int n).

(** The path that a client appends to the base URL of its service. *)
Definition path (e : Endpoint) : string :=
  match e with
  | Documents => "/documents/"
  | Document document_id => "/documents/" +:+ format_int document_id +:+ "/"
  | Tags => "/tags/"
  | Correspondents => "/correspondents/"
  | DocumentTypes => "/document_types/"
  | Workflows => "/workflows"
  | WorkflowTrigger workflow_id => "/workflows/" +:+ workflow_id +:+ "/trigger"
  end.

(** The endpoints of the document API; the others are of the workflow
    API. *)
Definition of_paperless (e : Endpoint) : bool :=
  match e with
  | Workflows | WorkflowTrigger _ => false
  | _ => true
  end.

Section Urls.

Variables PAPERLESS_API_URL N8N_API_URL : string.

Definition url (e : Endpoint) : string :=
  rstrip_slash (if of_paperless e then PAPERLESS_API_URL else N8N_API_URL)
  +:+ path e.

End Urls.

(** ** What the upstream answers to an invocation *)

(** Among the requests [issued] after [log], one has failed. *)
Definition request_failed (upstream : list Request -> Request -> Outcome)
    (log issued : list Request) : Prop :=
  exists k r s m,
    issued !! k = Some r /\ upstream (log ++ take k issued) r = Failed s m.

(** A computation that raises when one of its requests fails. *)
Definition raises_on_failure {A}
    (upstream : list Request -> Request -> Outcome) (m : M A) : Prop :=
  forall log, exists issued,
    (m log).2 = log ++ issued
    /\ (request_failed upstream log issued -> exists e, (m log).1 = inl e).

(** The upstream answers every request of the invocation, with bodies of
    the shape that the handler reads: an object for a listing and for a
    document that is read or merged; a string under [title] and [content]
    and tags with a name and an identifier for the analysis; hashable tag
    identifiers for its union; an [id] on every listed document for the
    similarity search. *)
Definition well_answered
    (upstream : list Request -> Request -> Outcome)
    (set_order : list Json -> list Json) (now : string)
    (i : Invocation) (log : list Request) : Prop :=
  match i with
  | GetDocument document_id =>
      exists body, upstream log (GET (Document document_id) ∅) = Body body
  | GetWorkflows => exists body, upstream log (GET Workflows ∅) = Body body
  | ToolTriggerWorkflow workflow_id document_id additional_data =>
      let fetch := GET (Document document_id) ∅ in
      exists document result,
        upstream log fetch = Body document
        /\ upstream (log ++ [fetch])
             (POST (WorkflowTrigger workflow_id)
                (JObj (trigger_payload now document additional_data))) =
           Body result
  | ToolUpdateDocumentTags document_id add_tags remove_tags =>
      let fetch := GET (Document document_id) ∅ in
      exists (document current_doc answer : gmap string Json)
             (current_tags : list Json),
        upstream log fetch = Body (JObj document)
        /\ default (JList []) (document !! "tags") = JList current_tags
        /\ upstream (log ++ [fetch]) fetch = Body (JObj current_doc)
        /\ upstream (log ++ [fetch; fetch])
             (PUT (Document document_id)
                (JObj ({["tags" :=
                           JList (new_tag_list add_tags remove_tags current_tags)]}
                       ∪ current_doc))) =
           Body (JObj answer)
  | ToolAnalyzeDocument document_id update_automatically =>
      let fetch := GET (Document document_id) ∅ in
      let listing := GET Tags ∅ in
      exists (document data : gmap string Json) (title content : string)
             (tags : list Json),
        upstream log fetch = Body (JObj document)
        /\ default (JStr "") (document !! "title") = JStr title
        /\ default (JStr "") (document !! "content") = JStr content
        /\ upstream (log ++ [fetch]) listing = Body (JObj data)
        /\ default (JList []) (data !! "results") = JList tags
        /\ Forall is_tag tags
        /\ (update_automatically = true ->
            forall ids,
              suggested_tag_ids_of (JObj document) (JList tags) = inr ids ->
              ids <> [] ->
              exists (current_tags : list Json) (current_doc : gmap string Json)
                     (answer : Json),
                default (JList []) (document !! "tags") = JList current_tags
                /\ forallb Py.hashable (current_tags ++ ids) = true
                /\ upstream (log ++ [fetch; listing]) fetch = Body (JObj current_doc)
                /\ upstream (log ++ [fetch; listing; fetch])
                     (PUT (Document document_id)
                        (JObj ({["tags" :=
                                   JList (set_order
                                            (Py.dedup (current_tags ++ ids)))]}
                               ∪ current_doc))) =
                   Body answer)
  | ToolSearchSimilarDocuments document_id max_results =>
      let fetch := GET (Document document_id) ∅ in
      exists (reference_doc data : gmap string Json) (docs : list Json),
        upstream log fetch = Body (JObj reference_doc)
        /\ upstream (log ++ [fetch])
             (GET Documents
                (documents_params JNull JNull
                   (default JNull (reference_doc !! "correspondent"))
                   (default JNull (reference_doc !! "document_type"))
                   JNull JNull (max_results + 1))) =
           Body (JObj data)
        /\ default (JList []) (data !! "results") = JList docs
        /\ Forall (fun doc => exists doc_id, Py.getitem doc "id" = inr doc_id) docs
  | _ =>
      match listing_of i with
      | Some c => exists body, upstream log (request_of c) = Body (JObj body)
      | None => False
      end
  end.

(** * Properties *)

(** ** Python equality and membership *)

Lemma eq_refl_true (a : Json) : Py.eq a a = true.
Proof. unfold Py.eq. by apply bool_decide_eq_true. Qed.

Lemma eq_sym (a b : Json) : Py.eq a b = Py.eq b a.
Proof. unfold Py.eq. apply bool_decide_ext. split; congruence. Qed.

Lemma eq_trans (a b c : Json) :
  Py.eq a b = true -> Py.eq b c = true -> Py.eq a c = true.
Proof.
  unfold Py.eq. rewrite !bool_decide_eq_true. congruence.
Qed.

Lemma eq_JInt (a b : Z) : Py.eq (JInt a) (JInt b) = bool_decide (a = b).
Proof. unfold Py.eq. simpl. apply bool_decide_ext. split; congruence. Qed.

Lemma list_in_true (x : Json) (l : list Json) :
  Py.list_in x l = true <-> exists y, y ∈ l /\ Py.eq x y = true.
Proof.
  unfold Py.list_in. rewrite existsb_exists.
  by setoid_rewrite list_elem_of_In.
Qed.

Lemma list_in_app (x : Json) (l1 l2 : list Json) :
  Py.list_in x (l1 ++ l2) = Py.list_in x l1 || Py.list_in x l2.
Proof. unfold Py.list_in. apply existsb_app. Qed.

Lemma list_in_ints (t : Z) (l : list Z) :
  Py.list_in (JInt t) (map JInt l) = bool_decide (t ∈ l).
Proof.
  induction l as [|a l IH]; simpl.
  - done.
  - fold (Py.list_in (JInt t) (map JInt l)). rewrite IH, eq_JInt.
    destruct (decide (t = a)) as [->|Hne].
    + rewrite bool_decide_eq_true_2 by done. simpl.
      symmetry. apply bool_decide_eq_true. by left.
    + rewrite (bool_decide_eq_false_2 (t = a)) by done. simpl.
      apply bool_decide_ext. rewrite elem_of_cons. tauto.
Qed.

(** [element in l] respects [==] in its left argument. *)
Lemma list_in_eq (x y : Json) (l : list Json) :
  Py.eq x y = true -> Py.list_in x l = Py.list_in y l.
Proof.
  intros Hxy. unfold Py.list_in. induction l as [|z l IH]; simpl; [done|].
  rewrite IH. f_equal.
  destruct (Py.eq y z) eqn:Hyz.
  - by apply eq_trans with y.
  - destruct (Py.eq x z) eqn:Hxz; [|done].
    rewrite <- Hyz. symmetry. apply eq_trans with x; [|done].
    by rewrite eq_sym.
Qed.

(** ** Substrings *)

Lemma append_cons (c : ascii) (a s : string) :
  String c a +:+ s = String c (a +:+ s).
Proof. reflexivity. Qed.

Lemma prefix_true (a b : string) :
  String.prefix a b = true <-> exists post, b = a +:+ post.
Proof.
  revert b. induction a as [|c a IH]; intros b.
  - split; [|by destruct b]. intros _. by exists b.
  - destruct b as [|c' b]; cbn [String.prefix].
    + split; [done|]. intros [post Hpost]. by rewrite append_cons in Hpost.
    + destruct (Ascii.ascii_dec c c') as [->|Hne].
      * rewrite IH. setoid_rewrite append_cons.
        split; intros [post Hpost]; exists post; congruence.
      * split; [done|]. intros [post Hpost]. rewrite append_cons in Hpost.
        congruence.
Qed.

(** [Py.str_in a b] holds exactly when [a] is a literal substring of [b]. *)
Lemma str_in_true (a b : string) :
  Py.str_in a b = true <-> exists pre post, b = pre +:+ a +:+ post.
Proof.
  induction b as [|c b IH]; cbn [Py.str_in].
  - rewrite orb_false_r, prefix_true. split.
    + intros [post ->]. by exists "", post.
    + intros (pre & post & H). destruct pre as [|c pre].
      * by exists post.
      * by rewrite append_cons in H.
  - rewrite orb_true_iff, prefix_true, IH. split.
    + intros [[post ->]|(pre & post & ->)].
      * by exists "", post.
      * by exists (String c pre), post.
    + intros (pre & post & H). destruct pre as [|c' pre].
      * left. by exists post.
      * right. exists pre, post. rewrite append_cons in H. congruence.
Qed.

(** The empty name occurs in every text. *)
Lemma str_in_empty (b : string) : Py.str_in "" b = true.
Proof. apply str_in_true. by exists "", b. Qed.

(** ** Running the upstream clients *)

Section Clients.

Variable upstream : list Request -> Request -> Outcome.
Variable str : Exception -> string.

(** Every client sends its one request and returns or raises at once. *)
Lemma call_run (c : Client) (log : list Request) :
  call upstream str c log =
  (surfaced str c (upstream log (request_of c)), log ++ [request_of c]).
Proof.
  destruct c; simpl;
    unfold fetch_paperless_documents, fetch_paperless_document,
      fetch_paperless_tags, fetch_paperless_correspondents,
      fetch_paperless_document_types, trigger_n8n_workflow,
      fetch_n8n_workflows, except_RequestException, bind, requests, lift, raise;
    match goal with |- context [upstream ?l ?r] => destruct (upstream l r) as [s m|j] end;
    try reflexivity;
    destruct j; reflexivity.
Qed.

Lemma fetch_paperless_document_run (document_id : Z) (log : list Request) :
  fetch_paperless_document upstream str document_id log =
  (surfaced str (FetchDocument document_id)
     (upstream log (GET (Document document_id) ∅)),
   log ++ [GET (Document document_id) ∅]).
Proof. apply (call_run (FetchDocument document_id)). Qed.

Lemma fetch_paperless_documents_run
    (query tag_id correspondent_id document_type_id created_after
     created_before : Json) (limit : Z) (log : list Request) :
  let c := FetchDocuments query tag_id correspondent_id document_type_id
             created_after created_before limit in
  fetch_paperless_documents upstream str query tag_id correspondent_id
    document_type_id created_after created_before limit log =
  (surfaced str c (upstream log (request_of c)), log ++ [request_of c]).
Proof. intros c. apply (call_run c). Qed.

Lemma fetch_paperless_tags_run (log : list Request) :
  fetch_paperless_tags upstream str log =
  (surfaced str FetchTags (upstream log (GET Tags ∅)), log ++ [GET Tags ∅]).
Proof. apply (call_run FetchTags). Qed.

(** The read-modify-write update, outcome by outcome. *)
Lemma update_paperless_document_run
    (document_id : Z) (update_data : gmap string Json) (log : list Request) :
  let fetch := GET (Document document_id) ∅ in
  update_paperless_document upstream str document_id update_data log =
  match upstream log fetch with
  | Failed s m =>
      (inl (HTTPException 500
              ("Error fetching document: " +:+ str (RequestException s m))),
       log ++ [fetch])
  | Body (JObj current_doc) =>
      let write := PUT (Document document_id) (JObj (update_data ∪ current_doc)) in
      (match upstream (log ++ [fetch]) write with
       | Failed s m =>
           inl (HTTPException 500
                  ("Error updating document: " +:+ str (RequestException s m)))
       | Body j => inr j
       end, (log ++ [fetch]) ++ [write])
  | Body _ => (inl TypeError, log ++ [fetch])
  end.
Proof.
  intros fetch. unfold update_paperless_document, except_RequestException, bind.
  rewrite fetch_paperless_document_run. fold fetch.
  destruct (upstream log fetch) as [s m|j]; simpl; [done|].
  destruct j; simpl; try done.
  unfold requests.
  by destruct (upstream _ _).
Qed.

End Clients.

(** ** The read-modify-write update and the tag update tool *)

Section Update.

Variable upstream : list Request -> Request -> Outcome.
Variable str : Exception -> string.

Lemma tool_update_document_tags_run
    (document_id : Z) (add_tags remove_tags : option (list Z))
    (log : list Request) :
  let fetch := GET (Document document_id) ∅ in
  tool_update_document_tags upstream str document_id add_tags remove_tags log =
  match upstream log fetch with
  | Failed s m =>
      (inr (update_tags_failure str document_id
              (HTTPException 500
                 ("Error fetching document: " +:+ str (RequestException s m)))),
       log ++ [fetch])
  | Body document =>
      match (current_tags <-? Py.get document "tags" (JList []) ;;
             updated_tag_list add_tags remove_tags current_tags)%result with
      | inl e => (inr (update_tags_failure str document_id e), log ++ [fetch])
      | inr new_tags =>
          match update_paperless_document upstream str document_id
                  {["tags" := new_tags]} (log ++ [fetch]) with
          | (inl e, log') => (inr (update_tags_failure str document_id e), log')
          | (inr updated_doc, log') =>
              match Py.get updated_doc "tags" (JList []) with
              | inl e => (inr (update_tags_failure str document_id e), log')
              | inr updated_tags =>
                  (inr (update_tags_success document_id updated_tags), log')
              end
          end
      end
  end.
Proof.
  intros fetch. unfold tool_update_document_tags, except_Exception, bind.
  rewrite fetch_paperless_document_run. fold fetch.
  destruct (upstream log fetch) as [s m|document]; simpl; [done|].
  unfold lift.
  destruct (Py.get document "tags" (JList [])) as [e|current_tags]; simpl; [done|].
  destruct (updated_tag_list add_tags remove_tags current_tags) as [e|new_tags];
    simpl; [done|].
  destruct (update_paperless_document _ _ _ _ _) as [[e|updated_doc] log'];
    [done|].
  by destruct (Py.get updated_doc "tags" (JList [])).
Qed.

(** C2. The document that [update_paperless_document] writes is the
    fetched document overridden, field by field, by the update payload: a
    field named in the payload has the payload's value whatever the
    fetched document had there, any other field has the value of the
    fetched document. *)
Theorem update_is_shallow_merge
    (document_id : Z) (update_data current_doc : gmap string Json)
    (log : list Request) :
  upstream log (GET (Document document_id) ∅) = Body (JObj current_doc) ->
  exists written : gmap string Json,
    (update_paperless_document upstream str document_id update_data log).2 =
      log ++ [GET (Document document_id) ∅;
              PUT (Document document_id) (JObj written)]
    /\ (forall k v, update_data !! k = Some v -> written !! k = Some v)
    /\ (forall k, update_data !! k = None -> written !! k = current_doc !! k).
Proof.
  intros Hfetch. exists (update_data ∪ current_doc).
  rewrite update_paperless_document_run. cbv zeta. rewrite Hfetch.
  split; [by rewrite <- app_assoc|]. split.
  - intros k v Hk. by apply lookup_union_Some_l.
  - intros k Hk. by apply lookup_union_r.
Qed.

(** C3. When the first fetch of [tool_update_document_tags] fails, the
    tool has sent that one request and nothing else, and returns the
    failure result with the document id and the error text; whatever
    the upstream does, a write is only sent as the third request, after
    the two fetches (the tool's own and the update's) have both
    succeeded; and [update_paperless_document] on its own, when its fetch
    fails, raises after that one request. *)
Theorem update_tags_fetch_before_write
    (document_id : Z) (add_tags remove_tags : option (list Z))
    (log : list Request) :
  let fetch := GET (Document document_id) ∅ in
  let run := tool_update_document_tags upstream str document_id
               add_tags remove_tags log in
  (forall s m,
      upstream log fetch = Failed s m ->
      run =
      (inr (dict [("success", JBool false);
                  ("error",
                    JStr (str (HTTPException 500
                                 ("Error fetching document: "
                                  +:+ str (RequestException s m)))));
                  ("document_id", JInt document_id)]),
       log ++ [fetch]))
  /\ (exists issued,
        run.2 = log ++ issued
        /\ forall pre w post,
            issued = pre ++ w :: post -> is_write w = true ->
            pre = [fetch; fetch]
            /\ (exists d, upstream log fetch = Body d)
            /\ (exists d, upstream (log ++ [fetch]) fetch = Body d))
  /\ (forall update_data s m,
        upstream log fetch = Failed s m ->
        update_paperless_document upstream str document_id update_data log =
        (inl (HTTPException 500
                ("Error fetching document: " +:+ str (RequestException s m))),
         log ++ [fetch])).
Proof.
  intros fetch run. subst run. rewrite tool_update_document_tags_run.
  fold fetch. split; [|split].
  - intros s m ->. done.
  - destruct (upstream log fetch) as [s m|document] eqn:Hfetch.
    { exists [fetch]. split; [done|].
      intros [|? [|? ?]] w post Heq Hw; simplify_eq/=. }
    destruct (_ <-? _ ;; _)%result as [e|new_tags].
    { exists [fetch]. split; [done|].
      intros [|? [|? ?]] w post Heq Hw; simplify_eq/=. }
    rewrite update_paperless_document_run. fold fetch.
    destruct (upstream (log ++ [fetch]) fetch) as [s m|current] eqn:Hagain.
    { exists [fetch; fetch]. split; [by rewrite <- app_assoc|].
      intros [|? [|? [|? ?]]] w post Heq Hw; simplify_eq/=. }
    assert (Hshape : forall l, l = (log ++ [fetch]) ++ [fetch] ->
               exists issued, l = log ++ issued /\
                 forall pre w post,
                   issued = pre ++ w :: post -> is_write w = true ->
                   pre = [fetch; fetch]
                   /\ (exists d, Body document = Body d)
                   /\ (exists d, Body current = Body d)).
    { intros l ->. exists [fetch; fetch]. split; [by rewrite <- app_assoc|].
      intros [|? [|? [|? ?]]] w post Heq Hw; simplify_eq/=. }
    destruct current as [| | | | |current_doc]; simpl;
      try (by apply Hshape).
    exists [fetch; fetch;
            PUT (Document document_id) (JObj ({["tags" := new_tags]} ∪ current_doc))].
    split.
    { by destruct (upstream _ (PUT _ _)) as [?|updated];
        [|destruct (Py.get updated "tags" (JList []))]; simpl;
        rewrite <- !app_assoc. }
    intros [|? [|? [|? [|? ?]]]] w post Heq Hw; simplify_eq/=; eauto.
  - intros update_data s m Hfail. rewrite update_paperless_document_run.
    fold fetch. by rewrite Hfail.
Qed.

End Update.

(** ** The tag list of [tool_update_document_tags] *)

Lemma add_new_tags_list (add_tags : list Z) (current_tags : list Json) :
  add_new_tags add_tags (JList current_tags) =
  inr (JList (added_tags add_tags current_tags)).
Proof.
  revert current_tags. induction add_tags as [|tag_id rest IH]; intros cur.
  - done.
  - cbn [add_new_tags added_tags fold_left]. simpl.
    destruct (Py.list_in (JInt tag_id) cur); simpl; apply IH.
Qed.

Lemma list_in_added (x : Json) (add_tags : list Z) (current_tags : list Json) :
  Py.list_in x (added_tags add_tags current_tags) =
  Py.list_in x current_tags || Py.list_in x (map JInt add_tags).
Proof.
  revert current_tags. induction add_tags as [|tag_id rest IH]; intros cur.
  - simpl. by rewrite orb_false_r.
  - cbn [added_tags fold_left map]. fold (added_tags rest).
    change (Py.list_in x (JInt tag_id :: map JInt rest))
      with (Py.eq x (JInt tag_id) || Py.list_in x (map JInt rest)).
    destruct (Py.list_in (JInt tag_id) cur) eqn:Hin; rewrite IH.
    + destruct (Py.eq x (JInt tag_id)) eqn:Hx; [|done].
      by rewrite (list_in_eq _ _ _ Hx), Hin.
    + rewrite list_in_app. simpl. rewrite orb_false_r. by rewrite orb_assoc.
Qed.

Lemma list_in_filter (x : Json) (f : Json -> bool) (l : list Json) :
  Py.list_in x (List.filter f l) = true <->
  exists y, y ∈ l /\ f y = true /\ Py.eq x y = true.
Proof.
  rewrite list_in_true. split.
  - intros (y & Hy & Hxy). apply list_elem_of_In, filter_In in Hy as [Hy Hf].
    exists y. by rewrite list_elem_of_In.
  - intros (y & Hy & Hf & Hxy). exists y. split; [|done].
    apply list_elem_of_In, filter_In. by rewrite <- list_elem_of_In.
Qed.

Lemma filter_all {A} (l : list A) : List.filter (fun _ => true) l = l.
Proof. induction l; simpl; congruence. Qed.

Lemma updated_tag_list_list
    (add_tags remove_tags : option (list Z)) (current_tags : list Json) :
  updated_tag_list add_tags remove_tags (JList current_tags) =
  inr (JList (new_tag_list add_tags remove_tags current_tags)).
Proof.
  unfold updated_tag_list, new_tag_list.
  assert (Hadd : (if given add_tags
                  then add_new_tags (default [] add_tags) (JList current_tags)
                  else inr (JList current_tags)) =
                 inr (JList (added_tags (default [] add_tags) current_tags))).
  { destruct add_tags as [[|a l]|]; [done| |done]. apply add_new_tags_list. }
  rewrite Hadd. simpl.
  destruct remove_tags as [[|r l]|]; simpl; try by rewrite filter_all.
  done.
Qed.

Lemma new_tag_list_removed
    (add_tags remove_tags : option (list Z)) (current_tags : list Json) (t : Z) :
  t ∈ default [] remove_tags ->
  Py.list_in (JInt t) (new_tag_list add_tags remove_tags current_tags) = false.
Proof.
  intros Hrm. apply not_true_is_false. unfold new_tag_list.
  rewrite list_in_filter. intros (y & _ & Hkeep & Hty).
  apply negb_true_iff in Hkeep.
  rewrite <- (list_in_eq _ _ _ Hty), list_in_ints in Hkeep.
  by apply bool_decide_eq_false in Hkeep.
Qed.

Lemma new_tag_list_kept
    (add_tags remove_tags : option (list Z)) (current_tags : list Json) (t : Z) :
  t ∉ default [] add_tags -> t ∉ default [] remove_tags ->
  Py.list_in (JInt t) (new_tag_list add_tags remove_tags current_tags) =
  Py.list_in (JInt t) current_tags.
Proof.
  intros Hadd Hrm.
  assert (Hl : Py.list_in (JInt t) (added_tags (default [] add_tags) current_tags)
               = Py.list_in (JInt t) current_tags).
  { rewrite list_in_added, list_in_ints.
    rewrite (bool_decide_eq_false_2 _ Hadd). by rewrite orb_false_r. }
  rewrite <- Hl. unfold new_tag_list.
  destruct (Py.list_in (JInt t) (added_tags _ _)) eqn:Hin.
  - apply list_in_filter. apply list_in_true in Hin as (y & Hy & Hty).
    exists y. split; [done|]. split; [|done].
    apply negb_true_iff. rewrite <- (list_in_eq _ _ _ Hty), list_in_ints.
    by apply bool_decide_eq_false.
  - apply not_true_is_false. rewrite list_in_filter.
    intros (y & Hy & _ & Hty).
    assert (Py.list_in (JInt t) (added_tags (default [] add_tags) current_tags) = true);
      [|congruence].
    apply list_in_true. eauto.
Qed.

Section UpdateTags.

Variable upstream : list Request -> Request -> Outcome.
Variable str : Exception -> string.

(** C9. With the document fetched and its tags a list, and the update's
    own fetch answered with a document, the tool writes the list obtained
    by the additions followed by the removal filter.  An identifier in
    both [add_tags] and [remove_tags] (indeed any identifier in
    [remove_tags]) is not in the written list; an identifier in neither is
    in the written list exactly when it was in the fetched one. *)
Theorem update_tags_removal_wins
    (document_id : Z) (add_tags remove_tags : option (list Z))
    (document : Json) (current_tags : list Json)
    (current_doc : gmap string Json) (log : list Request) :
  let fetch := GET (Document document_id) ∅ in
  upstream log fetch = Body document ->
  Py.get document "tags" (JList []) = inr (JList current_tags) ->
  upstream (log ++ [fetch]) fetch = Body (JObj current_doc) ->
  exists (new_tags : list Json) (written : gmap string Json),
    (tool_update_document_tags upstream str document_id
       add_tags remove_tags log).2 =
      log ++ [fetch; fetch; PUT (Document document_id) (JObj written)]
    /\ written !! "tags" = Some (JList new_tags)
    /\ new_tags =
       List.filter
         (fun tag_id =>
            negb (Py.list_in tag_id (map JInt (default [] remove_tags))))
         (added_tags (default [] add_tags) current_tags)
    /\ (forall t, t ∈ default [] add_tags -> t ∈ default [] remove_tags ->
          Py.list_in (JInt t) new_tags = false)
    /\ (forall t, t ∉ default [] add_tags -> t ∉ default [] remove_tags ->
          Py.list_in (JInt t) new_tags = Py.list_in (JInt t) current_tags).
Proof.
  intros fetch Hfetch Htags Hagain.
  exists (new_tag_list add_tags remove_tags current_tags),
    ({["tags" := JList (new_tag_list add_tags remove_tags current_tags)]}
       ∪ current_doc).
  split; [|split; [|split; [done|split]]].
  - rewrite tool_update_document_tags_run. fold fetch. rewrite Hfetch, Htags.
    simpl. rewrite updated_tag_list_list, update_paperless_document_run.
    fold fetch. rewrite Hagain. cbv zeta.
    by destruct (upstream _ (PUT _ _)) as [?|updated];
      [|destruct (Py.get updated "tags" (JList []))]; simpl;
      rewrite <- !app_assoc.
  - apply lookup_union_Some_l, lookup_singleton_eq.
  - intros t _ Hrm. by apply new_tag_list_removed.
  - intros t Hadd Hrm. by apply new_tag_list_kept.
Qed.

End UpdateTags.

(** ** The similarity tool *)

Lemma filter_result_filter (cond : Json -> Result bool) (f : Json -> bool)
    (l : list Json) :
  Forall (fun x => cond x = inr (f x)) l ->
  filter_result cond l = inr (List.filter f l).
Proof.
  induction 1 as [|x l Hx _ IH]; [done|].
  simpl. rewrite Hx, IH. simpl. by destruct (f x).
Qed.

Lemma filter_sublist {A} (f : A -> bool) (l : list A) :
  List.filter f l `sublist_of` l.
Proof.
  induction l as [|x l IH]; simpl; [constructor|].
  destruct (f x); by constructor.
Qed.

Lemma slice_to_sublist (n : Z) (l : list Json) : Py.slice_to n l `sublist_of` l.
Proof. unfold Py.slice_to. destruct (0 <=? n); apply sublist_take. Qed.

Lemma slice_to_length (n : Z) (l : list Json) :
  0 <= n -> (length (Py.slice_to n l) <= Z.to_nat n)%nat.
Proof.
  intros Hn. unfold Py.slice_to.
  rewrite (proj2 (Z.leb_le 0 n) Hn), length_take. lia.
Qed.

Lemma without_reference_list (document_id max_results : Z) (docs : list Json) :
  Forall (fun doc => exists doc_id, Py.getitem doc "id" = inr doc_id) docs ->
  without_reference document_id max_results (JList docs) =
  inr (Py.slice_to max_results
         (List.filter (fun doc => negb (has_id document_id doc)) docs)).
Proof.
  intros Hids. unfold without_reference. simpl.
  rewrite (filter_result_filter _ (fun doc => negb (has_id document_id doc))).
  - done.
  - eapply Forall_impl; [exact Hids|]. intros doc [doc_id Hid]. simpl.
    unfold has_id. by rewrite Hid.
Qed.

Section Similar.

Variable upstream : list Request -> Request -> Outcome.
Variable str : Exception -> string.

(** C4, amended. With the reference document fetched and the listing
    answered with documents that all carry an [id], the tool returns the
    upstream list without the documents whose [id] equals the reference
    identifier, sliced by [[:max_results]]: no returned document has the
    reference identifier and the returned documents are a subsequence of
    the upstream list in its order.  For a [max_results] that is not
    negative they are the first [max_results] of the remainder, so at most
    [max_results]; for a negative [max_results] they are the remainder
    without its last [- max_results] documents. *)
Theorem similar_documents_shape
    (document_id max_results : Z) (reference_doc : gmap string Json)
    (data : Json) (docs : list Json) (log : list Request) :
  let fetch := GET (Document document_id) ∅ in
  let correspondent_id := default JNull (reference_doc !! "correspondent") in
  let document_type := default JNull (reference_doc !! "document_type") in
  let listing :=
    GET Documents
      (documents_params JNull JNull correspondent_id document_type
         JNull JNull (max_results + 1)) in
  upstream log fetch = Body (JObj reference_doc) ->
  upstream (log ++ [fetch]) listing = Body data ->
  Py.get data "results" (JList []) = inr (JList docs) ->
  Forall (fun doc => exists doc_id, Py.getitem doc "id" = inr doc_id) docs ->
  exists similar : list Json,
    tool_search_similar_documents upstream str document_id max_results log =
      (inr (dict [("success", JBool true);
                  ("reference_document_id", JInt document_id);
                  ("similar_documents", JList similar);
                  ("similarity_criteria",
                    dict [("correspondent_id", correspondent_id);
                          ("document_type", document_type);
                          ("tags", default (JList []) (reference_doc !! "tags"))])]),
       log ++ [fetch; listing])
    /\ Forall (fun doc => has_id document_id doc = false) similar
    /\ similar `sublist_of` docs
    /\ (0 <= max_results ->
        similar =
          take (Z.to_nat max_results)
            (List.filter (fun doc => negb (has_id document_id doc)) docs)
        /\ (length similar <= Z.to_nat max_results)%nat)
    /\ (max_results < 0 ->
        let remainder :=
          List.filter (fun doc => negb (has_id document_id doc)) docs in
        similar =
          take (length remainder - Z.to_nat (- max_results)) remainder).
Proof.
  intros fetch correspondent_id document_type listing Hfetch Hlist
    Hresults Hids.
  set (kept := List.filter (fun doc => negb (has_id document_id doc)) docs).
  exists (Py.slice_to max_results kept).
  split; [|split; [|split; [|split]]].
  - unfold tool_search_similar_documents, except_Exception, bind.
    rewrite fetch_paperless_document_run. fold fetch. rewrite Hfetch. simpl.
    fold correspondent_id document_type.
    rewrite fetch_paperless_documents_run. simpl.
    fold listing. rewrite Hlist. simpl. rewrite Hresults. simpl.
    rewrite without_reference_list by done. fold kept.
    simpl. by rewrite <- app_assoc.
  - apply Forall_forall. intros doc Hdoc.
    apply (sublist_subseteq _ _ (slice_to_sublist _ _)) in Hdoc.
    apply list_elem_of_In, filter_In in Hdoc as [_ Hdoc].
    by apply negb_true_iff.
  - etrans; [apply slice_to_sublist|apply filter_sublist].
  - intros Hmax. split; [|by apply slice_to_length].
    unfold Py.slice_to. by rewrite (proj2 (Z.leb_le 0 max_results) Hmax).
  - intros Hmax. cbv zeta. unfold Py.slice_to.
    rewrite (proj2 (Z.leb_gt 0 max_results) Hmax). f_equal. lia.
Qed.

End Similar.

(** ** [list(set(l))] *)

Lemma filter_filter {A} (f g : A -> bool) (l : list A) :
  List.filter f (List.filter g l) = List.filter (fun x => g x && f x) l.
Proof.
  induction l as [|x l IH]; simpl; [done|].
  destruct (g x); simpl; [destruct (f x)|]; by rewrite IH.
Qed.

Lemma filter_none {A} (f : A -> bool) (l : list A) :
  (forall x, f x = false) -> List.filter f l = [].
Proof. intros Hf. induction l as [|x l IH]; simpl; [done|]. by rewrite Hf. Qed.

Lemma list_in_dedup (x : Json) (l : list Json) :
  Py.list_in x (Py.dedup l) = Py.list_in x l.
Proof.
  induction l as [|a l IH]; [done|].
  cbn [Py.dedup]. unfold Py.list_in in *. cbn [existsb].
  destruct (Py.eq x a) eqn:Hxa; [done|]. simpl. rewrite <- IH.
  apply eq_true_iff_eq.
  fold (Py.list_in x (List.filter (fun y => negb (Py.eq a y)) (Py.dedup l))).
  fold (Py.list_in x (Py.dedup l)).
  rewrite list_in_filter, list_in_true. split.
  - intros (y & Hy & _ & Hxy). eauto.
  - intros (y & Hy & Hxy). exists y. split; [done|]. split; [|done].
    apply negb_true_iff, not_true_is_false. intros Hay.
    assert (Py.eq x a = true); [|congruence].
    apply eq_trans with y; [done|]. by rewrite eq_sym.
Qed.

(** Every value of [l] occurs once in [Py.dedup l]. *)
Lemma dedup_once (x : Json) (l : list Json) :
  Py.list_in x l = true ->
  length (List.filter (Py.eq x) (Py.dedup l)) = 1%nat.
Proof.
  induction l as [|a l IH]; [done|].
  intros Hin. cbn [Py.dedup List.filter].
  rewrite filter_filter.
  destruct (Py.eq x a) eqn:Hxa.
  - rewrite filter_none; [done|]. intros y.
    destruct (Py.eq x y) eqn:Hxy; [|by rewrite andb_false_r].
    rewrite andb_true_r. apply negb_false_iff.
    apply eq_trans with x; [|done]. by rewrite eq_sym.
  - rewrite <- IH.
    + f_equal. apply filter_ext. intros y.
      destruct (Py.eq x y) eqn:Hxy; [|by rewrite andb_false_r].
      rewrite andb_true_r. apply negb_true_iff, not_true_is_false. intros Hay.
      assert (Py.eq x a = true); [|congruence].
      apply eq_trans with y; [done|]. by rewrite eq_sym.
    + unfold Py.list_in in Hin. cbn [existsb] in Hin. by rewrite Hxa in Hin.
Qed.

Lemma list_in_Permutation (x : Json) (l l' : list Json) :
  l ≡ₚ l' -> Py.list_in x l = Py.list_in x l'.
Proof.
  intros Hp. apply eq_true_iff_eq. rewrite !list_in_true.
  by setoid_rewrite Hp.
Qed.

Lemma filter_length_Permutation {A} (f : A -> bool) (l l' : list A) :
  l ≡ₚ l' -> length (List.filter f l) = length (List.filter f l').
Proof.
  induction 1 as [|x l l' _ IH|x y l|l l' l'' _ IH1 _ IH2]; simpl.
  - done.
  - destruct (f x); simpl; congruence.
  - by destruct (f x), (f y).
  - congruence.
Qed.

(** ** Running the analysis tool *)

Section Analyze.

Variable upstream : list Request -> Request -> Outcome.
Variable str : Exception -> string.
Variable set_order : list Json -> list Json.

Lemma tool_analyze_document_run
    (document_id : Z) (update_automatically : bool) (log : list Request) :
  let fetch := GET (Document document_id) ∅ in
  tool_analyze_document upstream str set_order document_id
    update_automatically log =
  match upstream log fetch with
  | Failed s m =>
      (inr (analysis_failure str document_id
              (HTTPException 500
                 ("Error fetching document: " +:+ str (RequestException s m)))),
       log ++ [fetch])
  | Body document =>
      match (title <-? Py.get document "title" (JStr "") ;;
             content <-? Py.get document "content" (JStr "") ;;
             inr (title, content))%result with
      | inl e => (inr (analysis_failure str document_id e), log ++ [fetch])
      | inr (document_title, document_content) =>
          let listed := (log ++ [fetch]) ++ [GET Tags ∅] in
          match (all_tags <-? surfaced str FetchTags
                                (upstream (log ++ [fetch]) (GET Tags ∅)) ;;
                 tags <-? Py.iter all_tags ;;
                 tag_mapping <-? tag_mapping_from tags [] ;;
                 suggested_tag_ids <-?
                   suggest_tags tag_mapping document_title document_content [] ;;
                 inr (tags, suggested_tag_ids))%result with
          | inl e => (inr (analysis_failure str document_id e), listed)
          | inr (tags, suggested_tag_ids) =>
              analysis_tail upstream str set_order document_id
                update_automatically document
                document_title tags suggested_tag_ids listed
          end
      end
  end.
Proof.
  intros fetch. unfold tool_analyze_document, except_Exception, bind.
  rewrite fetch_paperless_document_run. fold fetch.
  destruct (upstream log fetch) as [s m|document]; simpl; [done|].
  unfold lift.
  destruct (Py.get document "title" (JStr "")) as [e|title]; simpl; [done|].
  destruct (Py.get document "content" (JStr "")) as [e|content]; simpl; [done|].
  rewrite fetch_paperless_tags_run.
  destruct (surfaced str FetchTags _) as [e|all_tags]; simpl; [done|].
  destruct (Py.iter all_tags) as [e|tags]; simpl; [done|].
  destruct (tag_mapping_from tags []) as [e|tag_mapping]; simpl; [done|].
  destruct (suggest_tags tag_mapping title content []) as [e|ids]; simpl; [done|].
  unfold analysis_tail, union_tags.
  destruct (update_automatically && negb (bool_decide (ids = []))).
  - destruct (Py.get document "tags" (JList [])) as [e|current_tags]; simpl; [done|].
    destruct (Py.add_list current_tags ids) as [e|both]; simpl; [done|].
    destruct (list_set set_order both) as [e|new_tags]; simpl; [done|].
    destruct (update_paperless_document _ _ _ _ _) as [[e|updated] log']; [done|].
    by destruct (suggested_names tags ids).
  - by destruct (suggested_names tags ids).
Qed.

End Analyze.

(** ** Well-formed tags *)

Lemma tag_mapping_from_tags (tags : list Json) (acc mapping : list (string * Json)) :
  tag_mapping_from tags acc = inr mapping -> Forall is_tag tags.
Proof.
  revert acc. induction tags as [|tag rest IH]; intros acc Hm; [constructor|].
  cbn [tag_mapping_from] in Hm.
  destruct (Py.getitem tag "name") as [e|name] eqn:Hname; [done|]. simpl in Hm.
  destruct name as [| | |name| |]; try done. simpl in Hm.
  destruct (Py.getitem tag "id") as [e|tag_id] eqn:Hid; [done|]. simpl in Hm.
  constructor; [by exists name, tag_id|by eapply IH].
Qed.

Lemma tag_mapping_from_fold (tags : list Json) (acc : list (string * Json)) :
  Forall is_tag tags ->
  tag_mapping_from tags acc =
  inr (fold_left (fun acc tag => odict_set (lower_name_of tag) (id_of tag) acc)
         tags acc).
Proof.
  intros Htags. revert acc.
  induction Htags as [|tag rest (name & tag_id & Hname & Hid) _ IH]; intros acc;
    [done|].
  cbn [tag_mapping_from fold_left]. unfold lower_name_of, name_of, id_of.
  rewrite Hname, Hid. simpl. apply IH.
Qed.

Lemma suggested_names_filter (tags ids : list Json) :
  Forall is_tag tags ->
  suggested_names tags ids =
  inr (map name_of (List.filter (fun tag => Py.list_in (id_of tag) ids) tags)).
Proof.
  induction 1 as [|tag rest (name & tag_id & Hname & Hid) _ IH]; [done|].
  cbn [suggested_names List.filter]. unfold id_of at 1, name_of.
  rewrite Hid. simpl. rewrite IH.
  destruct (Py.list_in tag_id ids); simpl; by rewrite ?Hname.
Qed.

Lemma suggested_tag_ids_of_inv (document all_tags : Json) (ids : list Json) :
  suggested_tag_ids_of document all_tags = inr ids ->
  exists title content tags tag_mapping,
    Py.get document "title" (JStr "") = inr title
    /\ Py.get document "content" (JStr "") = inr content
    /\ Py.iter all_tags = inr tags
    /\ tag_mapping_from tags [] = inr tag_mapping
    /\ suggest_tags tag_mapping title content [] = inr ids.
Proof.
  unfold suggested_tag_ids_of. intros H.
  destruct (Py.get document "title" _) as [e|title]; [done|]. simpl in H.
  destruct (Py.get document "content" _) as [e|content]; [done|]. simpl in H.
  destruct (Py.iter all_tags) as [e|tags]; [done|]. simpl in H.
  destruct (tag_mapping_from tags []) as [e|tag_mapping] eqn:Hm; [done|].
  simpl in H. by exists title, content, tags, tag_mapping.
Qed.

Section AnalyzeUpdate.

Variable upstream : list Request -> Request -> Outcome.
Variable str : Exception -> string.
Variable set_order : list Json -> list Json.

Lemma update_paperless_document_log
    (document_id : Z) (update_data : gmap string Json) (log : list Request) :
  exists issued,
    (update_paperless_document upstream str document_id update_data log).2 =
    log ++ issued.
Proof.
  rewrite update_paperless_document_run. cbv zeta.
  destruct (upstream log _) as [s m|[| | | | |current_doc]]; simpl; eauto.
  rewrite <- app_assoc. eauto.
Qed.

(** From the decision on, the analysis writes only if it was asked to
    update and has a suggestion. *)
Lemma analysis_tail_log
    (document_id : Z) (update_automatically : bool)
    (document document_title : Json) (tags ids : list Json)
    (log : list Request) :
  exists issued,
    (analysis_tail upstream str set_order document_id update_automatically
       document document_title tags ids log).2 = log ++ issued
    /\ (existsb is_write issued = true ->
        update_automatically = true /\ ids <> []).
Proof.
  unfold analysis_tail.
  destruct update_automatically; simpl.
  2:{ exists []. rewrite app_nil_r.
      split; [by destruct (suggested_names tags ids)|done]. }
  destruct (decide (ids = [])) as [->|Hids].
  { exists []. rewrite app_nil_r.
    split; [by destruct (suggested_names tags [])|done]. }
  rewrite bool_decide_eq_false_2 by done. simpl.
  destruct (union_tags set_order document ids) as [e|new_tags].
  { exists []. by rewrite app_nil_r. }
  destruct (update_paperless_document_log document_id
              {["tags" := JList new_tags]} log) as [issued Hissued].
  exists issued. split; [|done].
  destruct (update_paperless_document _ _ _ _ _) as [[e|updated] log'];
    simpl in *; [done|].
  by destruct (suggested_names tags ids).
Qed.

(** The analysis once the document and the tags are fetched and the
    suggestion is computed. *)
Lemma tool_analyze_document_analysed
    (document_id : Z) (update_automatically : bool)
    (document data all_tags : Json) (ids : list Json) (log : list Request) :
  let fetch := GET (Document document_id) ∅ in
  upstream log fetch = Body document ->
  upstream (log ++ [fetch]) (GET Tags ∅) = Body data ->
  Py.get data "results" (JList []) = inr all_tags ->
  suggested_tag_ids_of document all_tags = inr ids ->
  exists title tags,
    Py.get document "title" (JStr "") = inr title
    /\ Py.iter all_tags = inr tags
    /\ Forall is_tag tags
    /\ tool_analyze_document upstream str set_order document_id
         update_automatically log =
       analysis_tail upstream str set_order document_id update_automatically
         document title tags ids (log ++ [fetch; GET Tags ∅]).
Proof.
  intros fetch Hfetch Htags Hresults Hids.
  destruct (suggested_tag_ids_of_inv _ _ _ Hids)
    as (title & content & tags & tag_mapping & Ht & Hc & Hiter & Hm & Hs).
  exists title, tags. split; [done|]. split; [done|].
  split; [by eapply tag_mapping_from_tags|].
  rewrite tool_analyze_document_run. fold fetch.
  rewrite Hfetch, Ht, Hc. simpl. rewrite Htags. simpl.
  rewrite Hresults. simpl. rewrite Hiter. simpl. rewrite Hm. simpl.
  rewrite Hs. simpl. by rewrite <- app_assoc.
Qed.

End AnalyzeUpdate.

(** ** When the analysis tool writes, and what *)

Section AnalyzeWrites.

Variable upstream : list Request -> Request -> Outcome.
Variable str : Exception -> string.
Variable set_order : list Json -> list Json.

(** Whatever the upstream answers, a write of the analysis comes after a
    computed suggestion that is not empty, and only when the tool was asked
    to update. *)
Lemma tool_analyze_document_write_inv
    (document_id : Z) (update_automatically : bool) (log : list Request) :
  let fetch := GET (Document document_id) ∅ in
  let listing := GET Tags ∅ in
  exists issued,
    (tool_analyze_document upstream str set_order document_id
       update_automatically log).2 = log ++ issued
    /\ (existsb is_write issued = true ->
        update_automatically = true
        /\ exists document data all_tags ids,
            upstream log fetch = Body document
            /\ upstream (log ++ [fetch]) listing = Body data
            /\ Py.get data "results" (JList []) = inr all_tags
            /\ suggested_tag_ids_of document all_tags = inr ids
            /\ ids <> []).
Proof.
  intros fetch listing.
  rewrite tool_analyze_document_run. fold fetch listing.
  destruct (upstream log fetch) as [s m|document] eqn:Hfetch.
  { by exists [fetch]. }
  destruct (Py.get document "title" (JStr "")) as [e|title] eqn:Ht; simpl.
  { by exists [fetch]. }
  destruct (Py.get document "content" (JStr "")) as [e|content] eqn:Hc; simpl.
  { by exists [fetch]. }
  destruct (upstream (log ++ [fetch]) listing) as [s m|data] eqn:Hlist; simpl.
  { exists [fetch; listing]. by rewrite <- app_assoc. }
  destruct (Py.get data "results" (JList [])) as [e|all_tags] eqn:Hres; simpl.
  { exists [fetch; listing]. by rewrite <- app_assoc. }
  destruct (Py.iter all_tags) as [e|tags] eqn:Hiter; simpl.
  { exists [fetch; listing]. by rewrite <- app_assoc. }
  destruct (tag_mapping_from tags []) as [e|tag_mapping] eqn:Hm; simpl.
  { exists [fetch; listing]. by rewrite <- app_assoc. }
  destruct (suggest_tags tag_mapping title content []) as [e|ids] eqn:Hs; simpl.
  { exists [fetch; listing]. by rewrite <- app_assoc. }
  destruct (analysis_tail_log upstream str set_order document_id
              update_automatically document title tags ids
              ((log ++ [fetch]) ++ [listing])) as (issued & Hlog & Hw).
  exists ([fetch; listing] ++ issued). split.
  { rewrite Hlog. by rewrite <- !app_assoc. }
  intros Hwrite. rewrite existsb_app in Hwrite. simpl in Hwrite.
  destruct (Hw Hwrite) as [Hua Hids]. split; [done|].
  exists document, data, all_tags, ids. repeat split; try done.
  unfold suggested_tag_ids_of. rewrite Ht, Hc. simpl. rewrite Hiter. simpl.
  by rewrite Hm.
Qed.

(** The requests of the analysis from the decision on whether to update:
    none without the flag or without a suggestion; otherwise those of the
    update, whose write follows its fetch when that returns a document. *)
Lemma analysis_tail_issued
    (document_id : Z) (update_automatically : bool)
    (document document_title : Json) (tags ids : list Json)
    (log : list Request) :
  let fetch := GET (Document document_id) ∅ in
  let run := analysis_tail upstream str set_order document_id
               update_automatically document document_title tags ids log in
  Forall is_tag tags ->
  exists issued,
    run.2 = log ++ issued
    /\ (existsb is_write issued = true <->
        update_automatically = true /\ ids <> []
        /\ exists new_tags current_doc,
            union_tags set_order document ids = inr new_tags
            /\ upstream log fetch = Body (JObj current_doc))
    /\ (update_automatically = false \/ ids = [] ->
        issued = []
        /\ exists names,
            run.1 = inr (analysis_success document_id document_title names ids
                           update_automatically))
    /\ (forall new_tags current_doc,
          update_automatically = true -> ids <> [] ->
          union_tags set_order document ids = inr new_tags ->
          upstream log fetch = Body (JObj current_doc) ->
          issued = [fetch;
                    PUT (Document document_id)
                      (JObj ({["tags" := JList new_tags]} ∪ current_doc))]).
Proof.
  intros fetch run Htags. subst run. unfold analysis_tail.
  rewrite (suggested_names_filter tags ids Htags).
  destruct update_automatically; simpl.
  2:{ exists []. rewrite app_nil_r. split; [done|]. split.
      - split; [done|]. by intros [? _].
      - split; [intros _; split; [done|by eexists]|done]. }
  destruct (decide (ids = [])) as [->|Hids].
  { exists []. rewrite app_nil_r. split; [done|]. split.
    - split; [done|]. by intros (_ & ? & _).
    - split; [intros _; split; [done|by eexists]|done]. }
  rewrite bool_decide_eq_false_2 by done. simpl.
  destruct (union_tags set_order document ids) as [e|new_tags] eqn:Hunion.
  { exists []. rewrite app_nil_r. split; [done|]. split.
    - split; [done|]. by intros (_ & _ & ? & ? & ? & _).
    - split; [by intros [?|?]|done]. }
  rewrite update_paperless_document_run. fold fetch. cbv zeta.
  destruct (upstream log fetch) as [s m|current] eqn:Hagain.
  { exists [fetch]. split; [done|]. split.
    - split; [done|]. by intros (_ & _ & ? & ? & _ & ?).
    - split; [by intros [?|?]|done]. }
  destruct current as [| | | | |current_doc];
    try (exists [fetch]; split; [done|]; split;
         [split; [done|]; by intros (_ & _ & ? & ? & _ & ?)
         |split; [by intros [?|?]|done]]).
  exists [fetch; PUT (Document document_id)
                   (JObj ({["tags" := JList new_tags]} ∪ current_doc))].
  split.
  { destruct (upstream _ (PUT _ _)); simpl; by rewrite <- app_assoc. }
  split.
  - split; [|done]. intros _. split; [done|]. split; [done|]. by eexists _, _.
  - split; [by intros [?|?]|].
    by intros new_tags' current_doc' _ _ [= <-] [= <-].
Qed.

(** C10, amended. Whatever the upstream answers, [tool_analyze_document]
    sends a write only if [update_automatically] is true and the analysis
    has suggested at least one tag.  With the document and the tags fetched
    and the suggestion computed, the tool sends the two fetches and then:
    nothing when [update_automatically] is false or nothing is suggested,
    its result reporting [tags_updated] as the [update_automatically]
    argument; otherwise the requests of the update, with the write exactly
    when the union of the tags is formed and the update's own fetch is
    answered with a document. *)
Theorem analyze_writes_iff_asked_and_suggested
    (document_id : Z) (update_automatically : bool) (log : list Request) :
  let fetch := GET (Document document_id) ∅ in
  let listing := GET Tags ∅ in
  let run := tool_analyze_document upstream str set_order document_id
               update_automatically log in
  (exists issued,
      run.2 = log ++ issued
      /\ (existsb is_write issued = true ->
          update_automatically = true
          /\ exists document data all_tags ids,
              upstream log fetch = Body document
              /\ upstream (log ++ [fetch]) listing = Body data
              /\ Py.get data "results" (JList []) = inr all_tags
              /\ suggested_tag_ids_of document all_tags = inr ids
              /\ ids <> []))
  /\ (forall document data all_tags ids,
        upstream log fetch = Body document ->
        upstream (log ++ [fetch]) listing = Body data ->
        Py.get data "results" (JList []) = inr all_tags ->
        suggested_tag_ids_of document all_tags = inr ids ->
        exists issued,
          run.2 = log ++ [fetch; listing] ++ issued
          /\ (existsb is_write issued = true <->
              update_automatically = true /\ ids <> []
              /\ exists new_tags current_doc,
                  union_tags set_order document ids = inr new_tags
                  /\ upstream (log ++ [fetch; listing]) fetch =
                     Body (JObj current_doc))
          /\ (update_automatically = false \/ ids = [] ->
              issued = []
              /\ exists title names result,
                  run.1 = inr (JObj result)
                  /\ JObj result =
                     analysis_success document_id title names ids
                       update_automatically
                  /\ result !! "tags_updated" = Some (JBool update_automatically))
          /\ (forall new_tags current_doc,
                update_automatically = true -> ids <> [] ->
                union_tags set_order document ids = inr new_tags ->
                upstream (log ++ [fetch; listing]) fetch = Body (JObj current_doc) ->
                issued = [fetch;
                          PUT (Document document_id)
                            (JObj ({["tags" := JList new_tags]} ∪ current_doc))])).
Proof.
  intros fetch listing run. split.
  - apply tool_analyze_document_write_inv.
  - intros document data all_tags ids Hfetch Hlist Hres Hids.
    destruct (tool_analyze_document_analysed upstream str set_order
                document_id update_automatically document data all_tags
                ids log Hfetch Hlist Hres Hids)
      as (title & tags & Ht & Hiter & Htags & Hrun).
    fold fetch listing run in Hrun.
    destruct (analysis_tail_issued document_id update_automatically document
                title tags ids (log ++ [fetch; listing]) Htags)
      as (issued & Hlog & Hiff & Hnone & Hwrite).
    fold fetch in Hiff, Hwrite. rewrite <- Hrun in Hlog, Hnone.
    exists issued. split; [by rewrite Hlog, <- app_assoc|].
    split; [exact Hiff|]. split; [|exact Hwrite].
    intros Hno. destruct (Hnone Hno) as (-> & names & Hresult).
    split; [done|]. eexists title, names, _.
    split; [exact Hresult|]. split; reflexivity.
Qed.

End AnalyzeWrites.

(** ** Which tags the analysis suggests *)

Lemma keyword_match_strings (tag_name title content : string) :
  keyword_match tag_name (JStr title) (JStr content) =
  inr (keyword_in title content tag_name).
Proof.
  unfold keyword_match, keyword_in. simpl.
  by destruct (Py.str_in tag_name (Py.lower_string title)).
Qed.

Lemma keyword_in_true (title content tag_name : string) :
  keyword_in title content tag_name = true <->
  (exists pre post, Py.lower_string title = pre +:+ tag_name +:+ post)
  \/ (exists pre post, Py.lower_string content = pre +:+ tag_name +:+ post).
Proof. unfold keyword_in. by rewrite orb_true_iff, !str_in_true. Qed.

Lemma odict_set_fresh (k : string) (v : Json) (d : list (string * Json)) :
  k ∉ d.*1 -> odict_set k v d = d ++ [(k, v)].
Proof.
  induction d as [|[k' v'] d IH]; intros Hk; [done|].
  simpl in *. apply not_elem_of_cons in Hk as [Hne Hk].
  rewrite decide_False by done. by rewrite IH.
Qed.

Lemma tag_mapping_distinct (tags : list Json) (acc : list (string * Json)) :
  NoDup (acc.*1 ++ map lower_name_of tags) ->
  fold_left (fun acc tag => odict_set (lower_name_of tag) (id_of tag) acc) tags acc
  = acc ++ map (fun tag => (lower_name_of tag, id_of tag)) tags.
Proof.
  revert acc. induction tags as [|tag rest IH]; intros acc Hnd.
  - by rewrite app_nil_r.
  - cbn [fold_left map] in *.
    assert (Hfresh : lower_name_of tag ∉ acc.*1).
    { apply NoDup_app in Hnd as (_ & Hdisj & _). intros Hin.
      apply (Hdisj _ Hin). by left. }
    rewrite odict_set_fresh by done. rewrite IH.
    + by rewrite <- app_assoc.
    + rewrite fmap_app. simpl. rewrite <- app_assoc. done.
Qed.

Lemma suggest_tags_filter
    (items : list (string * Json)) (title content : string) (acc : list Json) :
  suggest_tags items (JStr title) (JStr content) acc =
  inr (acc ++ map snd (List.filter (fun kv => keyword_in title content kv.1) items)).
Proof.
  revert acc. induction items as [|[tag_name tag_id] rest IH]; intros acc.
  - by rewrite app_nil_r.
  - cbn [suggest_tags List.filter]. rewrite keyword_match_strings. simpl.
    rewrite IH. destruct (keyword_in title content tag_name); simpl; [|done].
    by rewrite <- app_assoc.
Qed.

Lemma filter_map_pairs {A} (f : A -> string) (g : A -> Json)
    (p : string -> bool) (l : list A) :
  map snd (List.filter (fun kv => p kv.1) (map (fun x => (f x, g x)) l)) =
  map g (List.filter (fun x => p (f x)) l).
Proof.
  induction l as [|x l IH]; simpl; [done|].
  destruct (p (f x)); simpl; by rewrite IH.
Qed.

(** With names that stay distinct when lowered, the suggested identifiers
    are those of the matching tags, in the order of the listing. *)
Lemma suggested_ids_distinct_names
    (document : gmap string Json) (title content : string) (tags : list Json) :
  default (JStr "") (document !! "title") = JStr title ->
  default (JStr "") (document !! "content") = JStr content ->
  Forall is_tag tags ->
  NoDup (map lower_name_of tags) ->
  suggested_tag_ids_of (JObj document) (JList tags) =
  inr (map id_of (matching_tags title content tags)).
Proof.
  intros Ht Hc Htags Hnd. unfold suggested_tag_ids_of. simpl.
  rewrite Ht, Hc. rewrite (tag_mapping_from_fold tags [] Htags). simpl.
  rewrite tag_mapping_distinct by done. simpl.
  rewrite suggest_tags_filter. simpl. f_equal.
  apply (filter_map_pairs lower_name_of id_of (keyword_in title content)).
Qed.

(** With identifiers that are distinct as well, the suggested names are
    those of the matching tags. *)
Lemma suggested_names_distinct_ids (title content : string) (tags : list Json) :
  Forall is_tag tags ->
  (forall t1 t2, t1 ∈ tags -> t2 ∈ tags ->
                 Py.eq (id_of t1) (id_of t2) = true -> t1 = t2) ->
  suggested_names tags (map id_of (matching_tags title content tags)) =
  inr (map name_of (matching_tags title content tags)).
Proof.
  intros Htags Hids. rewrite suggested_names_filter by done. do 2 f_equal.
  unfold matching_tags at 2. apply filter_ext_in. intros tag Htag.
  apply list_elem_of_In in Htag. apply eq_true_iff_eq.
  rewrite list_in_true. split.
  - intros (y & Hy & Heq).
    apply list_elem_of_In, in_map_iff in Hy as (tag' & <- & Htag').
    apply filter_In in Htag' as [Htag' Hm].
    apply list_elem_of_In in Htag'.
    by rewrite (Hids tag tag' Htag Htag' Heq).
  - intros Hm. exists (id_of tag). split; [|apply eq_refl_true].
    apply list_elem_of_In, in_map, filter_In. by rewrite <- list_elem_of_In.
Qed.

Section Suggestion.

Variable upstream : list Request -> Request -> Outcome.
Variable str : Exception -> string.
Variable set_order : list Json -> list Json.

(** X23. For a listing whose lowered names are pairwise distinct and whose
    identifiers are pairwise distinct, the tool suggests exactly the tags
    whose lowered name is a literal substring of the lowered title or of
    the lowered content, in the order of the listing. *)
Lemma analyze_suggests_matching_tags
    (document_id : Z) (document : gmap string Json) (data : Json)
    (tags : list Json) (title content : string) (log : list Request) :
  let fetch := GET (Document document_id) ∅ in
  let listing := GET Tags ∅ in
  let suggested := matching_tags title content tags in
  upstream log fetch = Body (JObj document) ->
  default (JStr "") (document !! "title") = JStr title ->
  default (JStr "") (document !! "content") = JStr content ->
  upstream (log ++ [fetch]) listing = Body data ->
  Py.get data "results" (JList []) = inr (JList tags) ->
  Forall is_tag tags ->
  NoDup (map lower_name_of tags) ->
  (forall t1 t2, t1 ∈ tags -> t2 ∈ tags ->
                 Py.eq (id_of t1) (id_of t2) = true -> t1 = t2) ->
  tool_analyze_document upstream str set_order document_id false log =
    (inr (analysis_success document_id (JStr title)
            (map name_of suggested) (map id_of suggested) false),
     log ++ [fetch; listing])
  /\ forall tag,
      tag ∈ suggested <->
      tag ∈ tags
      /\ ((exists pre post,
             Py.lower_string title = pre +:+ lower_name_of tag +:+ post)
          \/ (exists pre post,
                Py.lower_string content = pre +:+ lower_name_of tag +:+ post)).
Proof.
  intros fetch listing suggested Hfetch Htitle Hcontent Hlist Hres Htags
    Hnames Hids.
  split.
  - destruct (tool_analyze_document_analysed upstream str set_order document_id
                false (JObj document) data (JList tags) (map id_of suggested) log
                Hfetch Hlist Hres
                (suggested_ids_distinct_names document title content tags
                   Htitle Hcontent Htags Hnames))
      as (title' & tags' & Ht & Hiter & _ & Hrun).
    simpl in Ht, Hiter. rewrite Htitle in Ht.
    injection Ht as <-. injection Hiter as <-.
    fold fetch listing in Hrun. rewrite Hrun. unfold analysis_tail.
    cbn [andb]. subst suggested.
    by rewrite (suggested_names_distinct_ids title content tags Htags Hids).
  - intros tag. unfold suggested, matching_tags.
    rewrite list_elem_of_In, filter_In, <- list_elem_of_In.
    by rewrite keyword_in_true.
Qed.

End Suggestion.

(** ** Every invocation returns a structured result *)

Lemma returns_only_ret {A} (P : A -> Prop) (a : A) : P a -> returns_only P (ret a).
Proof. intros Ha log a' log' [= <- _]. done. Qed.

Lemma returns_only_bind {A B} (P : B -> Prop) (m : M A) (k : A -> M B) :
  (forall a, returns_only P (k a)) -> returns_only P (bind m k).
Proof.
  intros Hk log b log'. unfold bind.
  destruct (m log) as [[e|a] log1]; [done|]. apply Hk.
Qed.

Lemma except_Exception_structured {P : Json -> Prop}
    (body : M Json) (f : Exception -> Json) (log : list Request) :
  returns_only P body ->
  exists j log',
    except_Exception body (fun e => ret (f e)) log = (inr j, log')
    /\ (P j \/ exists e, j = f e).
Proof.
  intros Hbody. unfold except_Exception.
  destruct (body log) as [[e|j] log'] eqn:Hrun.
  - exists (f e), log'. eauto.
  - exists j, log'. split; [done|]. left. by eapply Hbody.
Qed.

Ltac returns :=
  repeat (apply returns_only_bind; intros ?);
  apply returns_only_ret.

Section Structured.

Variable upstream : list Request -> Request -> Outcome.
Variable str : Exception -> string.
Variable set_order : list Json -> list Json.
Variable now : string.

Lemma resource_structured (c : Client) (field : string) (dflt : Json)
    (log : list Request) :
  field <> "error" ->
  exists result log',
    except_Exception
      (bind (call upstream str c) (fun data => ret (dict [(field, data)])))
      (fun e => ret (dict [("error", JStr (str e)); (field, dflt)])) log =
    (inr (JObj result), log')
    /\ (reports_error result
        \/ is_Some (result !! field) /\ result !! "error" = None).
Proof.
  intros Hfield. unfold except_Exception, bind. rewrite call_run.
  destruct (surfaced str c (upstream log (request_of c))) as [e|data]; simpl.
  - eexists _, _. split; [reflexivity|]. left. eexists. apply lookup_insert_eq.
  - eexists _, _. split; [reflexivity|]. right. unfold dict. simpl. split.
    + eexists. apply lookup_insert_eq.
    + rewrite lookup_insert_ne by done. apply lookup_empty.
Qed.

(** A listing resource whose upstream call fails returns the error text
    and the empty collection. *)
Lemma listing_failure (i : Invocation) (c : Client) (log : list Request)
    (s : option Z) (m : string) :
  listing_of i = Some c ->
  upstream log (request_of c) = Failed s m ->
  invoke upstream str set_order now i log =
  (inr (dict [("error",
                JStr (str (HTTPException 500
                             (error_prefix c +:+ str (RequestException s m)))));
              (data_field i, JList [])]),
   log ++ [request_of c]).
Proof.
  intros Hlisting Hfail.
  assert (Hrun : forall field,
             except_Exception
               (bind (call upstream str c) (fun data => ret (dict [(field, data)])))
               (fun e => ret (dict [("error", JStr (str e)); (field, JList [])]))
               log =
             (inr (dict [("error",
                           JStr (str (HTTPException 500
                                        (error_prefix c
                                         +:+ str (RequestException s m)))));
                         (field, JList [])]),
              log ++ [request_of c])).
  { intros field. unfold except_Exception, bind. by rewrite call_run, Hfail. }
  destruct i; simplify_eq/=; apply Hrun.
Qed.

End Structured.

Section StructuredInvocations.

Variable upstream : list Request -> Request -> Outcome.
Variable str : Exception -> string.
Variable set_order : list Json -> list Json.
Variable now : string.

Ltac tool_structured :=
  match goal with
  | |- context [except_Exception ?body (fun e => ret (@?f e)) ?log] =>
      let j := fresh "j" in
      let log' := fresh "log'" in
      let Hrun := fresh "Hrun" in
      let Hj := fresh "Hj" in
      destruct (except_Exception_structured (P := says_success) body f log)
        as (j & log' & Hrun & Hj);
      [ returns; eexists; split; reflexivity
      | destruct Hj as [(result & -> & Hsuccess)|[e ->]];
        [ exists result, log'; split; [exact Hrun|by right]
        | eexists _, log'; split; [exact Hrun|];
          left; eexists; reflexivity ] ]
  end.

(** The result of an invocation, handler by handler. *)
Lemma invocation_structured (i : Invocation) (log : list Request) :
  exists result log',
    invoke upstream str set_order now i log = (inr (JObj result), log')
    /\ (reports_error result \/ carries_data i result).
Proof.
  destruct i as [q t c d a b limit|document_id| | | | |workflow_id document_id
                 additional_data|document_id add_tags remove_tags|document_id
                 update_automatically|document_id max_results];
    cbn [invoke].
  - by apply (resource_structured upstream str
                (FetchDocuments q t c d a b limit) "documents").
  - by apply (resource_structured upstream str (FetchDocument document_id)
                "document").
  - by apply (resource_structured upstream str FetchTags "tags").
  - by apply (resource_structured upstream str FetchCorrespondents
                "correspondents").
  - by apply (resource_structured upstream str FetchDocumentTypes
                "document_types").
  - by apply (resource_structured upstream str FetchWorkflows "workflows").
  - unfold tool_trigger_workflow. tool_structured.
  - unfold tool_update_document_tags. tool_structured.
  - unfold tool_analyze_document. tool_structured.
  - unfold tool_search_similar_documents. tool_structured.
Qed.

(** C6. Every invocation of a resource or of a tool returns an object:
    one that carries an error text under [error], or one that carries the
    data (a tool's [success: True], a resource's data field without an
    error marker); no exception leaves a handler.  When the upstream call
    of a listing resource fails, the returned object has the error text
    under [error] and the empty list under the collection field, and the
    one request has been sent. *)
Theorem invocation_is_structured (i : Invocation) (log : list Request) :
  exists result log',
    invoke upstream str set_order now i log = (inr (JObj result), log')
    /\ (reports_error result \/ carries_data i result)
    /\ (forall c s m,
          listing_of i = Some c ->
          upstream log (request_of c) = Failed s m ->
          result !! "error" =
            Some (JStr (str (HTTPException 500
                               (error_prefix c +:+ str (RequestException s m)))))
          /\ result !! data_field i = Some (JList [])
          /\ log' = log ++ [request_of c]).
Proof.
  destruct (invocation_structured i log) as (result & log' & Hrun & Hresult).
  exists result, log'. split; [exact Hrun|]. split; [exact Hresult|].
  intros c s m Hlisting Hfail.
  rewrite (listing_failure upstream str set_order now i c log s m Hlisting Hfail)
    in Hrun.
  injection Hrun as <- <-. split; [apply lookup_insert_eq|]. split; [|done].
  rewrite lookup_insert_ne by (by destruct i). apply lookup_insert_eq.
Qed.

End StructuredInvocations.

(** ** Concrete runs *)

(** The example of the specification: of the tags invoice, acme and
    receipt, the first two are suggested for "Invoice from Acme Corp". *)
Example analyze_invoice_from_acme :
  tool_analyze_document
    (Example.paperless
       [Example.document 7 "Invoice from Acme Corp" "" [] 3 2]
       [Example.tag 1 "invoice"; Example.tag 2 "acme"; Example.tag 3 "receipt"])
    Example.str Example.set_order 7 false [] =
  (inr (dict [("success", JBool true);
              ("document_id", JInt 7);
              ("document_title", JStr "Invoice from Acme Corp");
              ("suggested_tags", JList [JStr "invoice"; JStr "acme"]);
              ("suggested_tag_ids", JList [JInt 1; JInt 2]);
              ("tags_updated", JBool false);
              ("message", JStr "Document analyzed successfully")]),
   [GET (Document 7) ∅; GET Tags ∅]).
Proof. vm_compute. reflexivity. Qed.

(** C1. Two tags whose names differ in case only, "Invoice" (1) and
    "invoice" (2), both occur, lowered, in the lowered title "invoice
    2024"; the tool suggests the second and not the first. *)
Theorem analyze_case_variants_collide :
  let tags := [Example.tag 1 "Invoice"; Example.tag 2 "invoice"] in
  Forall (fun tag => keyword_in "Invoice 2024" "" (lower_name_of tag) = true) tags
  /\ tool_analyze_document
       (Example.paperless [Example.document 7 "Invoice 2024" "" [] 3 2] tags)
       Example.str Example.set_order 7 false [] =
     (inr (dict [("success", JBool true);
                 ("document_id", JInt 7);
                 ("document_title", JStr "Invoice 2024");
                 ("suggested_tags", JList [JStr "invoice"]);
                 ("suggested_tag_ids", JList [JInt 2]);
                 ("tags_updated", JBool false);
                 ("message", JStr "Document analyzed successfully")]),
      [GET (Document 7) ∅; GET Tags ∅]).
Proof.
  split.
  - repeat constructor.
  - vm_compute. reflexivity.
Qed.

(** ** What the analysis tool writes *)

Section AnalyzeUnion.

Variable upstream : list Request -> Request -> Outcome.
Variable str : Exception -> string.
Variable set_order : list Json -> list Json.

(** A set enumerates the elements it was given. *)
Hypothesis set_order_Permutation : forall l, set_order l ≡ₚ l.

Lemma union_tags_list (document : gmap string Json) (current_tags ids : list Json) :
  default (JList []) (document !! "tags") = JList current_tags ->
  forallb Py.hashable (current_tags ++ ids) = true ->
  union_tags set_order (JObj document) ids =
  inr (set_order (Py.dedup (current_tags ++ ids))).
Proof.
  intros Htags Hhash. unfold union_tags. simpl. rewrite Htags. simpl.
  unfold list_set. by rewrite Hhash.
Qed.

Lemma list_in_union (x : Json) (current_tags ids : list Json) :
  Py.list_in x (set_order (Py.dedup (current_tags ++ ids))) =
  Py.list_in x current_tags || Py.list_in x ids.
Proof.
  rewrite (list_in_Permutation _ _ _ (set_order_Permutation _)).
  by rewrite list_in_dedup, list_in_app.
Qed.

Lemma union_once (x : Json) (l : list Json) :
  Py.list_in x (set_order (Py.dedup l)) = true ->
  length (List.filter (Py.eq x) (set_order (Py.dedup l))) = 1%nat.
Proof.
  rewrite (list_in_Permutation _ _ _ (set_order_Permutation _)), list_in_dedup.
  intros Hin.
  rewrite (filter_length_Permutation _ _ _ (set_order_Permutation _)).
  by apply dedup_once.
Qed.

(** C7, amended. Invoked with [update_automatically] set, the tool sends
    no write unless the analysis has suggested at least one tag.  When at
    least one tag is suggested, the fetched tags are a list, they and the
    suggested identifiers are hashable and the update's fetch is answered
    with a document, the tool writes that document with its [tags]
    replaced by a list that holds exactly the fetched tags and the
    suggested identifiers, each value once; the other fields are those of
    the document the update fetched. *)
Theorem analyze_writes_union (document_id : Z) (log : list Request) :
  let fetch := GET (Document document_id) ∅ in
  let listing := GET Tags ∅ in
  let run := tool_analyze_document upstream str set_order document_id true log in
  (exists issued,
      run.2 = log ++ issued
      /\ (existsb is_write issued = true ->
          exists document data all_tags ids,
            upstream log fetch = Body document
            /\ upstream (log ++ [fetch]) listing = Body data
            /\ Py.get data "results" (JList []) = inr all_tags
            /\ suggested_tag_ids_of document all_tags = inr ids
            /\ ids <> []))
  /\ (forall (document current_doc : gmap string Json) (data all_tags : Json)
             (current_tags ids : list Json),
        upstream log fetch = Body (JObj document) ->
        upstream (log ++ [fetch]) listing = Body data ->
        Py.get data "results" (JList []) = inr all_tags ->
        suggested_tag_ids_of (JObj document) all_tags = inr ids ->
        (ids = [] -> run.2 = log ++ [fetch; listing])
        /\ (ids <> [] ->
            default (JList []) (document !! "tags") = JList current_tags ->
            forallb Py.hashable (current_tags ++ ids) = true ->
            upstream (log ++ [fetch; listing]) fetch = Body (JObj current_doc) ->
            exists (new_tags : list Json) (written : gmap string Json),
              run.2 =
                log ++ [fetch; listing; fetch;
                        PUT (Document document_id) (JObj written)]
              /\ written !! "tags" = Some (JList new_tags)
              /\ (forall k, k <> "tags" -> written !! k = current_doc !! k)
              /\ (forall x, Py.list_in x new_tags =
                            Py.list_in x current_tags || Py.list_in x ids)
              /\ (forall x, Py.list_in x new_tags = true ->
                            length (List.filter (Py.eq x) new_tags) = 1%nat))).
Proof.
  intros fetch listing run. split.
  - destruct (tool_analyze_document_write_inv upstream str set_order
                document_id true log) as (issued & Hlog & Hwrite).
    exists issued. split; [exact Hlog|]. intros Hw. by apply Hwrite.
  - intros document current_doc data all_tags current_tags ids
      Hfetch Hlist Hres Hids.
    destruct (tool_analyze_document_analysed upstream str set_order
                document_id true (JObj document) data all_tags ids log
                Hfetch Hlist Hres Hids)
      as (title & tags & Ht & Hiter & Htags & Hrun).
    fold fetch listing run in Hrun.
    destruct (analysis_tail_issued upstream str set_order document_id true
                (JObj document) title tags ids (log ++ [fetch; listing]) Htags)
      as (issued & Hlog & _ & Hnone & Hwrite).
    rewrite <- Hrun in Hlog. split.
    + intros Hempty. destruct (Hnone (or_intror Hempty)) as [-> _].
      by rewrite Hlog, app_nil_r.
    + intros Hsome Hcurrent Hhash Hagain.
      set (new_tags := set_order (Py.dedup (current_tags ++ ids))).
      exists new_tags, ({["tags" := JList new_tags]} ∪ current_doc).
      split; [|split; [|split; [|split]]].
      * rewrite Hlog, <- app_assoc. f_equal. simpl. do 2 f_equal.
        apply Hwrite; try done.
        by apply union_tags_list.
      * apply lookup_union_Some_l, lookup_singleton_eq.
      * intros k Hk. apply lookup_union_r. by apply lookup_singleton_ne.
      * intros x. by apply list_in_union.
      * intros x. by apply union_once.
Qed.

End AnalyzeUnion.

(** ** Upstream failures at the clients *)

Section ClientFailures.

Variable upstream : list Request -> Request -> Outcome.
Variable str : Exception -> string.

(** C5, amended. When the request of a client call fails, with or without
    a status, the client raises at once an [HTTPException] whose status
    code is 500 and whose detail is the client's own prefix followed by
    the text of the upstream error; it has sent that one request and sends
    no other.  The update client does the same for its fetch (with the
    fetch client's text) and for its write. *)
Theorem client_failure_surfaces (log : list Request) (s : option Z) (m : string) :
  (forall c,
      upstream log (request_of c) = Failed s m ->
      call upstream str c log =
      (inl (HTTPException 500 (error_prefix c +:+ str (RequestException s m))),
       log ++ [request_of c]))
  /\ (forall document_id update_data,
        let fetch := GET (Document document_id) ∅ in
        upstream log fetch = Failed s m ->
        update_paperless_document upstream str document_id update_data log =
        (inl (HTTPException 500
                ("Error fetching document: " +:+ str (RequestException s m))),
         log ++ [fetch]))
  /\ (forall document_id update_data current_doc,
        let fetch := GET (Document document_id) ∅ in
        let write := PUT (Document document_id) (JObj (update_data ∪ current_doc)) in
        upstream log fetch = Body (JObj current_doc) ->
        upstream (log ++ [fetch]) write = Failed s m ->
        update_paperless_document upstream str document_id update_data log =
        (inl (HTTPException 500
                ("Error updating document: " +:+ str (RequestException s m))),
         log ++ [fetch; write])).
Proof.
  split; [|split].
  - intros c Hfail. by rewrite call_run, Hfail.
  - intros document_id update_data fetch Hfail.
    rewrite update_paperless_document_run. fold fetch. by rewrite Hfail.
  - intros document_id update_data current_doc fetch write Hfetch Hfail.
    rewrite update_paperless_document_run. fold fetch. rewrite Hfetch.
    cbv zeta. fold write. rewrite Hfail. by rewrite <- app_assoc.
Qed.

End ClientFailures.

(** ** The theorems at concrete inputs *)

(** The update example of the specification: title and correspondent are
    kept, the tags are replaced. *)
Example update_titled_A :
  (update_paperless_document (Example.holding 1 Example.titled_A) Example.str
     1 Example.three_tags []).2 =
  [GET (Document 1) ∅;
   PUT (Document 1)
     (dict [("title", JStr "A");
            ("tags", JList [JInt 1; JInt 2; JInt 3]);
            ("correspondent", JInt 5)])].
Proof. vm_compute. reflexivity. Qed.

Lemma update_is_shallow_merge_witness :
  exists written : gmap string Json,
    (update_paperless_document (Example.holding 1 Example.titled_A) Example.str
       1 Example.three_tags []).2 =
      [] ++ [GET (Document 1) ∅; PUT (Document 1) (JObj written)]
    /\ (forall k v, Example.three_tags !! k = Some v -> written !! k = Some v)
    /\ (forall k, Example.three_tags !! k = None ->
                  written !! k = Example.titled_A !! k).
Proof.
  apply (update_is_shallow_merge (Example.holding 1 Example.titled_A) Example.str
           1 Example.three_tags Example.titled_A []).
  vm_compute. reflexivity.
Defined.

Lemma update_tags_fetch_before_write_witness :
  tool_update_document_tags Example.unreachable Example.str 7 (Some [3]) None [] =
  (inr (dict [("success", JBool false);
              ("error", JStr "Error fetching document: Connection refused");
              ("document_id", JInt 7)]),
   [GET (Document 7) ∅]).
Proof.
  apply (proj1 (update_tags_fetch_before_write Example.unreachable Example.str
                  7 (Some [3]) None []) None "Connection refused").
  vm_compute. reflexivity.
Defined.

(** Tags 1 and 2, add 3 and 4, remove 2 and 4: the written tags are 1
    and 3. *)
Example update_tags_add_and_remove :
  (tool_update_document_tags
     (Example.paperless [Example.document 7 "A" "" [1; 2] 3 2] [])
     Example.str 7 (Some [3; 4]) (Some [2; 4]) []).2 =
  [GET (Document 7) ∅; GET (Document 7) ∅;
   PUT (Document 7) (Example.document 7 "A" "" [1; 3] 3 2)].
Proof. vm_compute. reflexivity. Qed.

Lemma update_tags_removal_wins_witness :
  let upstream := Example.paperless [Example.document 7 "A" "" [1; 2] 3 2] [] in
  let fetch := GET (Document 7) ∅ in
  exists (new_tags : list Json) (written : gmap string Json),
    (tool_update_document_tags upstream Example.str 7
       (Some [3; 4]) (Some [2; 4]) []).2 =
      [] ++ [fetch; fetch; PUT (Document 7) (JObj written)]
    /\ written !! "tags" = Some (JList new_tags)
    /\ new_tags =
       List.filter
         (fun tag_id => negb (Py.list_in tag_id (map JInt [2; 4])))
         (added_tags [3; 4] [JInt 1; JInt 2])
    /\ (forall t, t ∈ [3; 4] -> t ∈ [2; 4] -> Py.list_in (JInt t) new_tags = false)
    /\ (forall t, t ∉ [3; 4] -> t ∉ [2; 4] ->
          Py.list_in (JInt t) new_tags = Py.list_in (JInt t) [JInt 1; JInt 2]).
Proof.
  intros upstream fetch.
  apply (update_tags_removal_wins upstream Example.str 7 (Some [3; 4]) (Some [2; 4])
           (Example.document 7 "A" "" [1; 2] 3 2) [JInt 1; JInt 2]
           (Example.document_fields 7 "A" "" [1; 2] 3 2) []).
  - vm_compute. reflexivity.
  - vm_compute. reflexivity.
  - vm_compute. reflexivity.
Defined.

(** The similarity example of the specification: the listing returns
    documents 7, 8 and 9 for reference 7; the result is 8 and 9, or 8 alone
    when one result is asked for. *)
Example similar_to_7 :
  let docs := [Example.document 7 "A" "" [] 3 2;
               Example.document 8 "B" "" [] 3 2;
               Example.document 9 "C" "" [] 3 2] in
  let found similar :=
    dict [("success", JBool true);
          ("reference_document_id", JInt 7);
          ("similar_documents", JList similar);
          ("similarity_criteria",
            dict [("correspondent_id", JInt 3);
                  ("document_type", JInt 2);
                  ("tags", JList [])])] in
  (tool_search_similar_documents (Example.paperless docs []) Example.str 7 5 []).1
  = inr (found [Example.document 8 "B" "" [] 3 2; Example.document 9 "C" "" [] 3 2])
  /\ (tool_search_similar_documents (Example.paperless docs []) Example.str 7 1 []).1
     = inr (found [Example.document 8 "B" "" [] 3 2]).
Proof. split; vm_compute; reflexivity. Qed.

Lemma similar_documents_shape_witness :
  let docs := [Example.document 7 "A" "" [] 3 2;
               Example.document 8 "B" "" [] 3 2;
               Example.document 9 "C" "" [] 3 2] in
  let upstream := Example.paperless docs [] in
  let fetch := GET (Document 7) ∅ in
  let listing :=
    GET Documents
      (documents_params JNull JNull (JInt 3) (JInt 2) JNull JNull (1 + 1)) in
  exists similar : list Json,
    tool_search_similar_documents upstream Example.str 7 1 [] =
      (inr (dict [("success", JBool true);
                  ("reference_document_id", JInt 7);
                  ("similar_documents", JList similar);
                  ("similarity_criteria",
                    dict [("correspondent_id", JInt 3);
                          ("document_type", JInt 2);
                          ("tags", JList [])])]),
       [] ++ [fetch; listing])
    /\ Forall (fun doc => has_id 7 doc = false) similar
    /\ similar `sublist_of` docs
    /\ (0 <= 1 ->
        similar =
          take (Z.to_nat 1) (List.filter (fun doc => negb (has_id 7 doc)) docs)
        /\ (length similar <= Z.to_nat 1)%nat)
    /\ (1 < 0 ->
        let remainder := List.filter (fun doc => negb (has_id 7 doc)) docs in
        similar = take (length remainder - Z.to_nat (- 1)) remainder).
Proof.
  intros docs upstream fetch listing.
  apply (similar_documents_shape upstream Example.str 7 1
           (Example.document_fields 7 "A" "" [] 3 2)
           (dict [("results", JList docs)]) docs []).
  - vm_compute. reflexivity.
  - vm_compute. reflexivity.
  - vm_compute. reflexivity.
  - repeat constructor; eexists; vm_compute; reflexivity.
Defined.

(** C4 as stated fails: asked for at most -1 documents, with documents 7
    to 10 listed for reference 7, the tool returns documents 8 and 9. *)
Lemma similar_negative_max_results_counterexample :
  let docs := [Example.document 7 "A" "" [] 3 2;
               Example.document 8 "B" "" [] 3 2;
               Example.document 9 "C" "" [] 3 2;
               Example.document 10 "D" "" [] 3 2] in
  let similar := [Example.document 8 "B" "" [] 3 2;
                  Example.document 9 "C" "" [] 3 2] in
  (tool_search_similar_documents (Example.paperless docs []) Example.str
     7 (-1) []).1 =
    inr (dict [("success", JBool true);
               ("reference_document_id", JInt 7);
               ("similar_documents", JList similar);
               ("similarity_criteria",
                 dict [("correspondent_id", JInt 3);
                       ("document_type", JInt 2);
                       ("tags", JList [])])])
  /\ ~ (Z.of_nat (length similar) <= -1).
Proof. split; [vm_compute; reflexivity|simpl; lia]. Qed.

Lemma analyze_writes_iff_asked_and_suggested_witness :
  let tags := [Example.tag 1 "invoice"; Example.tag 2 "acme"; Example.tag 3 "receipt"] in
  let document := Example.document 7 "Invoice from Acme Corp" "" [5; 1] 3 2 in
  let current_doc :=
    Example.document_fields 7 "Invoice from Acme Corp" "" [5; 1] 3 2 in
  let upstream := Example.paperless [document] tags in
  let fetch := GET (Document 7) ∅ in
  let listing := GET Tags ∅ in
  exists issued,
    (tool_analyze_document upstream Example.str Example.set_order 7 true []).2 =
      [] ++ [fetch; listing] ++ issued
    /\ issued =
       [fetch;
        PUT (Document 7)
          (JObj ({["tags" := JList [JInt 5; JInt 1; JInt 2]]} ∪ current_doc))]
    /\ existsb is_write issued = true.
Proof.
  intros tags document current_doc upstream fetch listing.
  destruct (proj2 (analyze_writes_iff_asked_and_suggested upstream Example.str
                     Example.set_order 7 true [])
              document (dict [("results", JList tags)]) (JList tags)
              [JInt 1; JInt 2] eq_refl eq_refl eq_refl eq_refl)
    as (issued & Hlog & Hiff & _ & Hwrite).
  exists issued. split; [exact Hlog|]. split.
  - apply Hwrite; [reflexivity|discriminate|reflexivity|reflexivity].
  - apply Hiff. split; [reflexivity|]. split; [discriminate|].
    exists [JInt 5; JInt 1; JInt 2], current_doc. split; reflexivity.
Defined.

(** C10 as stated fails: [update_automatically] is set and two tags are
    suggested, the update's own fetch of the document fails, and the tool
    sends no write. *)
Lemma analyze_update_fetch_fails_counterexample :
  let tags := [Example.tag 1 "invoice"; Example.tag 2 "acme"; Example.tag 3 "receipt"] in
  let document := Example.document 7 "Invoice from Acme Corp" "" [5; 1] 3 2 in
  let upstream : list Request -> Request -> Outcome :=
    fun log r =>
      match r, log with
      | GET (Document _) _, _ :: _ =>
          Failed (Some 503) "503 Server Error: Service Unavailable"
      | _, _ => Example.paperless [document] tags log r
      end in
  let run := tool_analyze_document upstream Example.str Example.set_order 7 true [] in
  suggested_tag_ids_of document (JList tags) = inr [JInt 1; JInt 2]
  /\ run =
     (inr (dict [("success", JBool false);
                 ("error",
                   JStr "Error fetching document: 503 Server Error: Service Unavailable");
                 ("document_id", JInt 7)]),
      [GET (Document 7) ∅; GET Tags ∅; GET (Document 7) ∅])
  /\ existsb is_write run.2 = false.
Proof. repeat split; vm_compute; reflexivity. Qed.

(** Tags 5 and 1 on the document, 1 and 2 suggested: 5, 1 and 2 are
    written. *)
Example analyze_and_update_invoice :
  let tags := [Example.tag 1 "invoice"; Example.tag 2 "acme"; Example.tag 3 "receipt"] in
  let upstream :=
    Example.paperless [Example.document 7 "Invoice from Acme Corp" "" [5; 1] 3 2] tags in
  (tool_analyze_document upstream Example.str Example.set_order 7 true []).2 =
  [GET (Document 7) ∅; GET Tags ∅; GET (Document 7) ∅;
   PUT (Document 7) (Example.document 7 "Invoice from Acme Corp" "" [5; 1; 2] 3 2)].
Proof. vm_compute. reflexivity. Qed.

Lemma analyze_writes_union_witness :
  let tags := [Example.tag 1 "invoice"; Example.tag 2 "acme"; Example.tag 3 "receipt"] in
  let upstream :=
    Example.paperless [Example.document 7 "Invoice from Acme Corp" "" [5; 1] 3 2] tags in
  let fetch := GET (Document 7) ∅ in
  let listing := GET Tags ∅ in
  let current_doc := Example.document_fields 7 "Invoice from Acme Corp" "" [5; 1] 3 2 in
  exists (new_tags : list Json) (written : gmap string Json),
    (tool_analyze_document upstream Example.str Example.set_order 7 true []).2 =
      [] ++ [fetch; listing; fetch; PUT (Document 7) (JObj written)]
    /\ written !! "tags" = Some (JList new_tags)
    /\ (forall k, k <> "tags" -> written !! k = current_doc !! k)
    /\ (forall x, Py.list_in x new_tags =
                  Py.list_in x [JInt 5; JInt 1] || Py.list_in x [JInt 1; JInt 2])
    /\ (forall x, Py.list_in x new_tags = true ->
                  length (List.filter (Py.eq x) new_tags) = 1%nat).
Proof.
  intros tags upstream fetch listing current_doc.
  refine (proj2 (proj2 (analyze_writes_union upstream Example.str
                          Example.set_order (fun l => reflexivity l) 7 [])
                   current_doc current_doc (dict [("results", JList tags)])
                   (JList tags) [JInt 5; JInt 1] [JInt 1; JInt 2] _ _ _ _)
            _ _ _ _).
  - vm_compute. reflexivity.
  - vm_compute. reflexivity.
  - vm_compute. reflexivity.
  - vm_compute. reflexivity.
  - discriminate.
  - vm_compute. reflexivity.
  - vm_compute. reflexivity.
  - vm_compute. reflexivity.
Defined.

(** C7 as stated fails: [update_automatically] is set, no tag of the
    listing occurs in the document, and the tool sends the two fetches and
    no write, while it reports [tags_updated: True]. *)
Lemma analyze_without_suggestion_counterexample :
  let upstream :=
    Example.paperless [Example.document 7 "Holiday photos" "" [5] 3 2]
      [Example.tag 1 "invoice"] in
  let run := tool_analyze_document upstream Example.str Example.set_order 7 true [] in
  run =
    (inr (dict [("success", JBool true);
                ("document_id", JInt 7);
                ("document_title", JStr "Holiday photos");
                ("suggested_tags", JList []);
                ("suggested_tag_ids", JList []);
                ("tags_updated", JBool true);
                ("message", JStr "Document analyzed successfully")]),
     [GET (Document 7) ∅; GET Tags ∅])
  /\ existsb is_write run.2 = false.
Proof. split; vm_compute; reflexivity. Qed.

Lemma client_failure_surfaces_witness :
  call (Example.paperless [] []) Example.str (FetchDocument 7) [] =
  (inl (HTTPException 500 "Error fetching document: 404 Client Error: Not Found"),
   [GET (Document 7) ∅]).
Proof.
  apply (proj1 (client_failure_surfaces (Example.paperless [] []) Example.str
                  [] (Some 404) "404 Client Error: Not Found")
           (FetchDocument 7)).
  vm_compute. reflexivity.
Defined.

(** C5 as stated fails: the upstream answers 404, and the exception that
    the client raises carries the status code 500. *)
Lemma client_error_status_counterexample :
  Example.paperless [] [] [] (GET (Document 7) ∅) =
    Failed (Some 404) "404 Client Error: Not Found"
  /\ (fetch_paperless_document (Example.paperless [] []) Example.str 7 []).1 =
     inl (HTTPException 500 "Error fetching document: 404 Client Error: Not Found")
  /\ forall detail,
      (fetch_paperless_document (Example.paperless [] []) Example.str 7 []).1 <>
      inl (HTTPException 404 detail).
Proof.
  split; [reflexivity|]. split; [reflexivity|].
  intros detail. vm_compute. discriminate.
Qed.

Lemma invocation_is_structured_witness :
  exists result log',
    get_tags Example.unreachable Example.str [] = (inr (JObj result), log')
    /\ result !! "error" = Some (JStr "Error fetching tags: Connection refused")
    /\ result !! "tags" = Some (JList [])
    /\ log' = [] ++ [GET Tags ∅].
Proof.
  destruct (invocation_is_structured Example.unreachable Example.str
              Example.set_order Example.now GetTags [])
    as (result & log' & Hrun & _ & Hfail).
  exists result, log'. split; [exact Hrun|].
  apply (Hfail FetchTags None "Connection refused"); reflexivity.
Defined.

(** * Further properties of the handlers *)

(** ** The query of the document listing *)

Lemma lookup_optional_filter (b : bool) (k : string) (v : Json)
    (m : gmap string Json) (key : string) :
  (if b then <[k := v]> m else m) !! key =
  if b && bool_decide (k = key) then Some v else m !! key.
Proof.
  destruct b; simpl; [|done]. case_bool_decide as Hk.
  - subst. apply lookup_insert_eq.
  - by apply lookup_insert_ne.
Qed.

Lemma documents_params_lookup
    (q t c d a b : Json) (limit : Z) (key : string) :
  documents_params q t c d a b limit !! key =
  if Py.truthy b && bool_decide ("created__lte" = key) then Some b
  else if Py.truthy a && bool_decide ("created__gte" = key) then Some a
  else if Py.truthy d && bool_decide ("document_type__id" = key) then Some d
  else if Py.truthy c && bool_decide ("correspondent__id" = key) then Some c
  else if Py.truthy t && bool_decide ("tags__id" = key) then Some t
  else if Py.truthy q && bool_decide ("query" = key) then Some q
  else if bool_decide ("page_size" = key) then Some (JInt limit)
  else None.
Proof.
  unfold documents_params. rewrite !lookup_optional_filter.
  repeat (destruct (_ && _); [done|]).
  case_bool_decide as Hk.
  - subst. apply lookup_singleton_eq.
  - by apply lookup_singleton_ne.
Qed.

Section ListingQuery.

Variable upstream : list Request -> Request -> Outcome.
Variable str : Exception -> string.

(** X1. The request of [fetch_paperless_documents] always carries
    [page_size] with the limit; it carries a filter under its upstream key
    exactly when the argument is truthy (so an identifier 0, an empty
    string and [None] are all left out), with the argument as value; and it
    carries nothing else. *)
Theorem documents_request_filters
    (query tag_id correspondent_id document_type_id created_after
     created_before : Json) (limit : Z) (log : list Request) :
  exists params : gmap string Json,
    (fetch_paperless_documents upstream str query tag_id correspondent_id
       document_type_id created_after created_before limit log).2 =
      log ++ [GET Documents params]
    /\ params !! "page_size" = Some (JInt limit)
    /\ (forall key value,
          (key, value) ∈ documents_filters query tag_id correspondent_id
                           document_type_id created_after created_before ->
          params !! key = if Py.truthy value then Some value else None)
    /\ (forall key,
          is_Some (params !! key) ->
          key = "page_size"
          \/ key ∈ (documents_filters query tag_id correspondent_id
                      document_type_id created_after created_before).*1).
Proof.
  exists (documents_params query tag_id correspondent_id document_type_id
            created_after created_before limit).
  split; [by rewrite fetch_paperless_documents_run|].
  split; [|split].
  - rewrite documents_params_lookup. simpl. by rewrite !andb_false_r.
  - intros key value Hin. unfold documents_filters in Hin.
    repeat (apply elem_of_cons in Hin as [[= -> ->]|Hin];
            [unfold documents_params;
             repeat match goal with
                    | |- context [Py.truthy ?x] => destruct (Py.truthy x)
                    end; reflexivity|]).
    by apply elem_of_nil in Hin.
  - intros key Hsome. rewrite documents_params_lookup in Hsome.
    unfold documents_filters. cbn [fmap list_fmap fst].
    repeat match type of Hsome with
           | context [bool_decide (?k = key)] =>
               destruct (decide (k = key)) as [<-|?];
               [rewrite !elem_of_cons; tauto
               |rewrite (bool_decide_eq_false_2 (k = key)) in Hsome by done;
                rewrite ?andb_false_r in Hsome]
           end.
    by destruct Hsome.
Qed.

End ListingQuery.

(** ** What a listing makes of the body *)

Section ListingBodies.

Variable upstream : list Request -> Request -> Outcome.
Variable str : Exception -> string.
Variable set_order : list Json -> list Json.
Variable now : string.

Lemma listing_run (i : Invocation) (c : Client) (log : list Request) :
  listing_of i = Some c ->
  invoke upstream str set_order now i log =
  (match surfaced str c (upstream log (request_of c)) with
   | inl e => inr (dict [("error", JStr (str e)); (data_field i, JList [])])
   | inr data => inr (dict [(data_field i, data)])
   end, log ++ [request_of c]).
Proof.
  intros Hlisting.
  assert (Hrun : forall field,
             except_Exception
               (bind (call upstream str c) (fun data => ret (dict [(field, data)])))
               (fun e => ret (dict [("error", JStr (str e)); (field, JList [])]))
               log =
             (match surfaced str c (upstream log (request_of c)) with
              | inl e => inr (dict [("error", JStr (str e)); (field, JList [])])
              | inr data => inr (dict [(field, data)])
              end, log ++ [request_of c])).
  { intros field. unfold except_Exception, bind. rewrite call_run.
    by destruct (surfaced str c _). }
  destruct i; simplify_eq/=; apply Hrun.
Qed.

(** X2. A listing client that is answered with an object returns what the
    object holds under [results], whatever it is, and the empty list when
    the object has no [results]; the resource serves that value under its
    collection field, with no error marker. *)
Theorem listing_serves_results_unchecked
    (i : Invocation) (c : Client) (body : gmap string Json) (log : list Request) :
  listing_of i = Some c ->
  extracts_results c = true ->
  upstream log (request_of c) = Body (JObj body) ->
  call upstream str c log =
    (inr (default (JList []) (body !! "results")), log ++ [request_of c])
  /\ invoke upstream str set_order now i log =
     (inr (dict [(data_field i, default (JList []) (body !! "results"))]),
      log ++ [request_of c]).
Proof.
  intros Hlisting Hextracts Hbody.
  rewrite (listing_run i c log Hlisting), call_run, Hbody.
  by destruct c.
Qed.

(** X3. A listing client that is answered with a body that is not an
    object raises [AttributeError], not an [HTTPException]: the failure of
    [data.get] is outside what the client catches.  The resource reports it
    under [error] with the empty collection. *)
Theorem listing_body_not_an_object
    (i : Invocation) (c : Client) (body : Json) (log : list Request) :
  listing_of i = Some c ->
  extracts_results c = true ->
  upstream log (request_of c) = Body body ->
  is_object body = false ->
  call upstream str c log = (inl AttributeError, log ++ [request_of c])
  /\ invoke upstream str set_order now i log =
     (inr (dict [("error", JStr (str AttributeError)); (data_field i, JList [])]),
      log ++ [request_of c]).
Proof.
  intros Hlisting Hextracts Hbody Hobject.
  rewrite (listing_run i c log Hlisting), call_run, Hbody.
  by destruct c, body.
Qed.

End ListingBodies.

(** ** Running the workflow trigger and the similarity search *)

Section MoreRuns.

Variable upstream : list Request -> Request -> Outcome.
Variable str : Exception -> string.
Variable now : string.

Lemma trigger_n8n_workflow_run
    (workflow_id : string) (data : Json) (log : list Request) :
  trigger_n8n_workflow upstream str workflow_id data log =
  (surfaced str (TriggerWorkflow workflow_id data)
     (upstream log (POST (WorkflowTrigger workflow_id) data)),
   log ++ [POST (WorkflowTrigger workflow_id) data]).
Proof. apply (call_run upstream str (TriggerWorkflow workflow_id data)). Qed.

Lemma tool_trigger_workflow_run
    (workflow_id : string) (document_id : Z) (additional_data : Json)
    (log : list Request) :
  let fetch := GET (Document document_id) ∅ in
  tool_trigger_workflow upstream str now workflow_id document_id
    additional_data log =
  match upstream log fetch with
  | Failed s m =>
      (inr (trigger_failure str workflow_id document_id
              (HTTPException 500
                 ("Error fetching document: " +:+ str (RequestException s m)))),
       log ++ [fetch])
  | Body document =>
      let post :=
        POST (WorkflowTrigger workflow_id)
          (JObj (trigger_payload now document additional_data)) in
      (match upstream (log ++ [fetch]) post with
       | Failed s m =>
           inr (trigger_failure str workflow_id document_id
                  (HTTPException 500
                     ("Error triggering workflow: "
                      +:+ str (RequestException s m))))
       | Body result => inr (trigger_success workflow_id document_id result)
       end, log ++ [fetch; post])
  end.
Proof.
  intros fetch. unfold tool_trigger_workflow, except_Exception, bind.
  rewrite fetch_paperless_document_run. fold fetch.
  destruct (upstream log fetch) as [s m|document]; simpl; [done|].
  fold (trigger_payload now document additional_data).
  rewrite trigger_n8n_workflow_run. simpl. rewrite <- app_assoc. simpl.
  by destruct (upstream _ _).
Qed.

Lemma tool_search_similar_documents_run
    (document_id max_results : Z) (log : list Request) :
  let fetch := GET (Document document_id) ∅ in
  tool_search_similar_documents upstream str document_id max_results log =
  match upstream log fetch with
  | Failed s m =>
      (inr (similar_failure str document_id
              (HTTPException 500
                 ("Error fetching document: " +:+ str (RequestException s m)))),
       log ++ [fetch])
  | Body (JObj reference_doc) =>
      let correspondent_id := default JNull (reference_doc !! "correspondent") in
      let document_type := default JNull (reference_doc !! "document_type") in
      let tags := default (JList []) (reference_doc !! "tags") in
      let c := FetchDocuments JNull JNull correspondent_id document_type
                 JNull JNull (max_results + 1) in
      (match (similar_docs <-? surfaced str c
                                 (upstream (log ++ [fetch]) (request_of c)) ;;
              without_reference document_id max_results similar_docs)%result with
       | inl e => inr (similar_failure str document_id e)
       | inr similar_docs =>
           inr (similar_success document_id similar_docs correspondent_id
                  document_type tags)
       end, log ++ [fetch; request_of c])
  | Body _ => (inr (similar_failure str document_id AttributeError), log ++ [fetch])
  end.
Proof.
  intros fetch. unfold tool_search_similar_documents, except_Exception, bind.
  rewrite fetch_paperless_document_run. fold fetch.
  destruct (upstream log fetch) as [s m|reference]; simpl; [done|].
  destruct reference as [| | | | |reference_doc]; simpl; try done.
  rewrite fetch_paperless_documents_run. cbv zeta.
  rewrite <- app_assoc. simpl.
  destruct (surfaced str _ _) as [e|similar_docs]; simpl; [done|].
  by destruct (without_reference document_id max_results similar_docs).
Qed.

End MoreRuns.

(** ** The requests of an invocation *)

Section RequestSequences.

Variable upstream : list Request -> Request -> Outcome.
Variable str : Exception -> string.
Variable set_order : list Json -> list Json.
Variable now : string.

Lemma update_paperless_document_issued
    (document_id : Z) (update_data : gmap string Json) (log : list Request) :
  let fetch := GET (Document document_id) ∅ in
  exists issued,
    (update_paperless_document upstream str document_id update_data log).2 =
      log ++ issued
    /\ (issued = [fetch]
        \/ exists current_doc,
            issued = [fetch; PUT (Document document_id)
                               (JObj (update_data ∪ current_doc))]).
Proof.
  intros fetch. rewrite update_paperless_document_run. fold fetch. cbv zeta.
  destruct (upstream log fetch) as [s m|[| | | | |current_doc]]; simpl;
    try (exists [fetch]; split; [done|by left]).
  eexists. split; [by rewrite <- app_assoc|]. right. by exists current_doc.
Qed.

(** Whatever the upstream answers, an invocation sends one of the request
    sequences listed for it. *)
Lemma invocation_issued (i : Invocation) (log : list Request) :
  exists issued,
    (invoke upstream str set_order now i log).2 = log ++ issued
    /\ request_sequence i issued.
Proof.
  destruct i as [q t c d a b limit|document_id| | | | |workflow_id document_id
                 additional_data|document_id add_tags remove_tags|document_id
                 update_automatically|document_id max_results].
  - eexists. split; [|reflexivity].
    by rewrite (listing_run upstream str set_order now
                  (GetDocuments q t c d a b limit)
                  (FetchDocuments q t c d a b limit) log eq_refl).
  - exists [GET (Document document_id) ∅]. split; [|done].
    cbn [invoke]. unfold get_document, except_Exception, bind.
    rewrite fetch_paperless_document_run. by destruct (surfaced _ _ _).
  - eexists. split; [|reflexivity].
    by rewrite (listing_run upstream str set_order now GetTags FetchTags
                  log eq_refl).
  - eexists. split; [|reflexivity].
    by rewrite (listing_run upstream str set_order now GetCorrespondents
                  FetchCorrespondents log eq_refl).
  - eexists. split; [|reflexivity].
    by rewrite (listing_run upstream str set_order now GetDocumentTypes
                  FetchDocumentTypes log eq_refl).
  - eexists. split; [|reflexivity].
    by rewrite (listing_run upstream str set_order now GetWorkflows
                  FetchWorkflows log eq_refl).
  - cbn [invoke request_sequence]. rewrite tool_trigger_workflow_run.
    destruct (upstream log _) as [s m|document]; cbv zeta.
    + eexists. split; [done|by left].
    + eexists. split; [done|]. right. by eexists.
  - cbn [invoke request_sequence]. rewrite tool_update_document_tags_run.
    destruct (upstream log _) as [s m|document].
    { eexists. split; [done|by left]. }
    destruct (_ <-? _ ;; _)%result as [e|new_tags].
    { eexists. split; [done|by left]. }
    destruct (update_paperless_document_issued document_id
                {["tags" := new_tags]} (log ++ [GET (Document document_id) ∅]))
      as (issued & Hlog & Hissued).
    exists ([GET (Document document_id) ∅] ++ issued). split.
    { destruct (update_paperless_document _ _ _ _ _) as [[e|updated] log'];
        simpl in *; [|destruct (Py.get updated "tags" (JList []))]; simpl;
        by rewrite Hlog, <- app_assoc. }
    destruct Hissued as [->|[current_doc ->]]; [by right; left|].
    right; right. exists ({["tags" := new_tags]} ∪ current_doc), new_tags.
    split; [|done]. apply lookup_union_Some_l, lookup_singleton_eq.
  - cbn [invoke request_sequence]. rewrite tool_analyze_document_run.
    destruct (upstream log _) as [s m|document].
    { eexists. split; [done|by left]. }
    destruct (_ <-? _ ;; _)%result as [e|[title content]].
    { eexists. split; [done|by left]. }
    cbv zeta.
    destruct (_ <-? _ ;; _)%result as [e|[tags ids]].
    { eexists. split; [by rewrite <- app_assoc|by right; left]. }
    unfold analysis_tail.
    destruct update_automatically; simpl.
    2:{ eexists. split; [|by right; left].
        destruct (suggested_names tags ids); simpl; by rewrite <- app_assoc. }
    destruct (negb (bool_decide (ids = []))).
    2:{ eexists. split; [|by right; left].
        destruct (suggested_names tags ids); simpl; by rewrite <- app_assoc. }
    destruct (union_tags set_order document ids) as [e|new_tags].
    { eexists. split; [by rewrite <- app_assoc|by right; left]. }
    destruct (update_paperless_document_issued document_id
                {["tags" := JList new_tags]}
                ((log ++ [GET (Document document_id) ∅]) ++ [GET Tags ∅]))
      as (issued & Hlog & Hissued).
    exists ([GET (Document document_id) ∅; GET Tags ∅] ++ issued). split.
    { destruct (update_paperless_document _ _ _ _ _) as [[e|updated] log'];
        simpl in *; [|destruct (suggested_names tags ids)]; simpl;
        by rewrite Hlog, <- !app_assoc. }
    right; right. split; [done|].
    destruct Hissued as [->|[current_doc ->]]; [by left|].
    right. exists ({["tags" := JList new_tags]} ∪ current_doc), (JList new_tags).
    split; [|done]. apply lookup_union_Some_l, lookup_singleton_eq.
  - cbn [invoke request_sequence]. rewrite tool_search_similar_documents_run.
    destruct (upstream log _) as [s m|[| | | | |reference_doc]]; cbv zeta;
      try (eexists; split; [done|by left]).
    eexists. split; [done|]. right. by eexists.
Qed.

(** X4. Every invocation sends at least one request and at most a fixed
    number: one for a resource, two for the workflow trigger, the
    similarity search and the analysis without update, three for the tag
    update, four for the analysis with update. *)
Theorem invocation_requests_bounded (i : Invocation) (log : list Request) :
  exists issued,
    (invoke upstream str set_order now i log).2 = log ++ issued
    /\ (1 <= length issued <= max_requests i)%nat.
Proof.
  destruct (invocation_issued i log) as (issued & Hlog & Hseq).
  exists issued. split; [exact Hlog|].
  destruct i; simpl in Hseq;
    repeat match goal with
           | H : _ \/ _ |- _ => destruct H
           | H : _ /\ _ |- _ => destruct H
           | H : exists _, _ |- _ => destruct H
           end; subst; simpl; try case_match; lia.
Qed.

(** X5. The only [PUT] that an invocation ever sends is one to the
    document it was invoked for, as its last request, with a body that has
    a [tags] field; and only [tool_update_document_tags] and
    [tool_analyze_document] with [update_automatically] send it.  The
    resources, the workflow trigger and the similarity search send no
    [PUT]. *)
Theorem invocation_writes (i : Invocation) (log : list Request) :
  exists issued,
    (invoke upstream str set_order now i log).2 = log ++ issued
    /\ forall k w,
        issued !! k = Some w -> is_write w = true ->
        may_write i = true
        /\ S k = length issued
        /\ exists document_id body tags,
            document_of i = Some document_id
            /\ w = PUT (Document document_id) (JObj body)
            /\ body !! "tags" = Some tags.
Proof.
  destruct (invocation_issued i log) as (issued & Hlog & Hseq).
  exists issued. split; [exact Hlog|].
  intros k w Hk Hw.
  destruct i; simpl in Hseq;
    repeat match goal with
           | H : _ \/ _ |- _ => destruct H
           | H : _ /\ _ |- _ => destruct H
           | H : exists _, _ |- _ => destruct H
           end; subst;
    repeat (destruct k as [|k]; simplify_eq/=);
    eauto 10.
Qed.

End RequestSequences.

(** ** The workflow trigger *)

Section Trigger.

Variable upstream : list Request -> Request -> Outcome.
Variable str : Exception -> string.
Variable now : string.

(** X6. When the document fetch of [tool_trigger_workflow] fails, the
    workflow is not triggered: the fetch is the only request sent, and the
    result is the failure result with the error text, the workflow id and
    the document id. *)
Theorem trigger_needs_document
    (workflow_id : string) (document_id : Z) (additional_data : Json)
    (log : list Request) (s : option Z) (m : string) :
  upstream log (GET (Document document_id) ∅) = Failed s m ->
  tool_trigger_workflow upstream str now workflow_id document_id
    additional_data log =
  (inr (dict [("success", JBool false);
              ("error",
                JStr (str (HTTPException 500
                             ("Error fetching document: "
                              +:+ str (RequestException s m)))));
              ("workflow_id", JStr workflow_id);
              ("document_id", JInt document_id)]),
   log ++ [GET (Document document_id) ∅]).
Proof. intros Hfail. by rewrite tool_trigger_workflow_run, Hfail. Qed.

(** X7. With the document fetched, [tool_trigger_workflow] posts to the
    trigger of the workflow a payload that holds the body of the fetch,
    whatever it is, under [document], the time under [timestamp], the
    additional data under [additional_data] exactly when they are truthy
    (an empty dict is left out like [None]), and nothing else.  The answer
    of the workflow service is returned under [result]; its failure gives
    the failure result. *)
Theorem trigger_posts_document
    (workflow_id : string) (document_id : Z) (document additional_data : Json)
    (log : list Request) :
  let fetch := GET (Document document_id) ∅ in
  let run := tool_trigger_workflow upstream str now workflow_id document_id
               additional_data log in
  upstream log fetch = Body document ->
  exists payload : gmap string Json,
    let post := POST (WorkflowTrigger workflow_id) (JObj payload) in
    run.2 = log ++ [fetch; post]
    /\ payload !! "document" = Some document
    /\ payload !! "timestamp" = Some (JStr now)
    /\ payload !! "additional_data" =
       (if Py.truthy additional_data then Some additional_data else None)
    /\ (forall key, is_Some (payload !! key) ->
                    key ∈ ["document"; "timestamp"; "additional_data"])
    /\ (forall result,
          upstream (log ++ [fetch]) post = Body result ->
          run.1 = inr (dict [("success", JBool true);
                             ("workflow_id", JStr workflow_id);
                             ("document_id", JInt document_id);
                             ("result", result)]))
    /\ (forall s m,
          upstream (log ++ [fetch]) post = Failed s m ->
          run.1 = inr (dict [("success", JBool false);
                             ("error",
                               JStr (str (HTTPException 500
                                            ("Error triggering workflow: "
                                             +:+ str (RequestException s m)))));
                             ("workflow_id", JStr workflow_id);
                             ("document_id", JInt document_id)])).
Proof.
  intros fetch run Hfetch. subst run.
  exists (trigger_payload now document additional_data). cbv zeta.
  rewrite tool_trigger_workflow_run. fold fetch. rewrite Hfetch. cbv zeta.
  split; [done|].
  assert (Hlookup : forall key,
             trigger_payload now document additional_data !! key =
             if Py.truthy additional_data && bool_decide ("additional_data" = key)
             then Some additional_data
             else if bool_decide ("timestamp" = key) then Some (JStr now)
             else if bool_decide ("document" = key) then Some document
             else None).
  { intros key. unfold trigger_payload. cbv zeta.
    rewrite lookup_optional_filter. destruct (_ && _); [done|].
    rewrite lookup_insert. case_decide as Hk.
    - by rewrite bool_decide_eq_true_2.
    - rewrite bool_decide_eq_false_2 by done.
      case_bool_decide; subst; [apply lookup_singleton_eq|].
      by apply lookup_singleton_ne. }
  split; [by rewrite Hlookup, andb_false_r|].
  split; [by rewrite Hlookup, andb_false_r|].
  split; [rewrite Hlookup; by destruct (Py.truthy additional_data)|].
  split.
  { intros key. rewrite Hlookup. intros Hsome.
    repeat match type of Hsome with
           | context [bool_decide (?k = key)] =>
               destruct (decide (k = key)) as [<-|?];
               [rewrite !elem_of_cons; tauto
               |rewrite (bool_decide_eq_false_2 (k = key)) in Hsome by done;
                rewrite ?andb_false_r in Hsome]
           end.
    by destruct Hsome. }
  split.
  - intros result ->. done.
  - intros s m ->. done.
Qed.

End Trigger.

(** ** More on the tag update *)

Lemma added_tags_cons (t : Z) (rest : list Z) (current_tags : list Json) :
  added_tags (t :: rest) current_tags =
  added_tags rest (if Py.list_in (JInt t) current_tags then current_tags
                   else current_tags ++ [JInt t]).
Proof. reflexivity. Qed.

Lemma added_tags_app (add_tags : list Z) (current_tags : list Json) :
  exists extra,
    added_tags add_tags current_tags = current_tags ++ extra
    /\ extra `sublist_of` map JInt add_tags
    /\ Forall (fun x => Py.list_in x current_tags = false) extra.
Proof.
  revert current_tags. induction add_tags as [|t rest IH]; intros cur.
  - exists []. by rewrite app_nil_r.
  - rewrite added_tags_cons. cbn [map].
    destruct (Py.list_in (JInt t) cur) eqn:Hin.
    + destruct (IH cur) as (extra & -> & Hsub & Hnew).
      exists extra. split; [done|]. split; [by constructor|done].
    + destruct (IH (cur ++ [JInt t])) as (extra & -> & Hsub & Hnew).
      exists (JInt t :: extra). split; [by rewrite <- app_assoc|].
      split; [by constructor|]. constructor; [done|].
      eapply Forall_impl; [exact Hnew|]. intros x Hx. simpl in Hx.
      rewrite list_in_app in Hx. by apply orb_false_iff in Hx as [? _].
Qed.

Lemma occurrences_app (x : Json) (l1 l2 : list Json) :
  occurrences x (l1 ++ l2) = (occurrences x l1 + occurrences x l2)%nat.
Proof. unfold occurrences. by rewrite List.filter_app, length_app. Qed.

Lemma occurrences_absent (x : Json) (l : list Json) :
  Py.list_in x l = false -> occurrences x l = 0%nat.
Proof.
  unfold occurrences, Py.list_in. induction l as [|y l IH]; [done|].
  simpl. intros [Hy Hl]%orb_false_iff. rewrite Hy. by apply IH.
Qed.

Lemma occurrences_filter (x : Json) (f : Json -> bool) (l : list Json) :
  (occurrences x (List.filter f l) <= occurrences x l)%nat.
Proof.
  unfold occurrences. induction l as [|y l IH]; [done|].
  simpl. destruct (f y), (Py.eq x y) eqn:Hxy; simpl; rewrite ?Hxy; simpl; lia.
Qed.

Lemma added_tags_occurrences (x : Json) (add_tags : list Z) (current_tags : list Json) :
  (occurrences x (added_tags add_tags current_tags)
   <= max (occurrences x current_tags) 1)%nat.
Proof.
  revert current_tags. induction add_tags as [|t rest IH]; intros cur.
  - simpl. lia.
  - rewrite added_tags_cons.
    destruct (Py.list_in (JInt t) cur) eqn:Hin; [apply IH|].
    etrans; [apply IH|]. rewrite occurrences_app.
    unfold occurrences at 2. simpl.
    destruct (Py.eq x (JInt t)) eqn:Hxt; simpl; [|lia].
    rewrite (occurrences_absent x cur); [lia|].
    by rewrite (list_in_eq _ _ _ Hxt).
Qed.

Lemma filter_none_on {A} (f : A -> bool) (l : list A) :
  (forall x, x ∈ l -> f x = false) -> List.filter f l = [].
Proof.
  induction l as [|x l IH]; intros Hf; [done|]. simpl.
  rewrite (Hf x) by by left. apply IH. intros y Hy. apply Hf. by right.
Qed.

Lemma filter_idempotent {A} (f : A -> bool) (l : list A) :
  List.filter f (List.filter f l) = List.filter f l.
Proof.
  induction l as [|x l IH]; [done|]. simpl.
  destruct (f x) eqn:Hx; simpl; rewrite ?Hx; by rewrite IH.
Qed.

(** X11. The tag computation is idempotent: computed again from the list it
    has produced, with the same [add_tags] and [remove_tags], it produces
    that list again. *)
Theorem updated_tag_list_idempotent
    (add_tags remove_tags : option (list Z)) (current_tags new_tags : list Json) :
  updated_tag_list add_tags remove_tags (JList current_tags) = inr (JList new_tags) ->
  updated_tag_list add_tags remove_tags (JList new_tags) = inr (JList new_tags).
Proof.
  rewrite !updated_tag_list_list. intros [= <-]. do 2 f_equal.
  unfold new_tag_list at 1.
  set (keep := fun tag_id : Json =>
                 negb (Py.list_in tag_id (map JInt (default [] remove_tags)))).
  set (l1 := new_tag_list add_tags remove_tags current_tags).
  destruct (added_tags_app (default [] add_tags) l1) as (extra & -> & Hsub & Hnew).
  rewrite List.filter_app.
  assert (List.filter keep l1 = l1) as ->.
  { subst l1. unfold new_tag_list. fold keep. apply filter_idempotent. }
  assert (List.filter keep extra = []) as ->; [|by rewrite app_nil_r].
  apply filter_none_on. intros x Hx.
  apply not_true_is_false. intros Hkeep.
  assert (Hl1 : Py.list_in x l1 = false).
  { by apply (proj1 (Forall_forall _ _) Hnew). }
  assert (Py.list_in x l1 = true); [|congruence].
  subst l1. unfold new_tag_list. fold keep. apply list_in_filter.
  assert (Hadded : Py.list_in x (added_tags (default [] add_tags) current_tags)
                   = true).
  { rewrite list_in_added. apply orb_true_iff. right.
    apply list_in_true. exists x. split; [|apply eq_refl_true].
    by apply (sublist_subseteq _ _ Hsub). }
  apply list_in_true in Hadded as (y & Hy & Hxy).
  exists y. split; [done|]. split; [|done].
  unfold keep in *. by rewrite <- (list_in_eq _ _ _ Hxy).
Qed.

Section UpdateTagsMore.

Variable upstream : list Request -> Request -> Outcome.
Variable str : Exception -> string.

(** The tag update once both fetches are answered and the tag list is
    computed. *)
Lemma tool_update_document_tags_written
    (document_id : Z) (add_tags remove_tags : option (list Z))
    (document current_tags new_tags : Json) (current_doc : gmap string Json)
    (log : list Request) :
  let fetch := GET (Document document_id) ∅ in
  let write :=
    PUT (Document document_id) (JObj ({["tags" := new_tags]} ∪ current_doc)) in
  upstream log fetch = Body document ->
  Py.get document "tags" (JList []) = inr current_tags ->
  updated_tag_list add_tags remove_tags current_tags = inr new_tags ->
  upstream (log ++ [fetch]) fetch = Body (JObj current_doc) ->
  tool_update_document_tags upstream str document_id add_tags remove_tags log =
  (match upstream (log ++ [fetch; fetch]) write with
   | Failed s m =>
       inr (update_tags_failure str document_id
              (HTTPException 500
                 ("Error updating document: " +:+ str (RequestException s m))))
   | Body updated =>
       match Py.get updated "tags" (JList []) with
       | inl e => inr (update_tags_failure str document_id e)
       | inr updated_tags => inr (update_tags_success document_id updated_tags)
       end
   end, log ++ [fetch; fetch; write]).
Proof.
  intros fetch write Hfetch Htags Hnew Hagain.
  rewrite tool_update_document_tags_run. fold fetch.
  rewrite Hfetch, Htags. simpl. rewrite Hnew.
  rewrite update_paperless_document_run. fold fetch. rewrite Hagain.
  cbv zeta. fold write. rewrite <- !app_assoc. simpl.
  destruct (upstream _ write) as [s m|updated]; [done|].
  by destruct (Py.get updated "tags" (JList [])).
Qed.

(** X8. Invoked with nothing to add and nothing to remove (each list absent
    or empty), [tool_update_document_tags] still rewrites the document: it
    writes the document of its second fetch with [tags] set to what the
    first fetch held under [tags], whatever that is, and to the empty list
    if it held nothing. *)
Theorem update_tags_without_lists_rewrites
    (document_id : Z) (add_tags remove_tags : option (list Z))
    (document current_doc : gmap string Json) (log : list Request) :
  let fetch := GET (Document document_id) ∅ in
  given add_tags = false ->
  given remove_tags = false ->
  upstream log fetch = Body (JObj document) ->
  upstream (log ++ [fetch]) fetch = Body (JObj current_doc) ->
  (tool_update_document_tags upstream str document_id add_tags remove_tags log).2 =
  log ++ [fetch; fetch;
          PUT (Document document_id)
            (JObj (<["tags" := default (JList []) (document !! "tags")]>
                     current_doc))].
Proof.
  intros fetch Hadd Hremove Hfetch Hagain.
  rewrite (tool_update_document_tags_written document_id add_tags remove_tags
             (JObj document) (default (JList []) (document !! "tags"))
             (default (JList []) (document !! "tags")) current_doc log
             Hfetch eq_refl).
  - by rewrite insert_union_singleton_l.
  - unfold updated_tag_list. by rewrite Hadd, Hremove.
  - exact Hagain.
Qed.

(** X9. The tag update adds no duplicate: a value occurs in the written
    list at most as often as in the fetched list, or once if it was not
    there; so a fetched list without duplicates gives a written list
    without duplicates, whatever [add_tags] repeats. *)
Theorem update_tags_adds_no_duplicate
    (document_id : Z) (add_tags remove_tags : option (list Z))
    (document : Json) (current_tags : list Json)
    (current_doc : gmap string Json) (log : list Request) :
  let fetch := GET (Document document_id) ∅ in
  upstream log fetch = Body document ->
  Py.get document "tags" (JList []) = inr (JList current_tags) ->
  upstream (log ++ [fetch]) fetch = Body (JObj current_doc) ->
  exists (new_tags : list Json) (written : gmap string Json),
    (tool_update_document_tags upstream str document_id
       add_tags remove_tags log).2 =
      log ++ [fetch; fetch; PUT (Document document_id) (JObj written)]
    /\ written !! "tags" = Some (JList new_tags)
    /\ (forall x, (occurrences x new_tags
                   <= max (occurrences x current_tags) 1)%nat)
    /\ ((forall x, (occurrences x current_tags <= 1)%nat) ->
        forall x, (occurrences x new_tags <= 1)%nat).
Proof.
  intros fetch Hfetch Htags Hagain.
  exists (new_tag_list add_tags remove_tags current_tags),
    ({["tags" := JList (new_tag_list add_tags remove_tags current_tags)]}
       ∪ current_doc).
  split.
  { by rewrite (tool_update_document_tags_written document_id add_tags
                  remove_tags document (JList current_tags) _ current_doc log
                  Hfetch Htags (updated_tag_list_list _ _ _) Hagain). }
  split; [apply lookup_union_Some_l, lookup_singleton_eq|].
  assert (Hocc : forall x,
             (occurrences x (new_tag_list add_tags remove_tags current_tags)
              <= max (occurrences x current_tags) 1)%nat).
  { intros x. unfold new_tag_list.
    etrans; [apply occurrences_filter|apply added_tags_occurrences]. }
  split; [exact Hocc|].
  intros Hdistinct x. specialize (Hocc x). specialize (Hdistinct x). lia.
Qed.

(** X10. The written tags keep the order of the document: the fetched tags
    that stay come first, in their order, and the added ones follow in the
    order of [add_tags]. *)
Theorem update_tags_keeps_order
    (document_id : Z) (add_tags remove_tags : option (list Z))
    (document : Json) (current_tags : list Json)
    (current_doc : gmap string Json) (log : list Request) :
  let fetch := GET (Document document_id) ∅ in
  let keep tag_id := negb (Py.list_in tag_id (map JInt (default [] remove_tags))) in
  upstream log fetch = Body document ->
  Py.get document "tags" (JList []) = inr (JList current_tags) ->
  upstream (log ++ [fetch]) fetch = Body (JObj current_doc) ->
  exists (added : list Json) (written : gmap string Json),
    (tool_update_document_tags upstream str document_id
       add_tags remove_tags log).2 =
      log ++ [fetch; fetch; PUT (Document document_id) (JObj written)]
    /\ written !! "tags" = Some (JList (List.filter keep current_tags ++ added))
    /\ added `sublist_of` map JInt (default [] add_tags)
    /\ Forall (fun x => Py.list_in x current_tags = false) added.
Proof.
  intros fetch keep Hfetch Htags Hagain.
  destruct (added_tags_app (default [] add_tags) current_tags)
    as (extra & Hextra & Hsub & Hnew).
  exists (List.filter keep extra),
    ({["tags" := JList (new_tag_list add_tags remove_tags current_tags)]}
       ∪ current_doc).
  split.
  { by rewrite (tool_update_document_tags_written document_id add_tags
                  remove_tags document (JList current_tags) _ current_doc log
                  Hfetch Htags (updated_tag_list_list _ _ _) Hagain). }
  split.
  { rewrite (lookup_union_Some_l _ _ _ _ (lookup_singleton_eq _ _)).
    unfold new_tag_list. fold keep. by rewrite Hextra, List.filter_app. }
  split.
  - etrans; [apply filter_sublist|exact Hsub].
  - apply Forall_forall. intros x Hx.
    apply (sublist_subseteq _ _ (filter_sublist keep extra)) in Hx.
    by apply (proj1 (Forall_forall _ _) Hnew).
Qed.

(** X12. When the fetched document holds under [tags] a value that cannot
    be iterated ([None], a number, a boolean) and there is something to add
    or to remove, the tool fails with [TypeError] after its fetch and sends
    no other request. *)
Theorem update_tags_on_uniterable_tags
    (document_id : Z) (add_tags remove_tags : option (list Z))
    (document current_tags : Json) (log : list Request) :
  let fetch := GET (Document document_id) ∅ in
  upstream log fetch = Body document ->
  Py.get document "tags" (JList []) = inr current_tags ->
  Py.iter current_tags = inl TypeError ->
  given add_tags || given remove_tags = true ->
  tool_update_document_tags upstream str document_id add_tags remove_tags log =
  (inr (dict [("success", JBool false);
              ("error", JStr (str TypeError));
              ("document_id", JInt document_id)]),
   log ++ [fetch]).
Proof.
  intros fetch Hfetch Htags Hiter Hgiven.
  rewrite tool_update_document_tags_run. fold fetch. rewrite Hfetch, Htags.
  simpl.
  assert (updated_tag_list add_tags remove_tags current_tags = inl TypeError)
    as ->; [|done].
  unfold updated_tag_list.
  destruct current_tags; try discriminate;
    destruct add_tags as [[|t rest]|], remove_tags as [[|r rest']|];
    try discriminate; reflexivity.
Qed.

(** X13. After its write, the tool reports what the answer to the write
    holds under [tags], not the list it has sent: the empty list when the
    answer has no [tags]; and a failure, although the write was sent, when
    the write is answered with an error or with a body that is not an
    object. *)
Theorem update_tags_reports_the_answer
    (document_id : Z) (add_tags remove_tags : option (list Z))
    (document : Json) (current_tags : list Json)
    (current_doc : gmap string Json) (log : list Request) :
  let fetch := GET (Document document_id) ∅ in
  let run := tool_update_document_tags upstream str document_id
               add_tags remove_tags log in
  upstream log fetch = Body document ->
  Py.get document "tags" (JList []) = inr (JList current_tags) ->
  upstream (log ++ [fetch]) fetch = Body (JObj current_doc) ->
  exists write,
    is_write write = true
    /\ run.2 = log ++ [fetch; fetch; write]
    /\ (forall answer,
          upstream (log ++ [fetch; fetch]) write = Body (JObj answer) ->
          run.1 = inr (dict [("success", JBool true);
                             ("document_id", JInt document_id);
                             ("updated_tags",
                               default (JList []) (answer !! "tags"));
                             ("message", JStr "Tags updated successfully")]))
    /\ (forall answer,
          upstream (log ++ [fetch; fetch]) write = Body answer ->
          is_object answer = false ->
          run.1 = inr (dict [("success", JBool false);
                             ("error", JStr (str AttributeError));
                             ("document_id", JInt document_id)]))
    /\ (forall s m,
          upstream (log ++ [fetch; fetch]) write = Failed s m ->
          run.1 = inr (dict [("success", JBool false);
                             ("error",
                               JStr (str (HTTPException 500
                                            ("Error updating document: "
                                             +:+ str (RequestException s m)))));
                             ("document_id", JInt document_id)])).
Proof.
  intros fetch run Hfetch Htags Hagain. subst run.
  exists (PUT (Document document_id)
            (JObj ({["tags" := JList (new_tag_list add_tags remove_tags
                                        current_tags)]} ∪ current_doc))).
  rewrite (tool_update_document_tags_written document_id add_tags
             remove_tags document (JList current_tags) _ current_doc log
             Hfetch Htags (updated_tag_list_list _ _ _) Hagain).
  fold fetch. split; [done|]. split; [done|]. split; [|split].
  - intros answer ->. done.
  - intros answer -> Hobject. by destruct answer.
  - intros s m ->. done.
Qed.

End UpdateTagsMore.

(** ** More on the analysis *)

Lemma odict_set_keys (k : string) (v : Json) (d : list (string * Json)) :
  (odict_set k v d).*1 = if bool_decide (k ∈ d.*1) then d.*1 else d.*1 ++ [k].
Proof.
  induction d as [|[k' v'] d IH]; [done|]. cbn [odict_set].
  destruct (decide (k = k')) as [->|Hne]; rewrite !fmap_cons; cbn [fst].
  - rewrite bool_decide_eq_true_2 by by left. done.
  - rewrite IH. destruct (decide (k ∈ d.*1)) as [Hin|Hnin].
    + rewrite !bool_decide_eq_true_2; [done|by right|done].
    + rewrite !bool_decide_eq_false_2; [done| |done].
      rewrite elem_of_cons. tauto.
Qed.

Lemma odict_set_NoDup (k : string) (v : Json) (d : list (string * Json)) :
  NoDup d.*1 -> NoDup (odict_set k v d).*1.
Proof.
  intros Hnd. rewrite odict_set_keys. case_bool_decide as Hk; [done|].
  apply NoDup_app. split; [done|]. split; [|apply NoDup_singleton].
  intros x Hx [= ->]%list_elem_of_singleton. done.
Qed.

Lemma elem_of_odict_set (k k' : string) (v v' : Json) (d : list (string * Json)) :
  NoDup d.*1 ->
  (k', v') ∈ odict_set k v d <->
  k' = k /\ v' = v \/ k' <> k /\ (k', v') ∈ d.
Proof.
  induction d as [|[k0 v0] d IH]; intros Hnd.
  - simpl. rewrite list_elem_of_singleton, elem_of_nil.
    split; [intros [= -> ->]; by left|]. intros [[-> ->]|[_ []]]. done.
  - simpl in *. apply NoDup_cons in Hnd as [Hk0 Hnd].
    destruct (decide (k = k0)) as [->|Hne].
    + rewrite !elem_of_cons. split.
      * intros [[= -> ->]|Hin]; [by left|]. right. split; [|by right].
        intros ->. apply Hk0. apply list_elem_of_fmap. by exists (k0, v').
      * intros [[-> ->]|[Hk [[= -> ->]|Hin]]]; [by left|done|by right].
    + rewrite !elem_of_cons, (IH Hnd). split.
      * intros [[= -> ->]|[[-> ->]|[Hk Hin]]].
        -- right. split; [done|by left].
        -- by left.
        -- right. split; [done|by right].
      * intros [[-> ->]|[Hk [[= -> ->]|Hin]]].
        -- right. by left.
        -- by left.
        -- right. right. done.
Qed.

(** The mapping that the tags are entered into holds one entry for each
    lowered name, with the identifier of the last tag of that name. *)
Lemma tag_mapping_last (tags : list Json) :
  let mapping :=
    fold_left (fun acc tag => odict_set (lower_name_of tag) (id_of tag) acc)
      tags [] in
  NoDup mapping.*1
  /\ forall name tag_id,
      (name, tag_id) ∈ mapping <->
      exists pre tag post,
        tags = pre ++ tag :: post
        /\ lower_name_of tag = name
        /\ id_of tag = tag_id
        /\ Forall (fun later => lower_name_of later <> name) post.
Proof.
  induction tags as [|tag tags [IHnd IH]] using rev_ind.
  - split; [constructor|]. intros name tag_id. simpl. split.
    + by intros ?%elem_of_nil.
    + intros (pre & t & post & Heq & _). by destruct pre.
  - cbv zeta in *. rewrite fold_left_app. cbn [fold_left].
    split; [by apply odict_set_NoDup|].
    intros name tag_id. rewrite (elem_of_odict_set _ _ _ _ _ IHnd), IH.
    split.
    + intros [[-> ->]|[Hne (pre & t & post & -> & Hn & Hi & Hpost)]].
      * exists tags, tag, []. by rewrite Forall_nil.
      * exists pre, t, (post ++ [tag]). split; [by rewrite <- app_assoc|].
        split; [done|]. split; [done|].
        apply Forall_app. split; [done|]. by apply Forall_singleton.
    + intros (pre & t & post & Heq & Hn & Hi & Hpost).
      destruct post as [|p post _] using rev_ind.
      * apply app_inj_tail in Heq as [-> ->]. by left.
      * rewrite app_comm_cons, app_assoc in Heq.
        apply app_inj_tail in Heq as [-> ->].
        apply Forall_app in Hpost as [Hpost Htag].
        rewrite Forall_singleton in Htag.
        right. split; [congruence|]. by exists pre, t, post.
Qed.

Lemma elem_of_filter_map_snd
    (p : string -> bool) (items : list (string * Json)) (v : Json) :
  v ∈ map snd (List.filter (fun kv => p kv.1) items) <->
  exists k, (k, v) ∈ items /\ p k = true.
Proof.
  rewrite list_elem_of_In, in_map_iff. split.
  - intros ([k v'] & <- & [Hin Hp]%filter_In). exists k.
    by rewrite list_elem_of_In.
  - intros (k & Hin & Hp). exists (k, v). split; [done|].
    apply filter_In. by rewrite <- list_elem_of_In.
Qed.

(** X14. For a document with a string title and a string content and a
    listing of well-formed tags, an identifier is suggested exactly when it
    is the identifier of a tag whose lowered name occurs in the lowered
    title or content and which no later tag of the listing shares its
    lowered name with: of the tags that agree up to case, only the last
    one counts. *)
Theorem suggested_ids_of_last_tags
    (document : gmap string Json) (title content : string) (tags : list Json) :
  default (JStr "") (document !! "title") = JStr title ->
  default (JStr "") (document !! "content") = JStr content ->
  Forall is_tag tags ->
  exists ids,
    suggested_tag_ids_of (JObj document) (JList tags) = inr ids
    /\ forall tag_id,
        tag_id ∈ ids <->
        exists pre tag post,
          tags = pre ++ tag :: post
          /\ id_of tag = tag_id
          /\ keyword_in title content (lower_name_of tag) = true
          /\ Forall (fun later => lower_name_of later <> lower_name_of tag) post.
Proof.
  intros Htitle Hcontent Htags. eexists. split.
  - unfold suggested_tag_ids_of. simpl. rewrite Htitle, Hcontent.
    rewrite (tag_mapping_from_fold tags [] Htags). simpl.
    rewrite suggest_tags_filter. reflexivity.
  - intros tag_id. simpl.
    rewrite (elem_of_filter_map_snd (keyword_in title content)).
    destruct (tag_mapping_last tags) as [_ Hlast]. cbv zeta in Hlast.
    split.
    + intros (name & (pre & tag & post & -> & <- & <- & Hpost)%Hlast & Hmatch).
      by exists pre, tag, post.
    + intros (pre & tag & post & -> & <- & Hmatch & Hpost).
      exists (lower_name_of tag). split; [|done].
      apply Hlast. by exists pre, tag, post.
Qed.

Lemma tag_mapping_case_insensitive (tags1 tags2 : list Json) (acc : list (string * Json)) :
  Forall2 (fun a b => lower_name_of a = lower_name_of b /\ id_of a = id_of b)
    tags1 tags2 ->
  fold_left (fun acc tag => odict_set (lower_name_of tag) (id_of tag) acc) tags1 acc =
  fold_left (fun acc tag => odict_set (lower_name_of tag) (id_of tag) acc) tags2 acc.
Proof.
  intros H. revert acc. induction H as [|a b l1 l2 [Hn Hi] _ IH]; intros acc.
  - done.
  - simpl. rewrite Hn, Hi. apply IH.
Qed.

(** X15. The analysis is blind to case on both sides: two documents whose
    titles and whose contents agree once lowered get the same suggestion
    from any listing, and a document gets the same suggestion from two
    listings of well-formed tags that agree, tag by tag, on the identifier
    and on the lowered name. *)
Theorem suggestion_ignores_case
    (document1 document2 : gmap string Json)
    (title1 content1 title2 content2 : string) :
  default (JStr "") (document1 !! "title") = JStr title1 ->
  default (JStr "") (document1 !! "content") = JStr content1 ->
  default (JStr "") (document2 !! "title") = JStr title2 ->
  default (JStr "") (document2 !! "content") = JStr content2 ->
  Py.lower_string title1 = Py.lower_string title2 ->
  Py.lower_string content1 = Py.lower_string content2 ->
  (forall all_tags,
      suggested_tag_ids_of (JObj document1) all_tags =
      suggested_tag_ids_of (JObj document2) all_tags)
  /\ (forall tags1 tags2,
        Forall is_tag tags1 -> Forall is_tag tags2 ->
        Forall2 (fun a b => lower_name_of a = lower_name_of b
                            /\ id_of a = id_of b) tags1 tags2 ->
        suggested_tag_ids_of (JObj document1) (JList tags1) =
        suggested_tag_ids_of (JObj document1) (JList tags2)).
Proof.
  intros Ht1 Hc1 Ht2 Hc2 Ht Hc. split.
  - intros all_tags. unfold suggested_tag_ids_of. simpl.
    rewrite Ht1, Hc1, Ht2, Hc2. simpl.
    destruct (Py.iter all_tags) as [e|tags]; [done|]. simpl.
    destruct (tag_mapping_from tags []) as [e|mapping]; [done|]. simpl.
    rewrite !suggest_tags_filter. do 3 f_equal.
    unfold keyword_in. by rewrite Ht, Hc.
  - intros tags1 tags2 Htags1 Htags2 Hsame. unfold suggested_tag_ids_of. simpl.
    rewrite Ht1, Hc1. simpl.
    rewrite (tag_mapping_from_fold tags1 [] Htags1),
      (tag_mapping_from_fold tags2 [] Htags2).
    by rewrite (tag_mapping_case_insensitive tags1 tags2 [] Hsame).
Qed.

Section AnalyzeMore.

Variable upstream : list Request -> Request -> Outcome.
Variable str : Exception -> string.
Variable set_order : list Json -> list Json.

(** X16. With no tag in the listing, the analysis succeeds for every
    document that is an object, whatever it holds under [title] and
    [content]: nothing is suggested, nothing is written, and
    [tags_updated] repeats the [update_automatically] argument. *)
Theorem analyze_without_tags
    (document_id : Z) (update_automatically : bool)
    (document : gmap string Json) (data all_tags : Json) (log : list Request) :
  let fetch := GET (Document document_id) ∅ in
  upstream log fetch = Body (JObj document) ->
  upstream (log ++ [fetch]) (GET Tags ∅) = Body data ->
  Py.get data "results" (JList []) = inr all_tags ->
  Py.iter all_tags = inr [] ->
  tool_analyze_document upstream str set_order document_id
    update_automatically log =
  (inr (dict [("success", JBool true);
              ("document_id", JInt document_id);
              ("document_title", default (JStr "") (document !! "title"));
              ("suggested_tags", JList []);
              ("suggested_tag_ids", JList []);
              ("tags_updated", JBool update_automatically);
              ("message", JStr "Document analyzed successfully")]),
   log ++ [fetch; GET Tags ∅]).
Proof.
  intros fetch Hfetch Hlist Hres Hiter.
  rewrite tool_analyze_document_run. fold fetch. rewrite Hfetch. simpl.
  rewrite Hlist. simpl. rewrite Hres. simpl. rewrite Hiter. simpl.
  unfold analysis_tail. simpl. rewrite andb_false_r.
  by rewrite <- app_assoc.
Qed.

(** X17. When the write-back of the analysis fails, at its fetch or at its
    write, the tool returns the failure result with the error text: the
    suggestion it has computed is not returned. *)
Theorem analyze_write_back_failure
    (document_id : Z) (document data all_tags : Json)
    (ids new_tags : list Json) (log : list Request) :
  let fetch := GET (Document document_id) ∅ in
  let listing := GET Tags ∅ in
  let run := tool_analyze_document upstream str set_order document_id true log in
  upstream log fetch = Body document ->
  upstream (log ++ [fetch]) listing = Body data ->
  Py.get data "results" (JList []) = inr all_tags ->
  suggested_tag_ids_of document all_tags = inr ids ->
  ids <> [] ->
  union_tags set_order document ids = inr new_tags ->
  (forall s m,
      upstream (log ++ [fetch; listing]) fetch = Failed s m ->
      run =
      (inr (dict [("success", JBool false);
                  ("error",
                    JStr (str (HTTPException 500
                                 ("Error fetching document: "
                                  +:+ str (RequestException s m)))));
                  ("document_id", JInt document_id)]),
       log ++ [fetch; listing; fetch]))
  /\ (forall current_doc s m,
        let write :=
          PUT (Document document_id)
            (JObj ({["tags" := JList new_tags]} ∪ current_doc)) in
        upstream (log ++ [fetch; listing]) fetch = Body (JObj current_doc) ->
        upstream (log ++ [fetch; listing; fetch]) write = Failed s m ->
        run =
        (inr (dict [("success", JBool false);
                    ("error",
                      JStr (str (HTTPException 500
                                   ("Error updating document: "
                                    +:+ str (RequestException s m)))));
                    ("document_id", JInt document_id)]),
         log ++ [fetch; listing; fetch; write])).
Proof.
  intros fetch listing run Hfetch Hlist Hres Hids Hsome Hunion. subst run.
  destruct (tool_analyze_document_analysed upstream str set_order document_id
              true document data all_tags ids log Hfetch Hlist Hres Hids)
    as (title & tags & Ht & Hiter & Htags & Hrun).
  fold fetch listing in Hrun. rewrite Hrun. unfold analysis_tail.
  rewrite bool_decide_eq_false_2 by done. simpl. rewrite Hunion.
  rewrite update_paperless_document_run. fold fetch. cbv zeta. split.
  - intros s m ->. by rewrite <- !app_assoc.
  - intros current_doc s m Hagain Hwrite. rewrite Hagain.
    rewrite <- !app_assoc in *. simpl in *. by rewrite Hwrite.
Qed.

End AnalyzeMore.

(** ** More on the similarity search *)

Lemma filter_result_fails (cond : Json -> Result bool) (f : Json -> bool)
    (pre post : list Json) (x : Json) (e : Exception) :
  Forall (fun y => cond y = inr (f y)) pre ->
  cond x = inl e ->
  filter_result cond (pre ++ x :: post) = inl e.
Proof.
  induction 1 as [|y pre Hy _ IH]; intros Hx; simpl.
  - by rewrite Hx.
  - rewrite Hy. simpl. by rewrite IH.
Qed.

Section SimilarMore.

Variable upstream : list Request -> Request -> Outcome.
Variable str : Exception -> string.

(** X18. The listing that the similarity search asks for has [page_size]
    one above [max_results], the correspondent of the reference document
    as [correspondent__id] and its document type as [document_type__id],
    each only when truthy, and no other filter: for a reference document
    without correspondent and without document type the listing is not
    filtered at all.  The tags of the reference document are not part of
    the query. *)
Theorem similar_listing_query
    (document_id max_results : Z) (reference_doc : gmap string Json)
    (log : list Request) :
  let fetch := GET (Document document_id) ∅ in
  let correspondent_id := default JNull (reference_doc !! "correspondent") in
  let document_type := default JNull (reference_doc !! "document_type") in
  upstream log fetch = Body (JObj reference_doc) ->
  exists params : gmap string Json,
    (tool_search_similar_documents upstream str document_id max_results log).2 =
      log ++ [fetch; GET Documents params]
    /\ params !! "page_size" = Some (JInt (max_results + 1))
    /\ params !! "correspondent__id" =
       (if Py.truthy correspondent_id then Some correspondent_id else None)
    /\ params !! "document_type__id" =
       (if Py.truthy document_type then Some document_type else None)
    /\ (forall key, is_Some (params !! key) ->
                    key ∈ ["page_size"; "correspondent__id"; "document_type__id"]).
Proof.
  intros fetch correspondent_id document_type Hfetch.
  exists (documents_params JNull JNull correspondent_id document_type
            JNull JNull (max_results + 1)).
  split.
  { rewrite tool_search_similar_documents_run. fold fetch. by rewrite Hfetch. }
  split; [rewrite documents_params_lookup;
          by destruct (Py.truthy document_type), (Py.truthy correspondent_id)|].
  split; [rewrite documents_params_lookup;
          by destruct (Py.truthy document_type), (Py.truthy correspondent_id)|].
  split; [rewrite documents_params_lookup;
          by destruct (Py.truthy document_type), (Py.truthy correspondent_id)|].
  intros key. rewrite documents_params_lookup. simpl. intros Hsome.
  repeat match type of Hsome with
         | context [bool_decide (?k = key)] =>
             destruct (decide (k = key)) as [<-|?];
             [rewrite !elem_of_cons; tauto
             |rewrite (bool_decide_eq_false_2 (k = key)) in Hsome by done;
              rewrite ?andb_false_r in Hsome]
         end.
  by destruct Hsome.
Qed.

(** X19. The number of documents that the similarity search returns
    follows the slice [[:max_results]]: of the [n] listed documents other
    than the reference, it returns [min max_results n] when [max_results]
    is not negative, and all but the last [- max_results] when it is
    negative. *)
Theorem similar_result_length
    (document_id max_results : Z) (reference_doc : gmap string Json)
    (data : Json) (docs : list Json) (log : list Request) :
  let fetch := GET (Document document_id) ∅ in
  let listing :=
    GET Documents
      (documents_params JNull JNull
         (default JNull (reference_doc !! "correspondent"))
         (default JNull (reference_doc !! "document_type"))
         JNull JNull (max_results + 1)) in
  let others := List.filter (fun doc => negb (has_id document_id doc)) docs in
  upstream log fetch = Body (JObj reference_doc) ->
  upstream (log ++ [fetch]) listing = Body data ->
  Py.get data "results" (JList []) = inr (JList docs) ->
  Forall (fun doc => exists doc_id, Py.getitem doc "id" = inr doc_id) docs ->
  exists (similar : list Json) (result : gmap string Json),
    (tool_search_similar_documents upstream str document_id max_results log).1 =
      inr (JObj result)
    /\ result !! "similar_documents" = Some (JList similar)
    /\ similar `prefix_of` others
    /\ Z.of_nat (length similar) =
       (if 0 <=? max_results
        then Z.min max_results (Z.of_nat (length others))
        else Z.max 0 (Z.of_nat (length others) + max_results)).
Proof.
  intros fetch listing others Hfetch Hlist Hres Hids.
  eexists (Py.slice_to max_results others), _.
  split.
  { rewrite tool_search_similar_documents_run. fold fetch. rewrite Hfetch.
    cbv zeta. simpl. fold listing. rewrite Hlist. simpl. rewrite Hres. simpl.
    rewrite without_reference_list by done. reflexivity. }
  split; [reflexivity|].
  unfold Py.slice_to. split.
  - destruct (0 <=? max_results); apply prefix_take.
  - destruct (0 <=? max_results) eqn:Hsign; rewrite length_take.
    + apply Z.leb_le in Hsign. lia.
    + apply Z.leb_gt in Hsign. lia.
Qed.

(** X20. When a listed document has no [id], the similarity search fails
    as a whole: the result is the failure result for [KeyError], after the
    two requests, and no part of the listing is returned. *)
Theorem similar_listing_without_id
    (document_id max_results : Z) (reference_doc body : gmap string Json)
    (data : Json) (pre post : list Json) (log : list Request) :
  let fetch := GET (Document document_id) ∅ in
  let listing :=
    GET Documents
      (documents_params JNull JNull
         (default JNull (reference_doc !! "correspondent"))
         (default JNull (reference_doc !! "document_type"))
         JNull JNull (max_results + 1)) in
  upstream log fetch = Body (JObj reference_doc) ->
  upstream (log ++ [fetch]) listing = Body data ->
  Py.get data "results" (JList []) = inr (JList (pre ++ JObj body :: post)) ->
  Forall (fun doc => exists doc_id, Py.getitem doc "id" = inr doc_id) pre ->
  body !! "id" = None ->
  tool_search_similar_documents upstream str document_id max_results log =
  (inr (dict [("success", JBool false);
              ("error", JStr (str (KeyError "id")));
              ("reference_document_id", JInt document_id)]),
   log ++ [fetch; listing]).
Proof.
  intros fetch listing Hfetch Hlist Hres Hpre Hid.
  rewrite tool_search_similar_documents_run. fold fetch. rewrite Hfetch.
  cbv zeta. simpl. fold listing. rewrite Hlist. simpl. rewrite Hres. simpl.
  unfold without_reference. simpl.
  rewrite (filter_result_fails _ (fun doc => negb (has_id document_id doc))
             pre post (JObj body) (KeyError "id")); [done| |].
  - eapply Forall_impl; [exact Hpre|]. intros doc [doc_id Hdoc]. simpl.
    unfold has_id. by rewrite Hdoc.
  - simpl. by rewrite Hid.
Qed.

End SimilarMore.

(** ** The URLs *)

Lemma length_app (a b : string) :
  String.length (a +:+ b) = (String.length a + String.length b)%nat.
Proof. induction a as [|c a IH]; simpl; [done|]. by rewrite IH. Qed.

Lemma app_inj_2 (a b s : string) : a +:+ s = b +:+ s -> a = b.
Proof.
  revert b. induction a as [|c a IH]; intros [|c' b] Heq.
  - done.
  - apply (f_equal String.length) in Heq.
    rewrite !length_app in Heq. simpl in Heq. lia.
  - apply (f_equal String.length) in Heq.
    rewrite !length_app in Heq. simpl in Heq. lia.
  - rewrite !append_cons in Heq. injection Heq as -> Heq.
    f_equal. by apply IH.
Qed.

Lemma format_int_inj (a b : Z) : format_int a = format_int b -> a = b.
Proof.
  assert (Hnil : forall z, Z.to_int z <> Decimal.Pos Decimal.Nil
                           /\ Z.to_int z <> Decimal.Neg Decimal.Nil).
  { intros z. split; intros Hz; pose proof (f_equal Z.of_int Hz) as Hzero;
      rewrite DecimalZ.of_to in Hzero; subst z; vm_compute in Hz;
      discriminate Hz. }
  unfold format_int. intros Heq.
  apply (f_equal DecimalString.NilZero.int_of_string) in Heq.
  rewrite !DecimalString.NilZero.isi in Heq by apply Hnil.
  injection Heq as Heq. by apply DecimalZ.to_int_inj.
Qed.

Lemma rstrip_slash_snoc (s : string) :
  rstrip_slash (s +:+ "/") = rstrip_slash s.
Proof.
  induction s as [|c s IH]; [done|].
  rewrite append_cons. simpl. by rewrite IH.
Qed.

(** X21. Within one service distinct endpoints have distinct URLs: two
    different endpoints of the document API, or two of the workflow API,
    never get the same URL; so documents with different identifiers are
    fetched and written at different URLs, and different workflow
    identifiers are triggered at different URLs. *)
Theorem url_distinct (PAPERLESS_API_URL N8N_API_URL : string)
    (e1 e2 : Endpoint) :
  of_paperless e1 = of_paperless e2 ->
  e1 <> e2 ->
  url PAPERLESS_API_URL N8N_API_URL e1 <> url PAPERLESS_API_URL N8N_API_URL e2.
Proof.
  unfold url. intros Hservice Hne. rewrite Hservice. intros Heq. apply Hne.
  apply (inj (String.app _)) in Heq.
  destruct e1 as [|a| | | | |w1], e2 as [|b| | | | |w2];
    try discriminate Hservice; try reflexivity;
    try (unfold path in Heq; rewrite ?append_cons in Heq; discriminate Heq).
  - apply (f_equal String.length) in Heq. unfold path in Heq.
    rewrite !length_app in Heq. simpl in Heq. lia.
  - apply (f_equal String.length) in Heq. unfold path in Heq.
    rewrite !length_app in Heq. simpl in Heq. lia.
  - unfold path in Heq. apply (inj (String.app _)) in Heq.
    apply app_inj_2 in Heq. by apply format_int_inj in Heq as ->.
  - unfold path in Heq. apply (inj (String.app _)) in Heq.
    by apply app_inj_2 in Heq as ->.
Qed.

(** X22. Slashes at the end of a configured base URL do not change the
    URL of any request. *)
Theorem url_trailing_slash (PAPERLESS_API_URL N8N_API_URL : string)
    (e : Endpoint) :
  url (PAPERLESS_API_URL +:+ "/") (N8N_API_URL +:+ "/") e =
  url PAPERLESS_API_URL N8N_API_URL e.
Proof.
  unfold url. by destruct (of_paperless e); rewrite rstrip_slash_snoc.
Qed.

(** ** Instances of the further properties *)

Lemma listing_serves_results_unchecked_witness :
  let upstream : list Request -> Request -> Outcome :=
    fun _ _ => Body (dict [("results", JStr "none"); ("count", JInt 0)]) in
  call upstream Example.str FetchTags [] =
    (inr (JStr "none"), [] ++ [GET Tags ∅])
  /\ invoke upstream Example.str Example.set_order Example.now GetTags [] =
     (inr (dict [("tags", JStr "none")]), [] ++ [GET Tags ∅]).
Proof.
  intros upstream.
  refine (listing_serves_results_unchecked upstream Example.str
           Example.set_order Example.now GetTags FetchTags
           (list_to_map [("results", JStr "none"); ("count", JInt 0)]) [] _ _ _).
  - reflexivity.
  - reflexivity.
  - reflexivity.
Defined.

Lemma listing_body_not_an_object_witness :
  let upstream : list Request -> Request -> Outcome :=
    fun _ _ => Body (JList []) in
  call upstream Example.str FetchCorrespondents [] =
    (inl AttributeError, [] ++ [GET Correspondents ∅])
  /\ invoke upstream Example.str Example.set_order Example.now
       GetCorrespondents [] =
     (inr (dict [("error", JStr "AttributeError"); ("correspondents", JList [])]),
      [] ++ [GET Correspondents ∅]).
Proof.
  intros upstream.
  refine (listing_body_not_an_object upstream Example.str Example.set_order
           Example.now GetCorrespondents FetchCorrespondents (JList []) [] _ _ _ _).
  - reflexivity.
  - reflexivity.
  - reflexivity.
  - reflexivity.
Defined.

Lemma trigger_needs_document_witness :
  tool_trigger_workflow Example.unreachable Example.str Example.now
    "wf1" 7 JNull [] =
  (inr (dict [("success", JBool false);
              ("error", JStr "Error fetching document: Connection refused");
              ("workflow_id", JStr "wf1");
              ("document_id", JInt 7)]),
   [] ++ [GET (Document 7) ∅]).
Proof.
  refine (trigger_needs_document Example.unreachable Example.str Example.now
           "wf1" 7 JNull [] None "Connection refused" _).
  reflexivity.
Defined.

Lemma trigger_posts_document_witness :
  let upstream := Example.holding 7 Example.titled_A in
  let fetch := GET (Document 7) ∅ in
  let run := tool_trigger_workflow upstream Example.str Example.now
               "wf1" 7 (JObj ∅) [] in
  exists payload : gmap string Json,
    let post := POST (WorkflowTrigger "wf1") (JObj payload) in
    run.2 = [] ++ [fetch; post]
    /\ payload !! "document" = Some (JObj Example.titled_A)
    /\ payload !! "timestamp" = Some (JStr Example.now)
    /\ payload !! "additional_data" = None
    /\ (forall key, is_Some (payload !! key) ->
                    key ∈ ["document"; "timestamp"; "additional_data"])
    /\ (forall result,
          upstream ([] ++ [fetch]) post = Body result ->
          run.1 = inr (dict [("success", JBool true);
                             ("workflow_id", JStr "wf1");
                             ("document_id", JInt 7);
                             ("result", result)]))
    /\ (forall s m,
          upstream ([] ++ [fetch]) post = Failed s m ->
          run.1 = inr (dict [("success", JBool false);
                             ("error",
                               JStr (Example.str
                                       (HTTPException 500
                                          ("Error triggering workflow: "
                                           +:+ Example.str (RequestException s m)))));
                             ("workflow_id", JStr "wf1");
                             ("document_id", JInt 7)])).
Proof.
  intros upstream fetch run.
  refine (trigger_posts_document upstream Example.str Example.now "wf1" 7
           (JObj Example.titled_A) (JObj ∅) [] _).
  reflexivity.
Defined.

Lemma update_tags_without_lists_rewrites_witness :
  let upstream := Example.holding 7 Example.titled_A in
  let fetch := GET (Document 7) ∅ in
  (tool_update_document_tags upstream Example.str 7 None (Some []) []).2 =
  [] ++ [fetch; fetch;
         PUT (Document 7)
           (JObj (<["tags" := JList [JInt 1; JInt 2]]> Example.titled_A))].
Proof.
  intros upstream fetch.
  refine (update_tags_without_lists_rewrites upstream Example.str 7 None (Some [])
           Example.titled_A Example.titled_A [] _ _ _ _).
  - reflexivity.
  - reflexivity.
  - reflexivity.
  - reflexivity.
Defined.

Lemma update_tags_adds_no_duplicate_witness :
  let upstream := Example.holding 7 Example.titled_A in
  let fetch := GET (Document 7) ∅ in
  let current_tags := [JInt 1; JInt 2] in
  exists (new_tags : list Json) (written : gmap string Json),
    (tool_update_document_tags upstream Example.str 7
       (Some [3; 3; 1]) None []).2 =
      [] ++ [fetch; fetch; PUT (Document 7) (JObj written)]
    /\ written !! "tags" = Some (JList new_tags)
    /\ (forall x, (occurrences x new_tags
                   <= max (occurrences x current_tags) 1)%nat)
    /\ ((forall x, (occurrences x current_tags <= 1)%nat) ->
        forall x, (occurrences x new_tags <= 1)%nat).
Proof.
  intros upstream fetch current_tags.
  refine (update_tags_adds_no_duplicate upstream Example.str 7
           (Some [3; 3; 1]) None (JObj Example.titled_A) current_tags
           Example.titled_A [] _ _ _).
  - reflexivity.
  - reflexivity.
  - reflexivity.
Defined.

Lemma update_tags_keeps_order_witness :
  let upstream := Example.holding 7 Example.titled_A in
  let fetch := GET (Document 7) ∅ in
  let current_tags := [JInt 1; JInt 2] in
  let keep tag_id := negb (Py.list_in tag_id (map JInt [1])) in
  exists (added : list Json) (written : gmap string Json),
    (tool_update_document_tags upstream Example.str 7
       (Some [9; 2; 4]) (Some [1]) []).2 =
      [] ++ [fetch; fetch; PUT (Document 7) (JObj written)]
    /\ written !! "tags" = Some (JList (List.filter keep current_tags ++ added))
    /\ added `sublist_of` map JInt [9; 2; 4]
    /\ Forall (fun x => Py.list_in x current_tags = false) added.
Proof.
  intros upstream fetch current_tags keep.
  refine (update_tags_keeps_order upstream Example.str 7
           (Some [9; 2; 4]) (Some [1]) (JObj Example.titled_A) current_tags
           Example.titled_A [] _ _ _).
  - reflexivity.
  - reflexivity.
  - reflexivity.
Defined.

Lemma updated_tag_list_idempotent_witness :
  updated_tag_list (Some [3; 1]) (Some [2]) (JList [JInt 1; JInt 3]) =
  inr (JList [JInt 1; JInt 3]).
Proof.
  refine (updated_tag_list_idempotent (Some [3; 1]) (Some [2])
           [JInt 1; JInt 2] [JInt 1; JInt 3] _).
  reflexivity.
Defined.

Lemma update_tags_on_uniterable_tags_witness :
  let upstream := Example.holding 7 {["tags" := JNull]} in
  tool_update_document_tags upstream Example.str 7 (Some [1]) None [] =
  (inr (dict [("success", JBool false);
              ("error", JStr "TypeError");
              ("document_id", JInt 7)]),
   [] ++ [GET (Document 7) ∅]).
Proof.
  intros upstream.
  refine (update_tags_on_uniterable_tags upstream Example.str 7 (Some [1]) None
           (JObj {["tags" := JNull]}) JNull [] _ _ _ _).
  - reflexivity.
  - reflexivity.
  - reflexivity.
  - reflexivity.
Defined.

Lemma update_tags_reports_the_answer_witness :
  let upstream := Example.holding 7 Example.titled_A in
  let fetch := GET (Document 7) ∅ in
  let run := tool_update_document_tags upstream Example.str 7
               (Some [3]) None [] in
  exists write,
    is_write write = true
    /\ run.2 = [] ++ [fetch; fetch; write]
    /\ (forall answer,
          upstream ([] ++ [fetch; fetch]) write = Body (JObj answer) ->
          run.1 = inr (dict [("success", JBool true);
                             ("document_id", JInt 7);
                             ("updated_tags",
                               default (JList []) (answer !! "tags"));
                             ("message", JStr "Tags updated successfully")]))
    /\ (forall answer,
          upstream ([] ++ [fetch; fetch]) write = Body answer ->
          is_object answer = false ->
          run.1 = inr (dict [("success", JBool false);
                             ("error", JStr (Example.str AttributeError));
                             ("document_id", JInt 7)]))
    /\ (forall s m,
          upstream ([] ++ [fetch; fetch]) write = Failed s m ->
          run.1 = inr (dict [("success", JBool false);
                             ("error",
                               JStr (Example.str
                                       (HTTPException 500
                                          ("Error updating document: "
                                           +:+ Example.str (RequestException s m)))));
                             ("document_id", JInt 7)])).
Proof.
  intros upstream fetch run.
  refine (update_tags_reports_the_answer upstream Example.str 7 (Some [3]) None
           (JObj Example.titled_A) [JInt 1; JInt 2] Example.titled_A [] _ _ _).
  - reflexivity.
  - reflexivity.
  - reflexivity.
Defined.

Lemma suggested_ids_of_last_tags_witness :
  let document := Example.document_fields 7 "Invoice from Acme Corp" "" [5; 1] 3 2 in
  let tags := [Example.tag 1 "Invoice"; Example.tag 2 "invoice";
               Example.tag 3 "receipt"] in
  exists ids,
    suggested_tag_ids_of (JObj document) (JList tags) = inr ids
    /\ forall tag_id,
        tag_id ∈ ids <->
        exists pre tag post,
          tags = pre ++ tag :: post
          /\ id_of tag = tag_id
          /\ keyword_in "Invoice from Acme Corp" "" (lower_name_of tag) = true
          /\ Forall (fun later => lower_name_of later <> lower_name_of tag) post.
Proof.
  intros document tags.
  refine (suggested_ids_of_last_tags document "Invoice from Acme Corp" "" tags _ _ _).
  - reflexivity.
  - reflexivity.
  - repeat constructor; by eexists _, _.
Defined.

Lemma suggestion_ignores_case_witness :
  let document1 := Example.document_fields 7 "INVOICE from Acme" "Total" [] 3 2 in
  let document2 := Example.document_fields 8 "invoice FROM acme" "TOTAL" [5] 1 1 in
  (forall all_tags,
      suggested_tag_ids_of (JObj document1) all_tags =
      suggested_tag_ids_of (JObj document2) all_tags)
  /\ (forall tags1 tags2,
        Forall is_tag tags1 -> Forall is_tag tags2 ->
        Forall2 (fun a b => lower_name_of a = lower_name_of b
                            /\ id_of a = id_of b) tags1 tags2 ->
        suggested_tag_ids_of (JObj document1) (JList tags1) =
        suggested_tag_ids_of (JObj document1) (JList tags2)).
Proof.
  intros document1 document2.
  refine (suggestion_ignores_case document1 document2
           "INVOICE from Acme" "Total" "invoice FROM acme" "TOTAL" _ _ _ _ _ _).
  - reflexivity.
  - reflexivity.
  - reflexivity.
  - reflexivity.
  - reflexivity.
  - reflexivity.
Defined.

Lemma analyze_without_tags_witness :
  let upstream : list Request -> Request -> Outcome :=
    fun _ r =>
      match r with
      | GET Tags _ => Body (dict [("count", JInt 0)])
      | _ => Body (dict [("title", JInt 5)])
      end in
  tool_analyze_document upstream Example.str Example.set_order 7 true [] =
  (inr (dict [("success", JBool true);
              ("document_id", JInt 7);
              ("document_title", JInt 5);
              ("suggested_tags", JList []);
              ("suggested_tag_ids", JList []);
              ("tags_updated", JBool true);
              ("message", JStr "Document analyzed successfully")]),
   [] ++ [GET (Document 7) ∅; GET Tags ∅]).
Proof.
  intros upstream.
  refine (analyze_without_tags upstream Example.str Example.set_order 7 true
            {["title" := JInt 5]} (dict [("count", JInt 0)]) (JList []) []
            _ _ _ _).
  - reflexivity.
  - reflexivity.
  - reflexivity.
  - reflexivity.
Defined.

Lemma analyze_write_back_failure_witness :
  let tags := [Example.tag 1 "invoice"; Example.tag 2 "acme";
               Example.tag 3 "receipt"] in
  let document := Example.document 7 "Invoice from Acme Corp" "" [5; 1] 3 2 in
  let current_doc :=
    Example.document_fields 7 "Invoice from Acme Corp" "" [5; 1] 3 2 in
  let upstream : list Request -> Request -> Outcome :=
    fun log r =>
      match r with
      | PUT _ _ => Failed (Some 403) "403 Client Error: Forbidden"
      | _ => Example.paperless [document] tags log r
      end in
  let fetch := GET (Document 7) ∅ in
  let listing := GET Tags ∅ in
  let write :=
    PUT (Document 7)
      (JObj ({["tags" := JList [JInt 5; JInt 1; JInt 2]]} ∪ current_doc)) in
  tool_analyze_document upstream Example.str Example.set_order 7 true [] =
  (inr (dict [("success", JBool false);
              ("error",
                JStr "Error updating document: 403 Client Error: Forbidden");
              ("document_id", JInt 7)]),
   [] ++ [fetch; listing; fetch; write]).
Proof.
  intros tags document current_doc upstream fetch listing write.
  refine (proj2 (analyze_write_back_failure upstream Example.str
                   Example.set_order 7 document
                   (dict [("results", JList tags)]) (JList tags)
                   [JInt 1; JInt 2] [JInt 5; JInt 1; JInt 2] [] _ _ _ _ _ _)
            current_doc (Some 403) "403 Client Error: Forbidden" _ _).
  - reflexivity.
  - reflexivity.
  - reflexivity.
  - vm_compute. reflexivity.
  - discriminate.
  - vm_compute. reflexivity.
  - reflexivity.
  - reflexivity.
Defined.

Lemma similar_listing_query_witness :
  let upstream := Example.holding 7 {["title" := JStr "A"]} in
  let fetch := GET (Document 7) ∅ in
  exists params : gmap string Json,
    (tool_search_similar_documents upstream Example.str 7 5 []).2 =
      [] ++ [fetch; GET Documents params]
    /\ params !! "page_size" = Some (JInt (5 + 1))
    /\ params !! "correspondent__id" = None
    /\ params !! "document_type__id" = None
    /\ (forall key, is_Some (params !! key) ->
                    key ∈ ["page_size"; "correspondent__id"; "document_type__id"]).
Proof.
  intros upstream fetch.
  refine (similar_listing_query upstream Example.str 7 5
            {["title" := JStr "A"]} [] _).
  reflexivity.
Defined.

Lemma similar_result_length_witness :
  let docs := [Example.document 7 "A" "" [] 3 2;
               Example.document 8 "B" "" [] 3 2;
               Example.document 9 "C" "" [] 3 2;
               Example.document 10 "D" "" [] 3 2] in
  let upstream := Example.paperless docs [] in
  let others := List.filter (fun doc => negb (has_id 7 doc)) docs in
  exists (similar : list Json) (result : gmap string Json),
    (tool_search_similar_documents upstream Example.str 7 (-1) []).1 =
      inr (JObj result)
    /\ result !! "similar_documents" = Some (JList similar)
    /\ similar `prefix_of` others
    /\ Z.of_nat (length similar) =
       Z.max 0 (Z.of_nat (length others) + -1).
Proof.
  intros docs upstream others.
  refine (similar_result_length upstream Example.str 7 (-1)
            (Example.document_fields 7 "A" "" [] 3 2)
            (dict [("results", JList docs)]) docs [] _ _ _ _).
  - reflexivity.
  - reflexivity.
  - reflexivity.
  - repeat constructor; by eexists.
Defined.

Lemma similar_listing_without_id_witness :
  let reference_doc := Example.document_fields 7 "A" "" [] 3 2 in
  let docs := [JObj reference_doc; dict [("title", JStr "B")]] in
  let upstream := Example.paperless docs [] in
  let fetch := GET (Document 7) ∅ in
  let listing :=
    GET Documents
      (documents_params JNull JNull (JInt 3) (JInt 2) JNull JNull (5 + 1)) in
  tool_search_similar_documents upstream Example.str 7 5 [] =
  (inr (dict [("success", JBool false);
              ("error", JStr "id");
              ("reference_document_id", JInt 7)]),
   [] ++ [fetch; listing]).
Proof.
  intros reference_doc docs upstream fetch listing.
  refine (similar_listing_without_id upstream Example.str 7 5 reference_doc
            {["title" := JStr "B"]} (dict [("results", JList docs)])
            [JObj reference_doc] [] [] _ _ _ _ _).
  - reflexivity.
  - reflexivity.
  - reflexivity.
  - repeat constructor; by eexists.
  - reflexivity.
Defined.

Lemma url_distinct_witness :
  url "http://paperless:8000/api/" "http://n8n:5678/api/v1" (Document 7)
  <> url "http://paperless:8000/api/" "http://n8n:5678/api/v1" (Document 70).
Proof.
  refine (url_distinct "http://paperless:8000/api/" "http://n8n:5678/api/v1"
            (Document 7) (Document 70) _ _).
  - reflexivity.
  - discriminate.
Defined.

Lemma analyze_suggests_matching_tags_witness :
  let tags := [Example.tag 1 "Invoice"; Example.tag 2 "ACME";
               Example.tag 3 "receipt"] in
  let title := "Invoice from Acme Corp" in
  let upstream := Example.paperless [Example.document 7 title "" [5; 1] 3 2] tags in
  let suggested := matching_tags title "" tags in
  tool_analyze_document upstream Example.str Example.set_order 7 false [] =
    (inr (analysis_success 7 (JStr title)
            (map name_of suggested) (map id_of suggested) false),
     [] ++ [GET (Document 7) ∅; GET Tags ∅])
  /\ forall tag,
      tag ∈ suggested <->
      tag ∈ tags
      /\ ((exists pre post,
             Py.lower_string title = pre +:+ lower_name_of tag +:+ post)
          \/ (exists pre post,
                Py.lower_string "" = pre +:+ lower_name_of tag +:+ post)).
Proof.
  intros tags title upstream suggested.
  refine (analyze_suggests_matching_tags upstream Example.str Example.set_order 7
            (Example.document_fields 7 title "" [5; 1] 3 2)
            (dict [("results", JList tags)]) tags title "" [] _ _ _ _ _ _ _ _).
  - reflexivity.
  - reflexivity.
  - reflexivity.
  - reflexivity.
  - reflexivity.
  - repeat constructor; by eexists _, _.
  - compute_done.
  - intros t1 t2 H1 H2 Heq.
    repeat (apply elem_of_cons in H1 as [->|H1]);
      [| | |by apply elem_of_nil in H1];
      (repeat (apply elem_of_cons in H2 as [->|H2]);
       [| | |by apply elem_of_nil in H2]);
      first [reflexivity | vm_compute in Heq; discriminate Heq].
Defined.

(** ** Invocation through the registry *)

Lemma request_failed_nil (upstream : list Request -> Request -> Outcome)
    (log : list Request) :
  ~ request_failed upstream log [].
Proof. by intros (k & r & s & m & Hk & _). Qed.

Lemma request_failed_one (upstream : list Request -> Request -> Outcome)
    (log : list Request) (r : Request) :
  request_failed upstream log [r] -> exists s m, upstream log r = Failed s m.
Proof.
  intros (k & r' & s & m & Hk & Hfail). destruct k as [|k]; [|done].
  simpl in *. injection Hk as <-. rewrite app_nil_r in Hfail. eauto.
Qed.

Lemma request_failed_app (upstream : list Request -> Request -> Outcome)
    (log issued1 issued2 : list Request) :
  request_failed upstream log (issued1 ++ issued2) ->
  request_failed upstream log issued1
  \/ request_failed upstream (log ++ issued1) issued2.
Proof.
  intros (k & r & s & m & Hk & Hfail).
  destruct (decide (k < length issued1)%nat) as [Hlt|Hge].
  - left. exists k, r, s, m. rewrite lookup_app_l in Hk by done.
    split; [done|]. by rewrite take_app_le in Hfail by lia.
  - right. exists (k - length issued1)%nat, r, s, m.
    rewrite lookup_app_r in Hk by lia. split; [done|].
    rewrite take_app_ge in Hfail by lia. by rewrite <- app_assoc.
Qed.

Section Surfacing.

Variable upstream : list Request -> Request -> Outcome.
Variable str : Exception -> string.

Lemma raises_on_failure_ret {A} (a : A) : raises_on_failure upstream (ret a).
Proof.
  intros log. exists []. split; [by rewrite app_nil_r|].
  intros H. by apply request_failed_nil in H.
Qed.

Lemma raises_on_failure_lift {A} (r : Result A) :
  raises_on_failure upstream (lift r).
Proof.
  intros log. exists []. split; [by rewrite app_nil_r|].
  intros H. by apply request_failed_nil in H.
Qed.

Lemma raises_on_failure_bind {A B} (m : M A) (k : A -> M B) :
  raises_on_failure upstream m ->
  (forall a, raises_on_failure upstream (k a)) ->
  raises_on_failure upstream (bind m k).
Proof.
  intros Hm Hk log. unfold bind.
  destruct (Hm log) as (issued1 & Hlog1 & Hfail1).
  destruct (m log) as [[e|a] log1] eqn:Hrun; simpl in *; subst log1.
  - exists issued1. split; [done|]. eauto.
  - destruct (Hk a (log ++ issued1)) as (issued2 & Hlog2 & Hfail2).
    exists (issued1 ++ issued2). split; [by rewrite Hlog2, app_assoc|].
    intros [H|H]%request_failed_app; [|by apply Hfail2].
    by destruct (Hfail1 H).
Qed.

Lemma raises_on_failure_call (c : Client) :
  raises_on_failure upstream (call upstream str c).
Proof.
  intros log. rewrite call_run. exists [request_of c]. split; [done|].
  intros (s & m & ->)%request_failed_one. simpl. eauto.
Qed.

Lemma raises_on_failure_update (document_id : Z) (update_data : gmap string Json) :
  raises_on_failure upstream
    (update_paperless_document upstream str document_id update_data).
Proof.
  intros log. rewrite update_paperless_document_run. cbv zeta.
  set (fetch := GET (Document document_id) ∅).
  destruct (upstream log fetch) as [s m|current] eqn:Hfetch.
  { exists [fetch]. split; [done|]. simpl. eauto. }
  destruct current as [| | | | |current_doc];
    try (exists [fetch]; split; [done|]; simpl; eauto).
  set (write := PUT _ _).
  exists ([fetch] ++ [write]). split; [by rewrite <- app_assoc|].
  intros [H|H]%request_failed_app.
  - apply request_failed_one in H as (s & m & H). congruence.
  - apply request_failed_one in H as (s & m & ->). simpl. eauto.
Qed.

(** A handler turns what its body raises into its failure result. *)
Lemma except_Exception_failure (body : M Json) (f : Exception -> Json)
    (log issued : list Request) :
  raises_on_failure upstream body ->
  (except_Exception body (fun e => ret (f e)) log).2 = log ++ issued ->
  request_failed upstream log issued ->
  exists e, (except_Exception body (fun e => ret (f e)) log).1 = inr (f e).
Proof.
  intros Hbody Hlog Hfail. unfold except_Exception in *.
  destruct (Hbody log) as (issued' & Hlog' & Hraise).
  destruct (body log) as [[e|j] log'] eqn:Hrun; simpl in *; [eauto|].
  rewrite Hlog' in Hlog. apply app_inv_head in Hlog as ->.
  by destruct (Hraise Hfail).
Qed.

End Surfacing.

Section RegistryInvocation.

Variable upstream : list Request -> Request -> Outcome.
Variable str : Exception -> string.
Variable set_order : list Json -> list Json.
Variable now : string.

Ltac surfaces :=
  cbv zeta;
  repeat first
    [ apply raises_on_failure_ret
    | apply raises_on_failure_lift
    | apply raises_on_failure_update
    | apply (raises_on_failure_call upstream str (FetchDocument _))
    | apply (raises_on_failure_call upstream str FetchTags)
    | apply (raises_on_failure_call upstream str FetchCorrespondents)
    | apply (raises_on_failure_call upstream str FetchDocumentTypes)
    | apply (raises_on_failure_call upstream str FetchWorkflows)
    | apply (raises_on_failure_call upstream str (FetchDocuments _ _ _ _ _ _ _))
    | apply (raises_on_failure_call upstream str (TriggerWorkflow _ _))
    | apply raises_on_failure_bind; [|intros ?]
    | match goal with
      | |- raises_on_failure _ (if ?b then _ else _) => destruct b
      end ].

Ltac handler_fails Hlog Hfail :=
  match type of Hlog with
  | context [except_Exception ?body (fun e => ret (@?f e)) ?log] =>
      let e := fresh "e" in
      let Hrun := fresh "Hrun" in
      destruct (except_Exception_failure upstream body f log _
                  ltac:(surfaces) Hlog Hfail) as [e Hrun];
      eexists; split; [exact Hrun|]; split;
      [ eexists; reflexivity
      | unfold carries_data; cbn [is_tool data_field];
        first [ intros [_ Habsent]; discriminate Habsent
              | intros Hsuccess; discriminate Hsuccess ] ]
  end.

(** When a request of an invocation fails, the invocation returns its
    failure result. *)
Lemma invoke_failure (i : Invocation) (log issued : list Request) :
  (invoke upstream str set_order now i log).2 = log ++ issued ->
  request_failed upstream log issued ->
  exists result,
    (invoke upstream str set_order now i log).1 = inr (JObj result)
    /\ reports_error result
    /\ ~ carries_data i result.
Proof.
  intros Hlog Hfail.
  destruct i; cbn [invoke] in *;
    [ unfold get_documents in *
    | unfold get_document in *
    | unfold get_tags in *
    | unfold get_correspondents in *
    | unfold get_document_types in *
    | unfold get_workflows in *
    | unfold tool_trigger_workflow in *
    | unfold tool_update_document_tags in *
    | unfold tool_analyze_document in *
    | unfold tool_search_similar_documents in * ];
    handler_fails Hlog Hfail.
Qed.

End RegistryInvocation.

Section RegistrySuccess.

Variable upstream : list Request -> Request -> Outcome.
Variable str : Exception -> string.
Variable set_order : list Json -> list Json.
Variable now : string.

(** The suggestion is computed for every document with a string title and
    a string content and every listing of tags. *)
Lemma suggested_tag_ids_of_tags
    (document : gmap string Json) (title content : string) (tags : list Json) :
  default (JStr "") (document !! "title") = JStr title ->
  default (JStr "") (document !! "content") = JStr content ->
  Forall is_tag tags ->
  exists ids, suggested_tag_ids_of (JObj document) (JList tags) = inr ids.
Proof.
  intros Htitle Hcontent Htags. unfold suggested_tag_ids_of. simpl.
  rewrite Htitle, Hcontent. simpl.
  rewrite (tag_mapping_from_fold tags [] Htags). simpl.
  rewrite suggest_tags_filter. eauto.
Qed.

(** When the upstream answers every request of an invocation with a body
    of the shape the handler reads, the invocation returns its success
    result. *)
Lemma invoke_success (i : Invocation) (log : list Request) :
  well_answered upstream set_order now i log ->
  exists result log',
    invoke upstream str set_order now i log = (inr (JObj result), log')
    /\ carries_data i result.
Proof.
  assert (Hlisting : forall i c body,
             listing_of i = Some c ->
             upstream log (request_of c) = Body (JObj body) ->
             exists result log',
               invoke upstream str set_order now i log = (inr (JObj result), log')
               /\ carries_data i result).
  { intros i' c body Hc Hbody.
    rewrite (listing_run upstream str set_order now i' c log Hc), Hbody.
    assert (exists data, surfaced str c (Body (JObj body)) = inr data) as [data ->].
    { destruct c; simpl; eauto. }
    eexists _, _. split; [reflexivity|].
    destruct i'; try discriminate Hc; split;
      first [eexists; reflexivity|reflexivity]. }
  destruct i as [q t c d a b limit|document_id| | | | |workflow_id document_id
                 additional_data|document_id add_tags remove_tags|document_id
                 update_automatically|document_id max_results];
    cbn [well_answered listing_of].
  - intros [body Hbody]. by eapply Hlisting.
  - intros [body Hbody]. cbn [invoke].
    unfold get_document, except_Exception, bind.
    rewrite fetch_paperless_document_run, Hbody. simpl.
    eexists _, _. split; [reflexivity|].
    split; [eexists; reflexivity|reflexivity].
  - intros [body Hbody]. by eapply Hlisting.
  - intros [body Hbody]. by eapply Hlisting.
  - intros [body Hbody]. by eapply Hlisting.
  - intros [body Hbody].
    rewrite (listing_run upstream str set_order now GetWorkflows FetchWorkflows
               log eq_refl).
    cbn [request_of]. rewrite Hbody. simpl.
    eexists _, _. split; [reflexivity|].
    split; [eexists; reflexivity|reflexivity].
  - intros (document & result & Hfetch & Hpost). cbn [invoke].
    rewrite tool_trigger_workflow_run, Hfetch. cbv zeta. rewrite Hpost.
    eexists _, _. split; [reflexivity|]. reflexivity.
  - intros (document & current_doc & answer & current_tags
            & Hfetch & Htags & Hagain & Hput). cbn [invoke].
    rewrite (tool_update_document_tags_written upstream str document_id
               add_tags remove_tags (JObj document) (JList current_tags)
               (JList (new_tag_list add_tags remove_tags current_tags))
               current_doc log Hfetch);
      [|by simpl; rewrite Htags|apply updated_tag_list_list|exact Hagain].
    rewrite Hput. simpl.
    eexists _, _. split; [reflexivity|]. reflexivity.
  - intros (document & data & title & content & tags
            & Hfetch & Htitle & Hcontent & Hlist & Hresults & Htags & Hupdate).
    cbn [invoke].
    destruct (suggested_tag_ids_of_tags document title content tags
                Htitle Hcontent Htags) as [ids Hids].
    destruct (tool_analyze_document_analysed upstream str set_order
                document_id update_automatically (JObj document) (JObj data)
                (JList tags) ids log Hfetch Hlist)
      as (title' & tags' & Ht & Hiter & _ & Hrun);
      [by simpl; rewrite Hresults|exact Hids|].
    simpl in Hiter. injection Hiter as <-.
    rewrite Hrun. unfold analysis_tail.
    rewrite (suggested_names_filter tags ids Htags).
    destruct (update_automatically && negb (bool_decide (ids = []))) eqn:Hguard.
    2:{ eexists _, _. split; [reflexivity|]. reflexivity. }
    apply andb_true_iff in Hguard as [-> Hsome].
    apply negb_true_iff, bool_decide_eq_false in Hsome.
    destruct (Hupdate eq_refl ids Hids Hsome)
      as (current_tags & current_doc & answer & Hcurrent & Hhash & Hagain & Hput).
    rewrite (union_tags_list set_order document current_tags ids Hcurrent Hhash).
    rewrite update_paperless_document_run, Hagain. cbv zeta.
    rewrite <- app_assoc. simpl. rewrite Hput.
    eexists _, _. split; [reflexivity|]. reflexivity.
  - intros (reference_doc & data & docs & Hfetch & Hlist & Hresults & Hids).
    cbn [invoke].
    rewrite tool_search_similar_documents_run, Hfetch. cbv zeta. simpl.
    rewrite Hlist. simpl. rewrite Hresults. simpl.
    rewrite without_reference_list by done.
    eexists _, _. split; [reflexivity|]. reflexivity.
Qed.

(** C8, amended. An invocation under a name that is not registered returns
    [NotFoundError] and sends nothing.  An invocation under a registered
    name, with the required parameters present and values of the types the
    handler declares, returns an object that is a success result or a
    failure result with an error text: the success result when the
    upstream answers every request of the handler with a body of the shape
    the handler reads, the failure result when a request of the handler
    fails. *)
Theorem registry_invocation
    (name : string) (params : gmap string Json) (log : list Request) :
  (registered_as resources name = None ->
   exists run,
     invokeResource upstream str set_order now name params = Some run
     /\ run log = (inr (NotFoundError name), log))
  /\ (registered_as tools name = None ->
      exists run,
        invokeTool upstream str set_order now name params = Some run
        /\ run log = (inr (NotFoundError name), log))
  /\ (forall d i,
        registered_as resources name = Some d ->
        validated d params = true ->
        bind_resource name params = Some i ->
        exists run result log',
          invokeResource upstream str set_order now name params = Some run
          /\ run log = (inr (Completed (JObj result)), log')
          /\ (reports_error result \/ carries_data i result)
          /\ (well_answered upstream set_order now i log ->
              carries_data i result)
          /\ (forall issued,
                log' = log ++ issued ->
                request_failed upstream log issued ->
                reports_error result /\ ~ carries_data i result))
  /\ (forall d i,
        registered_as tools name = Some d ->
        validated d params = true ->
        bind_tool name params = Some i ->
        exists run result log',
          invokeTool upstream str set_order now name params = Some run
          /\ run log = (inr (Completed (JObj result)), log')
          /\ (reports_error result \/ carries_data i result)
          /\ (well_answered upstream set_order now i log ->
              carries_data i result)
          /\ (forall issued,
                log' = log ++ issued ->
                request_failed upstream log issued ->
                reports_error result /\ ~ carries_data i result)).
Proof.
  assert (Hknown : forall registered binding d i,
             registered_as registered name = Some d ->
             validated d params = true ->
             binding name params = Some i ->
             exists run result log',
               dispatch upstream str set_order now registered binding
                 name params = Some run
               /\ run log = (inr (Completed (JObj result)), log')
               /\ (reports_error result \/ carries_data i result)
               /\ (well_answered upstream set_order now i log ->
                   carries_data i result)
               /\ (forall issued,
                     log' = log ++ issued ->
                     request_failed upstream log issued ->
                     reports_error result /\ ~ carries_data i result)).
  { intros registered binding d i Hname Hvalid Hbind.
    unfold dispatch. rewrite Hname, Hvalid, Hbind.
    destruct (invocation_structured upstream str set_order now i log)
      as (result & log' & Hrun & Hresult).
    eexists _, result, log'. split; [reflexivity|].
    split; [unfold bind; by rewrite Hrun|]. split; [exact Hresult|]. split.
    - intros Hwell.
      destruct (invoke_success i log Hwell) as (result' & log'' & Hrun' & Hdata).
      rewrite Hrun in Hrun'. by injection Hrun' as -> _.
    - intros issued -> Hfail.
      destruct (invoke_failure upstream str set_order now i log issued)
        as (result' & Hrun' & Herror & Hnodata);
        [by rewrite Hrun|exact Hfail|].
      rewrite Hrun in Hrun'. simpl in Hrun'. by injection Hrun' as ->. }
  unfold invokeResource, invokeTool. repeat split.
  - intros Hunknown. unfold dispatch. rewrite Hunknown. by eexists.
  - intros Hunknown. unfold dispatch. rewrite Hunknown. by eexists.
  - intros d i. apply Hknown.
  - intros d i. apply Hknown.
Qed.

End RegistrySuccess.

Lemma registry_invocation_witness :
  let tags := [Example.tag 1 "invoice"] in
  let document := Example.document_fields 7 "Invoice from Acme Corp" "" [5] 3 2 in
  let upstream := Example.paperless [JObj document] tags in
  exists run result log',
    invokeTool upstream Example.str Example.set_order Example.now
      "analyze_document" {["document_id" := JInt 7]} = Some run
    /\ run [] = (inr (Completed (JObj result)), log')
    /\ carries_data (ToolAnalyzeDocument 7 false) result.
Proof.
  intros tags document upstream.
  edestruct (proj2 (proj2 (proj2 (registry_invocation upstream Example.str
                                    Example.set_order Example.now
                                    "analyze_document"
                                    {["document_id" := JInt 7]} [])))
               (nth 2 tools (Build_Descriptor "" "" []))
               (ToolAnalyzeDocument 7 false))
    as (run & result & log' & Hrun & Hresult & _ & Hwell & _);
    [reflexivity| reflexivity| reflexivity|].
  exists run, result, log'. split; [exact Hrun|]. split; [exact Hresult|].
  apply Hwell.
  exists document, {["results" := JList tags]}, "Invoice from Acme Corp", "", tags.
  repeat split; try reflexivity.
  - repeat constructor. by eexists _, _.
  - discriminate.
Defined.

(** Through the registry, with the document service up: the analysis of
    "Invoice from Acme Corp" completes with a success result. *)
Example registry_analyze_invoice :
  (fun run => run []) <$>
    invokeTool
      (Example.paperless [Example.document 7 "Invoice from Acme Corp" "" [5] 3 2]
         [Example.tag 1 "invoice"])
      Example.str Example.set_order Example.now
      "analyze_document" {["document_id" := JInt 7]} =
  Some (inr (Completed
               (dict [("success", JBool true);
                      ("document_id", JInt 7);
                      ("document_title", JStr "Invoice from Acme Corp");
                      ("suggested_tags", JList [JStr "invoice"]);
                      ("suggested_tag_ids", JList [JInt 1]);
                      ("tags_updated", JBool false);
                      ("message", JStr "Document analyzed successfully")])),
        [GET (Document 7) ∅; GET Tags ∅]).
Proof. vm_compute. reflexivity. Qed.

(** An unknown name: nothing is sent. *)
Example registry_unknown_tool :
  (fun run => run []) <$>
    invokeTool Example.unreachable Example.str Example.set_order Example.now
      "delete_document" {["document_id" := JInt 7]} =
  Some (inr (NotFoundError "delete_document"), []).
Proof. vm_compute. reflexivity. Qed.

(** A known name without its required parameter: nothing is sent. *)
Example registry_missing_parameter :
  (fun run => run []) <$>
    invokeTool Example.unreachable Example.str Example.set_order Example.now
      "analyze_document" {["update_automatically" := JBool true]} =
  Some (inr (InvalidParameters "analyze_document"), []).
Proof. vm_compute. reflexivity. Qed.

(** C8 as stated fails: [update_document_tags] is a registered name, its
    required parameter is present with a value of the declared type, and
    with the document service down the result says [success: False]. *)
Lemma registry_known_name_counterexample :
  (exists d,
      registered_as tools "update_document_tags" = Some d
      /\ validated d {["document_id" := JInt 7]} = true)
  /\ bind_tool "update_document_tags" {["document_id" := JInt 7]} =
     Some (ToolUpdateDocumentTags 7 None None)
  /\ (fun run => run []) <$>
       invokeTool Example.unreachable Example.str Example.set_order Example.now
         "update_document_tags" {["document_id" := JInt 7]} =
     Some (inr (Completed
                  (dict [("success", JBool false);
                         ("error",
                           JStr "Error fetching document: Connection refused");
                         ("document_id", JInt 7)])),
           [GET (Document 7) ∅]).
Proof.
  split; [eexists; split; vm_compute; reflexivity|].
  split; vm_compute; reflexivity.
Qed.
